(** * Parts Catalog Mapper: the mapping and reconciliation core of [app.py]

    A shallow embedding of [normalize_itemcode], [to_num], [build_df_mapped]
    and [compare_and_build_exports], together with the part of the pandas
    object model these functions rely on.

    Conventions of the model.
    - Text is a [string] of 8-bit characters; whitespace is what Python's
      [str.isspace] accepts in the ASCII range.
    - A cell of an object-dtype frame is a Python [str], an [int], the float
      [nan] or [None].  Other floats and dates are outside the model.
    - A frame is row-major: a list of column labels and a list of rows.  Its
      index is either positional ([RangeIndex], also used for the integer
      labels left behind by a row filter, which the code never reads) or a
      named list of labels.
    - A [Series] taken from a frame carries that frame's index, so pandas'
      index alignment on assignment and on comparison is the identity for
      every use in [app.py]; values are therefore kept positionally.
    - Frames are Python objects: they live in a store and are passed by
      reference.  Methods that return a new frame allocate it. *)

From Stdlib Require Import ZArith Ascii String List.
From stdpp Require Import base tactics option list strings gmap pretty.

Local Open Scope string_scope.
Local Open Scope list_scope.

(** ** Text *)

Module Text.

(** [str.isspace] on the ASCII range: TAB, LF, VT, FF, CR, the four
    separators FS GS RS US, and the space. *)
Definition is_space (a : ascii) : bool :=
  let n := N_of_ascii a in
  (((9 <=? n) && (n <=? 13)) || ((28 <=? n) && (n <=? 32)))%N.

Fixpoint lstrip (s : string) : string :=
  match s with
  | EmptyString => EmptyString
  | String a s' => if is_space a then lstrip s' else s
  end.

Fixpoint rstrip (s : string) : string :=
  match s with
  | EmptyString => EmptyString
  | String a s' =>
      match rstrip s' with
      | EmptyString => if is_space a then EmptyString else String a EmptyString
      | r => String a r
      end
  end.

(** [str.strip()] with no argument. *)
Definition strip (s : string) : string := rstrip (lstrip s).

(** [str.replace(",", "")]. *)
Fixpoint remove_commas (s : string) : string :=
  match s with
  | EmptyString => EmptyString
  | String a s' =>
      if Ascii.eqb a "," then remove_commas s' else String a (remove_commas s')
  end.

(** [", ".join(l)]. *)
Fixpoint join (sep : string) (l : list string) : string :=
  match l with
  | [] => ""
  | [x] => x
  | x :: l' => x +:+ sep +:+ join sep l'
  end.

End Text.

(** ** Cells, indexes, series and frames *)

Inductive cell :=
  | Str (s : string)
  | Int (z : Z)
  | NaN
  | PyNone.

Global Instance cell_eq_dec : EqDecision cell.
Proof. solve_decision. Defined.

Global Instance cell_inhabited : Inhabited cell := populate NaN.

(** Python's [str(x)], used by [Series.astype(str)]. *)
Definition astype_str (c : cell) : string :=
  match c with
  | Str s => s
  | Int z => pretty z
  | NaN => "nan"
  | PyNone => "None"
  end.

Inductive Index :=
  | RangeIndex
  | LabelIndex (name : string) (labels : list cell).

Global Instance Index_eq_dec : EqDecision Index.
Proof. solve_decision. Defined.

Record Series := mkSeries { s_index : Index; s_values : list cell }.

Record DataFrame := mkDF {
  index : Index;
  columns : list string;
  rows : list (list cell)
}.

Global Instance DataFrame_eq_dec : EqDecision DataFrame.
Proof. solve_decision. Defined.

(** Exceptions raised by the modelled code.  [Unbound] stands for a
    reference to no object, which Python cannot produce. *)
Inductive exn :=
  | ValueError (msg : string)
  | KeyError (key : string)
  | Unbound.

Inductive res (A : Type) :=
  | Ok (a : A)
  | Raise (e : exn).
Arguments Ok {A} a.
Arguments Raise {A} e.

Global Instance res_ret : MRet res := @Ok.
Global Instance res_bind : MBind res := λ A B f m,
  match m with
  | Ok a => f a
  | Raise e => Raise e
  end.
Global Instance res_fmap : FMap res := λ A B f m,
  match m with
  | Ok a => Ok (f a)
  | Raise e => Raise e
  end.

Definition is_Ok {A} (r : res A) : Prop := ∃ a, r = Ok a.

(** ** The pandas operations used by the program *)

Module Pandas.

(** [Index.get_loc] on the column axis. *)
Definition get_loc (cols : list string) (c : string) : option nat :=
  fst <$> list_find (λ x, x = c) cols.

Definition cell_at (i : nat) (r : list cell) : cell := default NaN (r !! i).

(** [len(df)]. *)
Definition len (d : DataFrame) : nat := length (rows d).

(** The labels of an index over [n] rows. *)
Definition labels_of (ix : Index) (n : nat) : list cell :=
  match ix with
  | RangeIndex => Int <$> seqZ 0%Z (Z.of_nat n)
  | LabelIndex _ ls => ls
  end.

Definition index_labels (d : DataFrame) : list cell :=
  labels_of (index d) (len d).

Definition smap (f : cell → cell) (s : Series) : Series :=
  mkSeries (s_index s) (f <$> s_values s).

(** [df[c]]. *)
Definition getitem (d : DataFrame) (c : string) : res Series :=
  match get_loc (columns d) c with
  | Some i => Ok (mkSeries (index d) (cell_at i <$> rows d))
  | None => Raise (KeyError c)
  end.

(** [df[c] = s] for a series [s] on the index of [df]: the column is
    overwritten in place, or appended when the label is new. *)
Definition setitem (d : DataFrame) (c : string) (s : Series) : DataFrame :=
  match get_loc (columns d) c with
  | Some i =>
      mkDF (index d) (columns d)
           (imap (λ k r, <[i := default NaN (s_values s !! k)]> r) (rows d))
  | None =>
      mkDF (index d) (columns d ++ [c])
           (imap (λ k r, r ++ [default NaN (s_values s !! k)]) (rows d))
  end.

(** Selection by a boolean mask. *)
Fixpoint select {A} (keep : list bool) (l : list A) : list A :=
  match keep, l with
  | b :: keep', x :: l' => if b then x :: select keep' l' else select keep' l'
  | _, _ => []
  end.

Definition take_rows (keep : list bool) (d : DataFrame) : DataFrame :=
  mkDF (match index d with
        | RangeIndex => RangeIndex
        | LabelIndex n ls => LabelIndex n (select keep ls)
        end)
       (columns d) (select keep (rows d)).

(** [~duplicated(keep="last")]: a position is kept when its key does not
    occur again further down. *)
Fixpoint is_last (keys : list cell) : list bool :=
  match keys with
  | [] => []
  | k :: ks => bool_decide (k ∉ ks) :: is_last ks
  end.

(** [df.drop_duplicates(subset=[c], keep="last")]. *)
Definition drop_duplicates_last (d : DataFrame) (c : string) : res DataFrame :=
  keys ← getitem d c; Ok (take_rows (is_last (s_values keys)) d).

(** [df.set_index(c, drop=drop)]. *)
Definition set_index (d : DataFrame) (c : string) (drop : bool) : res DataFrame :=
  match get_loc (columns d) c with
  | Some i =>
      Ok (mkDF (LabelIndex c (cell_at i <$> rows d))
               (if drop then delete i (columns d) else columns d)
               (if drop then delete i <$> rows d else rows d))
  | None => Raise (KeyError c)
  end.

(** [df.reset_index(drop=drop)].  Without [drop] the index becomes the
    first column, under its name. *)
Definition reset_index (d : DataFrame) (drop : bool) : res DataFrame :=
  if drop then Ok (mkDF RangeIndex (columns d) (rows d))
  else
    let name := match index d with RangeIndex => "index" | LabelIndex n _ => n end in
    if bool_decide (name ∈ columns d)
    then Raise (ValueError ("cannot insert " +:+ name +:+ ", already exists"))
    else Ok (mkDF RangeIndex (name :: columns d)
                  (zip_with cons (index_labels d) (rows d))).

(** [Index.unique()]: first occurrences, in order. *)
Fixpoint unique (seen l : list cell) : list cell :=
  match l with
  | [] => []
  | x :: l' =>
      if bool_decide (x ∈ seen) then unique seen l' else x :: unique (x :: seen) l'
  end.

(** [a.intersection(b, sort=False)] and [a.difference(b, sort=False)]:
    the members of [a], in the order of [a]. *)
Definition intersection (a b : list cell) : list cell :=
  filter (λ x, x ∈ b) (unique [] a).

Definition difference (a b : list cell) : list cell :=
  filter (λ x, x ∉ b) (unique [] a).

(** The rows selected by a list of labels: for each label in turn, every
    row that carries it; [KeyError] when a label matches nothing. *)
Definition labelled (d : DataFrame) : list (cell * list cell) :=
  zip (index_labels d) (rows d).

Fixpoint loc_rows (lr : list (cell * list cell)) (labs : list cell)
  : res (list (cell * list cell)) :=
  match labs with
  | [] => Ok []
  | lab :: labs' =>
      match filter (λ p, p.1 = lab) lr with
      | [] => Raise (KeyError (astype_str lab))
      | hit => rest ← loc_rows lr labs'; Ok (hit ++ rest)
      end
  end.

Definition index_name (d : DataFrame) : string :=
  match index d with RangeIndex => "" | LabelIndex n _ => n end.

(** [df.loc[labs]]. *)
Definition loc_frame (d : DataFrame) (labs : list cell) : res DataFrame :=
  hit ← loc_rows (labelled d) labs;
  Ok (mkDF (LabelIndex (index_name d) hit.*1) (columns d) hit.*2).

(** [df.loc[labs, c]]. *)
Definition loc_col (d : DataFrame) (labs : list cell) (c : string) : res Series :=
  match get_loc (columns d) c with
  | None => Raise (KeyError c)
  | Some i =>
      hit ← loc_rows (labelled d) labs;
      Ok (mkSeries (LabelIndex (index_name d) hit.*1) (cell_at i <$> hit.*2))
  end.

(** The value a series holds for a label, [nan] when it has none: what
    [Series.reindex] yields position by position. *)
Definition series_at (s : Series) (lab : cell) : cell :=
  default NaN
    (snd <$> head (filter (λ p, p.1 = lab)
                     (zip (labels_of (s_index s) (length (s_values s)))
                          (s_values s)))).

(** [df.loc[labs, c] = s]: every row whose label is listed receives, in
    column [c], the value [s] holds for that label.  A label that matches
    no row is a [KeyError]; a new column label enlarges the frame. *)
Definition loc_setitem (d : DataFrame) (labs : list cell) (c : string) (s : Series)
  : res DataFrame :=
  match filter (λ lab, lab ∉ index_labels d) labs with
  | miss :: _ => Raise (KeyError (astype_str miss))
  | [] =>
      let put (i : nat) (lab : cell) (r : list cell) :=
        if bool_decide (lab ∈ labs) then <[i := series_at s lab]> r else r in
      match get_loc (columns d) c with
      | Some i =>
          Ok (mkDF (index d) (columns d)
                   (zip_with (put i) (index_labels d) (rows d)))
      | None =>
          Ok (mkDF (index d) (columns d ++ [c])
                   (zip_with (put (length (columns d))) (index_labels d)
                             ((λ r, r ++ [NaN]) <$> rows d)))
      end
  end.

(** [df.get(c, default)]. *)
Inductive colspec :=
  | ColList (l : list cell)
  | ColSeries (s : Series)
  | ColScalar (c : cell).

Definition get (d : DataFrame) (c : string) (dflt : cell) : colspec :=
  match getitem d c with
  | Ok s => ColSeries s
  | Raise _ => ColScalar dflt
  end.

Definition colspec_at (k : nat) (v : colspec) : cell :=
  match v with
  | ColList l => default NaN (l !! k)
  | ColSeries s => default NaN (s_values s !! k)
  | ColScalar c => c
  end.

(** [pd.DataFrame({...})] over [n] rows, from lists of length [n], series
    on the range index of length [n], and scalars that are broadcast. *)
Definition from_dict (n : nat) (data : list (string * colspec)) : DataFrame :=
  mkDF RangeIndex data.*1
       ((λ k, (λ p, colspec_at k p.2) <$> data) <$> seq 0 n).

(** [pd.DataFrame({...}, columns=cols)]: the listed columns, in the listed
    order; a label the dictionary lacks gives a column of [nan]. *)
Definition from_dict_columns (n : nat) (data : list (string * colspec))
    (cols : list string) : DataFrame :=
  from_dict n
    ((λ c, (c, default (ColScalar NaN)
                 (snd <$> head (filter (λ p, p.1 = c) data)))) <$> cols).

(** [pd.DataFrame()]. *)
Definition empty_frame : DataFrame := mkDF RangeIndex [] [].

(** [df.reindex(columns=target)].  An equal column axis is returned as it
    is; otherwise the axis must be free of duplicates, and a label the
    frame lacks gives a column of [nan]. *)
Definition reindex_columns (d : DataFrame) (target : list string) : res DataFrame :=
  if decide (columns d = target) then Ok d
  else if bool_decide (NoDup (columns d)) then
    Ok (mkDF (index d) target
             ((λ r, (λ c, match get_loc (columns d) c with
                          | Some i => cell_at i r
                          | None => NaN
                          end) <$> target) <$> rows d))
  else Raise (ValueError "cannot reindex on an axis with duplicate labels").

End Pandas.

(** ** The object store *)

Module Store.

Abbreviation loc := positive.
Abbreviation heap := (gmap positive DataFrame).

(** A computation reads and updates the store and either returns or
    raises; the store survives an exception. *)
Definition M (A : Type) : Type := heap → res A * heap.

Global Instance M_ret : MRet M := λ A a h, (Ok a, h).
Global Instance M_bind : MBind M := λ A B f m h,
  match m h with
  | (Ok a, h') => f a h'
  | (Raise e, h') => (Raise e, h')
  end.

Definition raise {A} (e : exn) : M A := λ h, (Raise e, h).

Definition lift {A} (r : res A) : M A := λ h, (r, h).

Definition load (l : loc) : M DataFrame := λ h,
  match h !! l with
  | Some d => (Ok d, h)
  | None => (Raise Unbound, h)
  end.

Definition alloc (d : DataFrame) : M loc := λ h,
  let l := fresh (dom h) in (Ok l, <[l := d]> h).

Definition store (l : loc) (d : DataFrame) : M unit := λ h,
  match h !! l with
  | Some _ => (Ok (), <[l := d]> h)
  | None => (Raise Unbound, h)
  end.

(** [df.copy()]. *)
Definition copy (l : loc) : M loc := d ← load l; alloc d.

(** [df.columns.tolist()]. *)
Definition columns_tolist (l : loc) : M (list string) :=
  d ← load l; mret (columns d).

(** [df[c]], [df[c] = s] and [df.loc[labs, c] = s] on a reference. *)
Definition getitem (l : loc) (c : string) : M Series :=
  d ← load l; lift (Pandas.getitem d c).

Definition setitem (l : loc) (c : string) (s : Series) : M unit :=
  d ← load l; store l (Pandas.setitem d c s).

Definition loc_setitem (l : loc) (labs : list cell) (c : string) (s : Series)
  : M unit :=
  d ← load l; d' ← lift (Pandas.loc_setitem d labs c s); store l d'.

(** A method call that returns a new frame. *)
Definition call (f : DataFrame → res DataFrame) (l : loc) : M loc :=
  d ← load l; d' ← lift (f d); alloc d'.

End Store.

(** ** The program *)

Definition STANDARD_HEADERS : list string :=
  [ "Supplier"; "ItemCode"; "Description"; "PurchasePrice"; "SalesPrice";
    "SV_ManufacturerId"; "ListCategory"; "MarinaLocationId"; "AdditionDatetime" ].

Definition DROPDOWN_MAPPED_FIELDS : list string :=
  [ "Supplier"; "ItemCode"; "Description"; "PurchasePrice"; "SalesPrice";
    "SV_ManufacturerId"; "ListCategory" ].

(** [series.astype(str).str.strip()]. *)
Definition normalize_itemcode (s : Series) : Series :=
  Pandas.smap (λ c, Str (Text.strip (astype_str c))) s.

(** The loop of [build_df_mapped] over [STANDARD_HEADERS]: the entries it
    adds to the dictionary [out], in insertion order. *)
Fixpoint map_fields (df_source : DataFrame) (mapping : gmap string string)
    (fields : list string) : res (list (string * Pandas.colspec)) :=
  match fields with
  | [] => Ok []
  | field :: fields' =>
      if bool_decide (field ∈ ["MarinaLocationId"; "AdditionDatetime"])
      then map_fields df_source mapping fields'
      else
        let src_col := default "(not mapped)" (mapping !! field) in
        v ← (if bool_decide (src_col = "" ∨ src_col = "(not mapped)")
             then Ok (Pandas.ColList (replicate (Pandas.len df_source) (Str "")))
             else Pandas.ColSeries <$> Pandas.getitem df_source src_col);
        rest ← map_fields df_source mapping fields';
        Ok ((field, v) :: rest)
  end.

(** [build_df_mapped].  The frame under construction is local to the call
    and is rebound at every step. *)
Definition build_df_mapped (df_source : DataFrame) (mapping : gmap string string)
    (marina_location_id addition_dt : string) : res DataFrame :=
  let n := Pandas.len df_source in
  out ← map_fields df_source mapping STANDARD_HEADERS;
  let out := out ++
    [ ("MarinaLocationId", Pandas.ColList (replicate n (Str marina_location_id)));
      ("AdditionDatetime", Pandas.ColList (replicate n (Str addition_dt))) ] in
  let df_mapped := Pandas.from_dict_columns n out STANDARD_HEADERS in
  s ← Pandas.getitem df_mapped "ItemCode";
  let df_mapped := Pandas.setitem df_mapped "ItemCode" (normalize_itemcode s) in
  s ← Pandas.getitem df_mapped "ItemCode";
  let df_mapped :=
    Pandas.take_rows
      ((λ c, bool_decide (Text.strip (astype_str c) ≠ "")) <$> s_values s)
      df_mapped in
  d ← Pandas.drop_duplicates_last df_mapped "ItemCode";
  Pandas.reset_index d true.

(** [pd.to_numeric(..., errors="coerce")] is library code: its action on
    one text cell is a parameter, [None] standing for the float [nan].
    The numbers it yields are compared by value; the choice pandas makes
    between an integer and a float column, which only matters for integers
    beyond the range a float holds exactly, is not modelled. *)
Section Reconciler.

Context {num : Type} `{EqDecision num}.
Variable to_numeric : string → option num.

(** [to_num] on one cell. *)
Definition to_num_cell (c : cell) : option num :=
  let s := Text.strip (Text.remove_commas (astype_str c)) in
  if bool_decide (s = "" ∨ s = "nan" ∨ s = "None") then None else to_numeric s.

Definition to_num (s : Series) : list (option num) :=
  to_num_cell <$> s_values s.

(** [a.ne(b)]: [nan] differs from everything, itself included. *)
Definition ne_cell (x y : option num) : bool :=
  match x, y with
  | Some u, Some v => bool_decide (u ≠ v)
  | _, _ => true
  end.

Definition ne (a b : list (option num)) : list bool := zip_with ne_cell a b.

Definition required_catalog_cols : list string :=
  ["ItemCode"; "PurchasePrice"; "SalesPrice"].

(** The fourteen columns of the New Items sheet, built from [df_new]. *)
Definition new_items_of (df_new : DataFrame) : DataFrame :=
  let n := Pandas.len df_new in
  Pandas.from_dict n
    [ ("Id", Pandas.ColList (replicate n (Str "*")));
      ("Supplier", Pandas.get df_new "Supplier" (Str ""));
      ("ItemCode", Pandas.get df_new "ItemCode" (Str ""));
      ("Description", Pandas.get df_new "Description" (Str ""));
      ("PurchasePrice", Pandas.get df_new "PurchasePrice" (Str ""));
      ("SalesPrice", Pandas.get df_new "SalesPrice" (Str ""));
      ("SV_ManufacturerId", Pandas.get df_new "SV_ManufacturerId" (Str ""));
      ("ListCategory", Pandas.get df_new "ListCategory" (Str ""));
      ("RecordStatusId", Pandas.ColList (replicate n (Int 1)));
      ("MarinaLocationId", Pandas.get df_new "MarinaLocationId" (Str ""));
      ("AdditionDatetime", Pandas.get df_new "AdditionDatetime" (Str ""));
      ("ItemMaster_Id", Pandas.ColList (replicate n (Str "NULL")));
      ("AspNetUser_Id", Pandas.ColList (replicate n (Str "NULL")));
      ("SupersededItemCode", Pandas.ColList (replicate n (Str "NULL"))) ].

(** [drop_duplicates(subset=["ItemCode"], keep="last").set_index("ItemCode")]. *)
Definition lookup_of (d : DataFrame) : res DataFrame :=
  d' ← Pandas.drop_duplicates_last d "ItemCode";
  Pandas.set_index d' "ItemCode" true.

Definition compare_and_build_exports (df_mapped df_catalog : Store.loc)
  : Store.M (Store.loc * Store.loc * nat * nat) :=
  cat ← Store.load df_catalog;
  let missing := filter (λ c, c ∉ columns cat) required_catalog_cols in
  if bool_decide (missing ≠ []) then
    Store.raise (ValueError
      ("Marina catalog must contain columns: "
       +:+ Text.join ", " required_catalog_cols
       +:+ ". Missing: " +:+ Text.join ", " missing))
  else
  df_catalog_updated ← Store.copy df_catalog;
  original_col_order ← Store.columns_tolist df_catalog_updated;
  s ← Store.getitem df_catalog_updated "ItemCode";
  Store.setitem df_catalog_updated "ItemCode" (normalize_itemcode s);;
  df_mapped_local ← Store.copy df_mapped;
  s ← Store.getitem df_mapped_local "ItemCode";
  Store.setitem df_mapped_local "ItemCode" (normalize_itemcode s);;
  (* Lookups: new frames that are only read, kept as values. *)
  cu ← Store.load df_catalog_updated;
  catalog_lookup ← Store.lift (lookup_of cu);
  ml ← Store.load df_mapped_local;
  mapped_lookup ← Store.lift (lookup_of ml);
  let both_codes :=
    Pandas.intersection (Pandas.index_labels catalog_lookup)
                        (Pandas.index_labels mapped_lookup) in
  let new_codes :=
    Pandas.difference (Pandas.index_labels mapped_lookup)
                      (Pandas.index_labels catalog_lookup) in
  '(df_catalog_updated, updated_count) ←
    (if bool_decide (0 < length both_codes) then
       catalog_pp ← Store.lift (Pandas.loc_col catalog_lookup both_codes "PurchasePrice");
       catalog_sp ← Store.lift (Pandas.loc_col catalog_lookup both_codes "SalesPrice");
       mapped_pp ← Store.lift (Pandas.loc_col mapped_lookup both_codes "PurchasePrice");
       mapped_sp ← Store.lift (Pandas.loc_col mapped_lookup both_codes "SalesPrice");
       let needs_update :=
         zip_with orb (ne (to_num catalog_pp) (to_num mapped_pp))
                      (ne (to_num catalog_sp) (to_num mapped_sp)) in
       let codes_to_update :=
         (λ c, Str (astype_str c)) <$> Pandas.select needs_update both_codes in
       if bool_decide (codes_to_update ≠ []) then
         catalog_indexed ←
           Store.call (λ d, Pandas.set_index d "ItemCode" false) df_catalog_updated;
         pp ← Store.lift (Pandas.loc_col mapped_lookup codes_to_update "PurchasePrice");
         Store.loc_setitem catalog_indexed codes_to_update "PurchasePrice" pp;;
         sp ← Store.lift (Pandas.loc_col mapped_lookup codes_to_update "SalesPrice");
         Store.loc_setitem catalog_indexed codes_to_update "SalesPrice" sp;;
         df_catalog_updated ←
           Store.call (λ d, Pandas.reset_index d true) catalog_indexed;
         mret (df_catalog_updated, length codes_to_update)
       else mret (df_catalog_updated, 0)
     else mret (df_catalog_updated, 0));
  new_items_df ←
    (if bool_decide (0 < length new_codes) then
       df_new ← Store.lift (d ← Pandas.loc_frame mapped_lookup new_codes;
                            Pandas.reset_index d false);
       Store.alloc (new_items_of df_new)
     else Store.alloc Pandas.empty_frame);
  df_catalog_updated ←
    Store.call (λ d, Pandas.reindex_columns d original_col_order) df_catalog_updated;
  mret (df_catalog_updated, new_items_df, updated_count, length new_codes).

End Reconciler.

(** [reconcile standardized catalog]: the call
    [compare_and_build_exports(df_mapped, df_catalog)] made on a store that
    holds exactly the two argument frames, with the returned references
    read back. *)
Definition reconcile {num : Type} `{EqDecision num} (to_numeric : string → option num)
    (standardized catalog : DataFrame) : res (DataFrame * DataFrame * nat * nat) :=
  let h0 : Store.heap := <[2%positive := catalog]> {[1%positive := standardized]} in
  match compare_and_build_exports to_numeric 1%positive 2%positive h0 with
  | (Ok (lu, ln, uc, nc), h) =>
      match h !! lu, h !! ln with
      | Some u, Some n => Ok (u, n, uc, nc)
      | _, _ => Raise Unbound
      end
  | (Raise e, _) => Raise e
  end.

(** ** An instance of the numeric parameter

    Plain decimal literals: an optional sign, digits, an optional fraction.
    The value is kept as a mantissa and a scale with no trailing zero, so
    that equal numbers are equal terms.  It serves to run the model. *)
Module Decimal.

Definition digit (a : ascii) : option Z :=
  let n := N_of_ascii a in
  if ((48 <=? n) && (n <=? 57))%N then Some (Z.of_N (n - 48)) else None.

(** [go dot m scale k s]: [m] is the mantissa read so far, [scale] the
    number of fraction digits, [k] the number of digits. *)
Fixpoint go (dot : bool) (m : Z) (scale k : nat) (s : string) : option (Z * nat) :=
  match s with
  | EmptyString => if bool_decide (k = 0) then None else Some (m, scale)
  | String a s' =>
      if Ascii.eqb a "." then
        if dot then None else go true m scale k s'
      else
        match digit a with
        | Some d => go dot (10 * m + d)%Z (if dot then S scale else scale) (S k) s'
        | None => None
        end
  end.

Fixpoint normalise (fuel : nat) (m : Z) (scale : nat) : Z * nat :=
  match fuel, scale with
  | S fuel', S scale' =>
      if bool_decide (m `mod` 10 = 0)%Z then normalise fuel' (m `div` 10)%Z scale'
      else (m, scale)
  | _, _ => (m, scale)
  end.

Definition parse (s : string) : option (Z * nat) :=
  let signed (sign : Z) (body : string) :=
    '(m, scale) ← go false 0%Z 0 0 body;
    Some (normalise scale (sign * m)%Z scale) in
  match s with
  | String "-" body => signed (-1)%Z body
  | String "+" body => signed 1%Z body
  | _ => signed 1%Z s
  end.

End Decimal.

(** ** The store-free reading of the program

    [exports] performs the steps of [compare_and_build_exports] on frame
    values.  [compare_and_build_exports_run] shows that the program
    computes exactly this while keeping every object of the caller intact. *)
Section Exports.

Context {num : Type} `{EqDecision num}.
Variable to_numeric : string → option num.

Definition normalized (d : DataFrame) : res DataFrame :=
  s ← Pandas.getitem d "ItemCode";
  Ok (Pandas.setitem d "ItemCode" (normalize_itemcode s)).

Definition schema_error (missing : list string) : exn :=
  ValueError
    ("Marina catalog must contain columns: "
     +:+ Text.join ", " required_catalog_cols
     +:+ ". Missing: " +:+ Text.join ", " missing).

Definition missing_cols (cat : DataFrame) : list string :=
  filter (λ c, c ∉ columns cat) required_catalog_cols.

Definition both_codes_of (catalog_lookup mapped_lookup : DataFrame) : list cell :=
  Pandas.intersection (Pandas.index_labels catalog_lookup)
                      (Pandas.index_labels mapped_lookup).

Definition new_codes_of (catalog_lookup mapped_lookup : DataFrame) : list cell :=
  Pandas.difference (Pandas.index_labels mapped_lookup)
                    (Pandas.index_labels catalog_lookup).

Definition codes_to_update_of (catalog_lookup mapped_lookup : DataFrame)
  : res (list cell) :=
  let both_codes := both_codes_of catalog_lookup mapped_lookup in
  catalog_pp ← Pandas.loc_col catalog_lookup both_codes "PurchasePrice";
  catalog_sp ← Pandas.loc_col catalog_lookup both_codes "SalesPrice";
  mapped_pp ← Pandas.loc_col mapped_lookup both_codes "PurchasePrice";
  mapped_sp ← Pandas.loc_col mapped_lookup both_codes "SalesPrice";
  let needs_update :=
    zip_with orb (ne (to_num to_numeric catalog_pp) (to_num to_numeric mapped_pp))
                 (ne (to_num to_numeric catalog_sp) (to_num to_numeric mapped_sp)) in
  Ok ((λ c, Str (astype_str c)) <$> Pandas.select needs_update both_codes).

Definition apply_updates (cu mapped_lookup : DataFrame) (codes : list cell)
  : res DataFrame :=
  ci ← Pandas.set_index cu "ItemCode" false;
  pp ← Pandas.loc_col mapped_lookup codes "PurchasePrice";
  ci ← Pandas.loc_setitem ci codes "PurchasePrice" pp;
  sp ← Pandas.loc_col mapped_lookup codes "SalesPrice";
  ci ← Pandas.loc_setitem ci codes "SalesPrice" sp;
  Pandas.reset_index ci true.

Definition new_items_frame (mapped_lookup : DataFrame) (new_codes : list cell)
  : res DataFrame :=
  if bool_decide (0 < length new_codes) then
    d ← Pandas.loc_frame mapped_lookup new_codes;
    df_new ← Pandas.reset_index d false;
    Ok (new_items_of df_new)
  else Ok Pandas.empty_frame.

Definition exports (m c : DataFrame) : res (DataFrame * DataFrame * nat * nat) :=
  if bool_decide (missing_cols c ≠ []) then Raise (schema_error (missing_cols c))
  else
    cu ← normalized c;
    ml ← normalized m;
    catalog_lookup ← lookup_of cu;
    mapped_lookup ← lookup_of ml;
    '(cu', updated_count) ←
      (if bool_decide (0 < length (both_codes_of catalog_lookup mapped_lookup)) then
         codes ← codes_to_update_of catalog_lookup mapped_lookup;
         if bool_decide (codes ≠ []) then
           d ← apply_updates cu mapped_lookup codes; Ok (d, length codes)
         else Ok (cu, 0)
       else Ok (cu, 0));
    new_items ← new_items_frame mapped_lookup
                  (new_codes_of catalog_lookup mapped_lookup);
    u ← Pandas.reindex_columns cu' (columns c);
    Ok (u, new_items, updated_count,
        length (new_codes_of catalog_lookup mapped_lookup)).

End Exports.

(** ** Vocabulary of the statements *)

(** The store [h'] keeps every object of [h] as it was. *)
Definition agrees_on (h h' : Store.heap) : Prop :=
  ∀ l d, h !! l = Some d → h' !! l = Some d.

(** A frame as the input adapter yields it: positional index, distinct
    column labels, one cell per column in every row. *)
Definition wf_frame (d : DataFrame) : Prop :=
  index d = RangeIndex
  ∧ NoDup (columns d)
  ∧ Forall (λ r, length r = length (columns d)) (rows d).

Global Instance wf_frame_dec d : Decision (wf_frame d).
Proof. unfold wf_frame. apply _. Defined.

(** The canonical key of a row whose [ItemCode] is at position [i]. *)
Definition key_of (i : nat) (r : list cell) : cell :=
  Str (Text.strip (astype_str (Pandas.cell_at i r))).

Definition keys_of (i : nat) (rs : list (list cell)) : list cell :=
  key_of i <$> rs.

(** The last row that carries key [k], and its cell at position [j]. *)
Definition last_row (i : nat) (rs : list (list cell)) (k : cell)
  : option (list cell) :=
  last (filter (λ r, key_of i r = k) rs).

Definition last_cell (i j : nat) (rs : list (list cell)) (k : cell) : cell :=
  from_option (Pandas.cell_at j) NaN (last_row i rs k).

(** A row with its key cell in canonical form. *)
Definition norm_row (i : nat) (r : list cell) : list cell :=
  <[i := key_of i r]> r.

(** The frame with its key column in canonical form, and the look-up view
    built from it: one row per key, the last one, without the key column. *)
Definition norm_frame (i : nat) (d : DataFrame) : DataFrame :=
  mkDF (index d) (columns d) (norm_row i <$> rows d).

Definition lookup_frame (i : nat) (d : DataFrame) : DataFrame :=
  mkDF (LabelIndex "ItemCode" (remove_dups (keys_of i (rows d))))
       (delete i (columns d))
       (Pandas.select (Pandas.is_last (keys_of i (rows d))) (delete i <$> rows d)).

(** The position of a column, past the end when the frame lacks it. *)
Definition pos (d : DataFrame) (c : string) : nat :=
  default (length (columns d)) (Pandas.get_loc (columns d) c).

Definition item_key (d : DataFrame) (r : list cell) : cell :=
  key_of (pos d "ItemCode") r.

Definition item_keys (d : DataFrame) : list cell := item_key d <$> rows d.

(** The cell in column [col] of the last row of [d] that carries key [k]. *)
Definition key_cell (d : DataFrame) (col : string) (k : cell) : cell :=
  last_cell (pos d "ItemCode") (pos d col) (rows d) k.

Definition both_keys (m c : DataFrame) : list cell :=
  filter (λ k, k ∈ item_keys m) (remove_dups (item_keys c)).

Definition new_keys (m c : DataFrame) : list cell :=
  filter (λ k, k ∉ item_keys c) (remove_dups (item_keys m)).

Section Outcome.

Context {num : Type} `{EqDecision num}.
Variable to_numeric : string → option num.

(** The difference test for key [k]. *)
Definition differs (m c : DataFrame) (k : cell) : bool :=
  ne_cell (to_num_cell to_numeric (key_cell c "PurchasePrice" k))
          (to_num_cell to_numeric (key_cell m "PurchasePrice" k))
  || ne_cell (to_num_cell to_numeric (key_cell c "SalesPrice" k))
             (to_num_cell to_numeric (key_cell m "SalesPrice" k)).

Definition keys_to_update (m c : DataFrame) : list cell :=
  filter (λ k, differs m c k = true) (both_keys m c).

(** A catalog row after the call. *)
Definition updated_row (m c : DataFrame) (r : list cell) : list cell :=
  let k := item_key c r in
  let r' := <[pos c "ItemCode" := k]> r in
  if bool_decide (k ∈ keys_to_update m c) then
    <[pos c "SalesPrice" := key_cell m "SalesPrice" k]>
      (<[pos c "PurchasePrice" := key_cell m "PurchasePrice" k]> r')
  else r'.

Definition updated_catalog (m c : DataFrame) : DataFrame :=
  mkDF RangeIndex (columns c) (updated_row m c <$> rows c).

End Outcome.

(** The frame [df_new] of the new keys, and the New Items sheet. *)
Definition df_new_of (m c : DataFrame) : DataFrame :=
  let i := pos m "ItemCode" in
  mkDF RangeIndex ("ItemCode" :: delete i (columns m))
       ((λ k, k :: delete i (default [] (last_row i (rows m) k))) <$> new_keys m c).

Definition new_items_table (m c : DataFrame) : DataFrame :=
  if bool_decide (new_keys m c = []) then Pandas.empty_frame
  else new_items_of (df_new_of m c).

Definition NEW_ITEMS_HEADERS : list string :=
  [ "Id"; "Supplier"; "ItemCode"; "Description"; "PurchasePrice"; "SalesPrice";
    "SV_ManufacturerId"; "ListCategory"; "RecordStatusId"; "MarinaLocationId";
    "AdditionDatetime"; "ItemMaster_Id"; "AspNetUser_Id"; "SupersededItemCode" ].

(** The frame carries the three columns the reconciler reads. *)
Definition has_required (d : DataFrame) : Prop :=
  Forall (λ x, x ∈ columns d) required_catalog_cols.

Global Instance has_required_dec d : Decision (has_required d).
Proof. unfold has_required. apply _. Defined.

(** An exception other than the schema error of the reconciler. *)
Definition foreign (e : exn) : Prop := ∀ missing, e ≠ schema_error missing.

(** The cell that [build_df_mapped] puts under [field] for source row [r]. *)
Definition field_cell (df_source : DataFrame) (mapping : gmap string string)
    (marina_location_id addition_dt : string) (field : string) (r : list cell)
  : cell :=
  if bool_decide (field = "MarinaLocationId") then Str marina_location_id
  else if bool_decide (field = "AdditionDatetime") then Str addition_dt
  else
    let src_col := default "(not mapped)" (mapping !! field) in
    if bool_decide (src_col = "" ∨ src_col = "(not mapped)") then Str ""
    else Pandas.cell_at (pos df_source src_col) r.

(** The standardized row built from source row [r]: the nine fields in
    order, the [ItemCode] cell (position 1) in canonical form. *)
Definition std_row (df_source : DataFrame) (mapping : gmap string string)
    (marina_location_id addition_dt : string) (r : list cell) : list cell :=
  norm_row 1
    ((λ field, field_cell df_source mapping marina_location_id addition_dt field r)
       <$> STANDARD_HEADERS).

(** The [ItemCode] cell of a standardized row. *)
Definition std_key (r : list cell) : cell := Pandas.cell_at 1 r.

(** The rows that pass the blank-key filter of [build_df_mapped]. *)
Definition kept (rs : list (list cell)) : list (list cell) :=
  filter (λ r, bool_decide (Text.strip (astype_str (Pandas.cell_at 1 r)) ≠ "") = true) rs.

(** The dictionary entry that [map_fields] builds for a mappable field. *)
Definition colspec_for (df_source : DataFrame) (mapping : gmap string string)
    (field : string) : Pandas.colspec :=
  let src_col := default "(not mapped)" (mapping !! field) in
  if bool_decide (src_col = "" ∨ src_col = "(not mapped)")
  then Pandas.ColList (replicate (Pandas.len df_source) (Str ""))
  else Pandas.ColSeries
         (mkSeries (index df_source)
            (Pandas.cell_at (pos df_source src_col) <$> rows df_source)).

(** Every field of the mapping is unmapped or names a source column. *)
Definition mapping_ok (df_source : DataFrame) (mapping : gmap string string) : Prop :=
  Forall (λ field,
            let src_col := default "(not mapped)" (mapping !! field) in
            src_col = "" ∨ src_col = "(not mapped)" ∨ src_col ∈ columns df_source)
         DROPDOWN_MAPPED_FIELDS.

Global Instance mapping_ok_dec s mp : Decision (mapping_ok s mp).
Proof. unfold mapping_ok. apply _. Defined.

(** ** Sample tables *)
Module Examples.

Definition catalog : DataFrame :=
  mkDF RangeIndex ["C"; "ItemCode"; "A"; "PurchasePrice"; "B"; "SalesPrice"]
    [ [Str "c1"; Str "A1"; Str "a1"; Str "10"; Str "b1"; Str "20"];
      [Str "c2"; Str "A2"; Str "a2"; Str "1,234.50"; Str "b2"; Str "7"];
      [Str "c3"; Str "X9"; Str "a3"; Str "3"; Str "b3"; Str "4"] ].

Definition standardized : DataFrame :=
  mkDF RangeIndex STANDARD_HEADERS
    [ [Str "s"; Str "A1"; Str "d1"; Str "10"; Str "25"; Str ""; Str ""; Str "7"; Str "t"];
      [Str "s"; Str "A2"; Str "d2"; Str "1234.5"; Str "7.0"; Str ""; Str ""; Str "7"; Str "t"];
      [Str "s"; Str "N1"; Str "d3"; Str "5"; Str "6"; Str ""; Str ""; Str "7"; Str "t"] ].

(** A standardized table whose prices are blank, as an unmapped price
    field leaves them. *)
Definition standardized_unpriced : DataFrame :=
  mkDF RangeIndex STANDARD_HEADERS
    [ [Str "s"; Str "A1"; Str "d1"; Str ""; Str ""; Str ""; Str ""; Str "7"; Str "t"];
      [Str "s"; Str "N1"; Str "d3"; Str ""; Str ""; Str ""; Str ""; Str "7"; Str "t"] ].

(** One standardized row for key [A1]. *)
Definition standardized_a1 : DataFrame :=
  mkDF RangeIndex STANDARD_HEADERS
    [ [Str "s"; Str "A1"; Str "d1"; Str "10"; Str "25"; Str ""; Str ""; Str "7"; Str "t"] ].

(** A catalog whose key cells carry padding, a number and a blank. *)
Definition catalog_padded : DataFrame :=
  mkDF RangeIndex ["ItemCode"; "PurchasePrice"; "SalesPrice"; "Notes"]
    [ [Str " A1 "; Str "10"; Str "20"; Str "keep"];
      [Str " X9 "; Str "1"; Str "2"; Str "only"];
      [Int 77; Str "3"; Str "4"; Str "number"];
      [NaN; Str "5"; Str "6"; Str "blank"] ].

(** A catalog in which key [A1] occurs twice. *)
Definition catalog_dup : DataFrame :=
  mkDF RangeIndex ["ItemCode"; "PurchasePrice"; "SalesPrice"; "Notes"]
    [ [Str "A1"; Str "10"; Str "25"; Str "first"];
      [Str "B2"; Str "1"; Str "2"; Str "other"];
      [Str "A1 "; Str "10"; Str "20"; Str "second"] ].

(** A catalog with prices that do not parse. *)
Definition catalog_unparsable : DataFrame :=
  mkDF RangeIndex ["ItemCode"; "PurchasePrice"; "SalesPrice"]
    [ [Str "A1"; Str "n/a"; Str "25"];
      [Str "N1"; Str ""; Str "nan"] ].

(** A source extract with a repeated and a blank item code. *)
Definition source : DataFrame :=
  mkDF RangeIndex ["code"; "desc"; "cost"]
    [ [Str " A "; Str "first"; Str "1"];
      [Str "B"; Str "b"; Str "2"];
      [Str "  "; Str "blank"; Str "3"];
      [Str "A"; Str "second"; Str "4"];
      [Str " "; Str "blank again"; Str "5"] ].

Definition mapping : gmap string string :=
  {[ "ItemCode" := "code"; "Description" := "desc"; "PurchasePrice" := "cost" ]}.

End Examples.

(** ** File names and the reader *)

Module FileName.

(** [str.lower()] on the ASCII letters. *)
Definition lower_char (a : ascii) : ascii :=
  let n := N_of_ascii a in
  if ((65 <=? n) && (n <=? 90))%N then ascii_of_N (n + 32) else a.

Fixpoint lower (s : string) : string :=
  match s with
  | EmptyString => EmptyString
  | String a s' => String (lower_char a) (lower s')
  end.

(** [s.endswith(suffix)]. *)
Fixpoint endswith (s suffix : string) : bool :=
  String.eqb s suffix
  || match s with
     | EmptyString => false
     | String _ s' => endswith s' suffix
     end.

End FileName.

(** [is_excel]; the argument may be [None]. *)
Definition is_excel (name : option string) : bool :=
  let name := FileName.lower (default "" name) in
  FileName.endswith name ".xlsx"
  || FileName.endswith name ".xlsm"
  || FileName.endswith name ".xls".

(** A Streamlit [UploadedFile]: its name and its bytes. *)
Record UploadedFile := mkUpload { upload_name : string; upload_bytes : string }.

(** [read_uploaded_file].  The two pandas readers are library code and are
    taken as parameters; each returns a frame or raises. *)
Definition read_uploaded_file (read_excel read_csv : string → res DataFrame)
    (uploaded_file : option UploadedFile) : res DataFrame :=
  match uploaded_file with
  | None => Raise (ValueError "No file provided.")
  | Some f =>
      let filename := upload_name f in
      df ← (if is_excel (Some filename) then read_excel (upload_bytes f)
            else read_csv (upload_bytes f));
      Ok (mkDF (index df) (Text.strip <$> columns df) (rows df))
  end.

(** ** Vocabulary of further statements *)

(** The New Items row of key [k]: the fields in the order of the sheet, each
    drawn from the last standardized row under [k], a field the
    standardized table lacks left empty. *)
Definition new_item_row (m : DataFrame) (k : cell) : list cell :=
  let r := default [] (last_row (pos m "ItemCode") (rows m) k) in
  let field f :=
    if bool_decide (f ∈ columns m) then Pandas.cell_at (pos m f) r else Str "" in
  [ Str "*"; field "Supplier"; k; field "Description"; field "PurchasePrice";
    field "SalesPrice"; field "SV_ManufacturerId"; field "ListCategory"; Int 1;
    field "MarinaLocationId"; field "AdditionDatetime";
    Str "NULL"; Str "NULL"; Str "NULL" ].

(** The mapping that sends every mappable field to the column of its own
    name. *)
Definition identity_mapping : gmap string string :=
  list_to_map ((λ f, (f, f)) <$> DROPDOWN_MAPPED_FIELDS).

(** ** The mapping form of the page

    The part of the Streamlit script that fills [session_state.mapping] and
    calls [build_df_mapped].  A select box is a choice made outside the
    program: [selectbox label options index] stands for the value the
    widget returns, and [now_stamp] for the clock reading of the call. *)

(** [l.index(x)].  The message is Python's for a text it prints as it is. *)
Definition list_index (l : list string) (x : string) : res nat :=
  match Pandas.get_loc l x with
  | Some i => Ok i
  | None => Raise (ValueError ("'" +:+ x +:+ "' is not in list"))
  end.

(** The loop over the mappable fields. *)
Fixpoint mapping_form (selectbox : string → list string → nat → string)
    (source_cols fields : list string) (mapping : gmap string string)
  : res (gmap string string) :=
  match fields with
  | [] => Ok mapping
  | field :: rest =>
      let dflt := default "(not mapped)" (mapping !! field) in
      let '(dflt, mapping) :=
        if bool_decide (dflt ∉ source_cols)
        then ("(not mapped)", <[field := "(not mapped)"]> mapping)
        else (dflt, mapping) in
      i ← list_index source_cols dflt;
      let chosen := selectbox field source_cols i in
      mapping_form selectbox source_cols rest (<[field := chosen]> mapping)
  end.

Definition mapping_dropdowns (selectbox : string → list string → nat → string)
    (df_source : DataFrame) (mapping : gmap string string)
  : res (gmap string string) :=
  let source_cols := "(not mapped)" :: columns df_source in
  mapping_form selectbox source_cols DROPDOWN_MAPPED_FIELDS mapping.

(** What pressing "Create Mapped Fields" does: the error shown when
    [ItemCode] is unmapped, the table stored, or the failure reported. *)
Inductive outcome :=
  | Blocked
  | Created (df_mapped : DataFrame)
  | Failed (e : exn).

Definition create_mapped_fields (now_stamp : string) (df_source : DataFrame)
    (mapping : gmap string string)
    (marina_location_id addition_dt : option string) : outcome :=
  if bool_decide (default "(not mapped)" (mapping !! "ItemCode") = "(not mapped)")
  then Blocked
  else
    let stamp := Text.strip (default "" addition_dt) in
    match build_df_mapped df_source mapping
            (Text.strip (default "" marina_location_id))
            (if bool_decide (stamp = "") then now_stamp else stamp) with
    | Ok df_mapped => Created df_mapped
    | Raise e => Failed e
    end.

(** * Properties *)

(** ** The result monad *)

Lemma res_bind_Ok {A B} (f : A → res B) a : Ok a ≫= f = f a.
Proof. reflexivity. Qed.

Lemma res_bind_Raise {A B} (f : A → res B) e : Raise e ≫= f = Raise e.
Proof. reflexivity. Qed.

Lemma res_bind_assoc {A B C} (f : A → res B) (g : B → res C) (m : res A) :
  (m ≫= f) ≫= g = m ≫= (λ a, f a ≫= g).
Proof. by destruct m. Qed.

(** ** Stepping through the store monad *)

Module StoreFacts.
Import Store.

Lemma bind_unfold {A B} (f : A → M B) (m : M A) (h : heap) :
  (m ≫= f) h =
  match m h with
  | (Ok a, h') => f a h'
  | (Raise e, h') => (Raise e, h')
  end.
Proof. reflexivity. Qed.

Lemma bind_load {B} (f : DataFrame → M B) l d (h : heap) :
  h !! l = Some d → (load l ≫= f) h = f d h.
Proof. intros Hl. rewrite bind_unfold. unfold load. by rewrite Hl. Qed.

Lemma bind_alloc {B} (f : loc → M B) d (h : heap) :
  (alloc d ≫= f) h = f (fresh (dom h)) (<[fresh (dom h) := d]> h).
Proof. reflexivity. Qed.

Lemma bind_lift {A B} (f : A → M B) (r : res A) (h : heap) :
  (lift r ≫= f) h =
  match r with Ok a => f a h | Raise e => (Raise e, h) end.
Proof. rewrite bind_unfold. unfold lift. by destruct r. Qed.

Lemma bind_store {B} (f : () → M B) l d d0 (h : heap) :
  h !! l = Some d0 → (store l d ≫= f) h = f () (<[l := d]> h).
Proof. intros Hl. rewrite bind_unfold. unfold store. by rewrite Hl. Qed.

Lemma bind_ret {A B} (f : A → M B) (a : A) (h : heap) :
  (mret a ≫= f) h = f a h.
Proof. reflexivity. Qed.

Lemma bind_assoc {A B C} (f : A → M B) (g : B → M C) (m : M A) (h : heap) :
  ((m ≫= f) ≫= g) h = (m ≫= (λ a, f a ≫= g)) h.
Proof.
  rewrite !bind_unfold. destruct (m h) as [[a|e] h']; [|done].
  by rewrite bind_unfold.
Qed.

Lemma bind_copy {B} (f : loc → M B) l d (h : heap) :
  h !! l = Some d →
  (copy l ≫= f) h = f (fresh (dom h)) (<[fresh (dom h) := d]> h).
Proof. intros Hl. unfold copy. rewrite bind_assoc. by rewrite (bind_load _ _ _ _ Hl). Qed.

Lemma bind_columns_tolist {B} (f : list string → M B) l d (h : heap) :
  h !! l = Some d → (columns_tolist l ≫= f) h = f (columns d) h.
Proof.
  intros Hl. unfold columns_tolist. rewrite bind_assoc.
  by rewrite (bind_load _ _ _ _ Hl).
Qed.

Lemma bind_getitem {B} (f : Series → M B) l c d (h : heap) :
  h !! l = Some d →
  (getitem l c ≫= f) h =
  match Pandas.getitem d c with Ok s => f s h | Raise e => (Raise e, h) end.
Proof.
  intros Hl. unfold getitem. rewrite bind_assoc, (bind_load _ _ _ _ Hl).
  apply bind_lift.
Qed.

Lemma bind_setitem {B} (f : () → M B) l c s d (h : heap) :
  h !! l = Some d →
  (setitem l c s ≫= f) h = f () (<[l := Pandas.setitem d c s]> h).
Proof.
  intros Hl. unfold setitem. rewrite bind_assoc, (bind_load _ _ _ _ Hl).
  by apply bind_store with d.
Qed.

Lemma bind_loc_setitem {B} (f : () → M B) l labs c s d (h : heap) :
  h !! l = Some d →
  (loc_setitem l labs c s ≫= f) h =
  match Pandas.loc_setitem d labs c s with
  | Ok d' => f () (<[l := d']> h)
  | Raise e => (Raise e, h)
  end.
Proof.
  intros Hl. unfold loc_setitem. rewrite bind_assoc, (bind_load _ _ _ _ Hl).
  rewrite bind_assoc, bind_lift. destruct (Pandas.loc_setitem d labs c s); [|done].
  by apply bind_store with d.
Qed.

Lemma bind_call {B} (f : loc → M B) g l d (h : heap) :
  h !! l = Some d →
  (call g l ≫= f) h =
  match g d with
  | Ok d' => f (fresh (dom h)) (<[fresh (dom h) := d']> h)
  | Raise e => (Raise e, h)
  end.
Proof.
  intros Hl. unfold call. rewrite bind_assoc, (bind_load _ _ _ _ Hl).
  rewrite bind_assoc, bind_lift. by destruct (g d).
Qed.

Lemma fresh_not_in (h : heap) l d : h !! l = Some d → fresh (dom h) ≠ l.
Proof.
  intros Hl E. apply (is_fresh (dom h)). rewrite E. apply elem_of_dom. eauto.
Qed.

End StoreFacts.

(** ** Lists: masks, last occurrences, label look-up *)

Module ListFacts.
Import Pandas.

Lemma select_fmap {A B} (f : A → B) keep (l : list A) :
  select keep (f <$> l) = f <$> select keep l.
Proof.
  revert l. induction keep as [|b keep IH]; intros [|x l]; simpl; try done.
  destruct b; simpl; by rewrite IH.
Qed.

Lemma select_test {A} (g : A → bool) (l : list A) :
  select (g <$> l) l = filter (λ x, g x = true) l.
Proof.
  induction l as [|x l IH]; [done|].
  cbn [fmap list_fmap select]. rewrite filter_cons, IH.
  by destruct (g x).
Qed.

Lemma select_length {A} keep (l : list A) : (length (select keep l) ≤ length l)%nat.
Proof.
  revert l. induction keep as [|b keep IH]; intros [|x l]; simpl; try lia.
  specialize (IH l). destruct b; simpl; lia.
Qed.

Lemma select_zip {A B} keep (l : list A) (k : list B) :
  select keep (zip l k) = zip (select keep l) (select keep k).
Proof.
  revert l k. induction keep as [|b keep IH]; intros [|x l] [|y k]; simpl; try done.
  - by destruct b, (select keep l).
  - destruct b; simpl; by rewrite IH.
Qed.

Lemma select_is_last (ks : list cell) : select (is_last ks) ks = remove_dups ks.
Proof.
  induction ks as [|k ks IH]; [done|]. simpl.
  case_bool_decide; case_decide; try done; by rewrite IH.
Qed.

Lemma select_sublist {A} keep (l : list A) : select keep l `sublist_of` l.
Proof.
  revert l. induction keep as [|b keep IH]; intros [|x l]; simpl;
    try apply sublist_nil_l.
  destruct b; [by apply sublist_skip|by apply sublist_cons].
Qed.

Lemma filter_none {A} (P : A → Prop) `{∀ x, Decision (P x)} (l : list A) :
  (∀ x, x ∈ l → ¬ P x) → filter P l = [].
Proof.
  induction l as [|x l IH]; intros Hl; [done|].
  rewrite filter_cons_False by (apply Hl; left).
  apply IH. intros y Hy. apply Hl. by right.
Qed.

(** Keeping last occurrences leaves, for each key, exactly its last entry. *)
Lemma filter_select_is_last {A} (k : cell) (kxs : list (cell * A)) :
  filter (λ p, p.1 = k) (select (is_last kxs.*1) kxs)
  = option_list (last (filter (λ p, p.1 = k) kxs)).
Proof.
  induction kxs as [|[k0 x0] kxs IH]; [done|].
  cbn [fmap list_fmap fst is_last select].
  rewrite (filter_cons _ (k0, x0)). cbn [fst].
  assert (Hnone : k ∉ kxs.*1 → filter (λ p : cell * A, p.1 = k) kxs = []).
  { intros Hk. apply filter_none. intros [k1 x1] Hin Hk1.
    simpl in Hk1. subst k1. apply Hk, list_elem_of_fmap. by exists (k, x1). }
  assert (Hsome : k ∈ kxs.*1 → filter (λ p : cell * A, p.1 = k) kxs ≠ []).
  { intros Hk Hnil. apply list_elem_of_fmap in Hk as (p & Hp & Hin).
    assert (Hf : p ∈ filter (λ p : cell * A, p.1 = k) kxs)
      by (by apply list_elem_of_filter).
    rewrite Hnil in Hf. by apply elem_of_nil in Hf. }
  case_bool_decide as Hlast.
  - rewrite filter_cons. cbn [fst]. case_decide as Hk.
    + subst k0. rewrite IH, (Hnone Hlast). done.
    + by rewrite IH.
  - rewrite IH. case_decide as Hk; [|done]. subst k0.
    specialize (Hsome Hlast).
    destruct (filter (λ p : cell * A, p.1 = k) kxs) as [|p l]; [done|].
    done.
Qed.

Lemma zip_fmap_both {A B C} (f : A → B) (g : A → C) (l : list A) :
  zip (f <$> l) (g <$> l) = (λ x, (f x, g x)) <$> l.
Proof. induction l; simpl; [done|]. by f_equal. Qed.

Lemma zip_with_fmap_both {A B C D} (h : B → C → D) (f : A → B) (g : A → C)
    (l : list A) :
  zip_with h (f <$> l) (g <$> l) = (λ x, h (f x) (g x)) <$> l.
Proof. induction l; simpl; [done|]. by f_equal. Qed.

Lemma filter_fmap_key {A} (key : A → cell) {B} (f : A → B) (k : cell) (l : list A) :
  filter (λ p, p.1 = k) ((λ x, (key x, f x)) <$> l)
  = (λ x, (key x, f x)) <$> filter (λ x, key x = k) l.
Proof.
  induction l as [|x l IH]; [done|]. cbn [fmap list_fmap].
  rewrite !filter_cons. cbn [fst]. case_decide; simpl; by rewrite IH.
Qed.

Lemma unique_NoDup seen (l : list cell) :
  NoDup l → (∀ x, x ∈ l → x ∉ seen) → unique seen l = l.
Proof.
  revert seen. induction l as [|x l IH]; intros seen Hnd Hs; [done|].
  simpl. apply NoDup_cons in Hnd as [Hx Hnd].
  rewrite bool_decide_eq_false_2 by (apply Hs; left).
  f_equal. apply IH; [done|]. intros y Hy [->|?]%elem_of_cons; [done|].
  apply (Hs y); [by right|done].
Qed.

Lemma imap_lookup_fmap {A B} (g : B → A → A) (dflt : B)
    (h : A → B) (l : list A) :
  imap (λ k r, g (default dflt ((h <$> l) !! k)) r) l = (λ r, g (h r) r) <$> l.
Proof.
  apply list_eq. intros k. rewrite list_lookup_imap, !list_lookup_fmap.
  by destruct (l !! k).
Qed.

Lemma delete_insert_same {A} (i : nat) (x : A) (l : list A) :
  delete i (<[i := x]> l) = delete i l.
Proof.
  revert i. induction l as [|y l IH]; intros [|i]; simpl; try done.
  by rewrite IH.
Qed.

Lemma filter_filter_implied {A} (P Q : A → Prop)
    `{∀ x, Decision (P x)} `{∀ x, Decision (Q x)} (l : list A) :
  (∀ x, x ∈ l → P x → Q x) → filter P (filter Q l) = filter P l.
Proof.
  induction l as [|x l IH]; intros Hl; [done|].
  assert (IH' := IH (λ y Hy, Hl y (list_elem_of_further _ _ _ Hy))).
  rewrite (filter_cons Q). destruct (decide (Q x)) as [Hq|Hq].
  - rewrite !filter_cons. by rewrite IH'.
  - rewrite IH'. rewrite filter_cons_False; [done|].
    intros Hp. apply Hq, Hl; [left|done].
Qed.

(** Among the last occurrences, a key is carried by its last row only. *)
Lemma filter_keep_last {A} (key : A → cell) (k : cell) (l : list A) :
  filter (λ x, key x = k) (select (is_last (key <$> l)) l)
  = option_list (last (filter (λ x, key x = k) l)).
Proof.
  pose proof (filter_select_is_last k ((λ x, (key x, x)) <$> l)) as Hf.
  rewrite <- list_fmap_compose in Hf.
  change (fst ∘ (λ x : A, (key x, x))) with key in Hf.
  rewrite select_fmap, !filter_fmap_key, fmap_last in Hf.
  apply (f_equal (fmap snd)) in Hf.
  rewrite <- list_fmap_compose in Hf.
  change (snd ∘ (λ x : A, (key x, x))) with (@id A) in Hf.
  rewrite list_fmap_id in Hf. rewrite Hf.
  by destruct (last (filter (λ x, key x = k) l)).
Qed.

End ListFacts.

(** ** The program against its store-free reading *)

Section Run.
Import StoreFacts Store.

Context {num : Type} `{EqDecision num}.
Variable to_numeric : string → option num.

Lemma agrees_refl h : agrees_on h h.
Proof. by intros l d. Qed.

Lemma agrees_insert (h h' : heap) l d :
  agrees_on h h' → h !! l = None → agrees_on h (<[l := d]> h').
Proof.
  intros Hag Hl l' d' Hl'. rewrite lookup_insert_ne; [by apply Hag|].
  intros ->. congruence.
Qed.

Lemma bind_normalize {B} (f : () → M B) l d (h : heap) :
  h !! l = Some d →
  (getitem l "ItemCode" ≫= λ s, setitem l "ItemCode" (normalize_itemcode s) ≫= f) h =
  match normalized d with
  | Ok d' => f () (<[l := d']> h)
  | Raise e => (Raise e, h)
  end.
Proof.
  intros Hl. rewrite (bind_getitem _ _ _ _ _ Hl). unfold normalized.
  destruct (Pandas.getitem d "ItemCode"); [|done].
  rewrite ?res_bind_Ok. by rewrite (bind_setitem _ _ _ _ _ _ Hl).
Qed.

Ltac name_fresh l Hl :=
  match goal with
  | |- context [fresh (dom ?H)] =>
      assert (Hl : H !! fresh (dom H) = None) by (apply not_elem_of_dom, is_fresh);
      set (l := fresh (dom H)) in *; clearbody l;
      repeat (apply lookup_insert_None in Hl as [Hl ?])
  end.

Ltac pure_step E :=
  rewrite ?res_bind_assoc;
  match goal with
  | |- context [match ?r ≫= _ with _ => _ end] =>
      destruct r eqn:E;
      [ rewrite !res_bind_Ok | rewrite !res_bind_Raise ]
  end.

Ltac fail_here :=
  eexists; split; [|reflexivity];
  repeat apply agrees_insert; try apply agrees_refl; done.

Ltac look :=
  repeat (rewrite lookup_insert_ne by congruence);
  first [apply lookup_insert_eq | eassumption].

Ltac finish :=
  eexists; split; cycle 1;
  [ eexists _, _; split;
    [ reflexivity | repeat split; first [look | congruence] ]
  | by (repeat apply agrees_insert; try apply agrees_refl) ].

Ltac tail_steps :=
  unfold new_items_frame, new_codes_of;
  match goal with
  | |- context [bool_decide (0 < length ?l)] => destruct (bool_decide (0 < length l))
  end;
  [ rewrite ?bind_assoc, bind_lift;
    (let E := fresh "E" in pure_step E; [|fail_here]);
    (let E := fresh "E" in pure_step E; [|fail_here]);
    rewrite ?res_bind_Ok
  | rewrite ?res_bind_Ok ];
  rewrite bind_alloc;
  (let l := fresh "ln" in let Hl := fresh "Hln" in name_fresh l Hl);
  (erewrite bind_call by look);
  (let E := fresh "E" in pure_step E; [|fail_here]);
  (let l := fresh "lu" in let Hl := fresh "Hlu" in name_fresh l Hl);
  finish.

(** The program computes [exports] and leaves the caller's objects alone. *)
Lemma compare_and_build_exports_run (h : heap) lm lc m c :
  h !! lm = Some m → h !! lc = Some c →
  ∃ h', agrees_on h h' ∧
    match exports to_numeric m c with
    | Ok (u, n, uc, nc) =>
        ∃ lu ln, compare_and_build_exports to_numeric lm lc h = (Ok (lu, ln, uc, nc), h')
                 ∧ h' !! lu = Some u ∧ h' !! ln = Some n
                 ∧ h !! lu = None ∧ h !! ln = None ∧ lu ≠ ln
    | Raise e => compare_and_build_exports to_numeric lm lc h = (Raise e, h')
    end.
Proof.
  intros Hm Hc. unfold compare_and_build_exports, exports.
  rewrite (bind_load _ _ _ _ Hc). fold (missing_cols c). fold (schema_error (missing_cols c)).
  case_bool_decide as Hmiss.
  { exists h. split; [apply agrees_refl|]. done. }
  rewrite (bind_copy _ _ _ _ Hc). name_fresh l1 Hl1.
  erewrite bind_columns_tolist by look.
  erewrite bind_normalize by look.
  pure_step E1; [|fail_here].
  rewrite insert_insert_eq.
  erewrite bind_copy by look.
  name_fresh l2 Hl2.
  erewrite bind_normalize by look.
  pure_step E2; [|fail_here].
  rewrite insert_insert_eq.
  erewrite bind_load by look.
  rewrite bind_lift.
  pure_step E3; [|fail_here].
  erewrite bind_load by look.
  rewrite bind_lift.
  pure_step E4; [|fail_here].
  unfold codes_to_update_of, apply_updates, both_codes_of.
  rewrite ?bind_assoc.
  case_bool_decide as Hboth.
  - rewrite ?res_bind_assoc.
    rewrite ?bind_assoc, bind_lift. pure_step E5; [|fail_here].
    rewrite ?bind_assoc, bind_lift. pure_step E6; [|fail_here].
    rewrite ?bind_assoc, bind_lift. pure_step E7; [|fail_here].
    rewrite ?bind_assoc, bind_lift. pure_step E8; [|fail_here].
    rewrite ?res_bind_Ok.
    case_bool_decide as Hcodes.
    + rewrite ?res_bind_assoc.
      rewrite ?bind_assoc. erewrite bind_call by look.
      pure_step E9; [|fail_here].
      name_fresh l3 Hl3.
      rewrite ?bind_assoc, bind_lift. pure_step E10; [|fail_here].
      rewrite ?bind_assoc. erewrite bind_loc_setitem by look.
      pure_step E11; [|fail_here].
      rewrite insert_insert_eq.
      rewrite ?bind_assoc, bind_lift. pure_step E12; [|fail_here].
      rewrite ?bind_assoc. erewrite bind_loc_setitem by look.
      pure_step E13; [|fail_here].
      rewrite insert_insert_eq.
      rewrite ?bind_assoc. erewrite bind_call by look.
      pure_step E14; [|fail_here].
      name_fresh l4 Hl4.
      rewrite ?bind_assoc, bind_ret, ?res_bind_Ok.
      tail_steps.
    + rewrite ?bind_assoc, bind_ret, ?res_bind_Ok. tail_steps.
  - rewrite ?bind_assoc, bind_ret, ?res_bind_Ok. tail_steps.
Qed.

End Run.

(** ** Text: stripping twice *)

Module TextFacts.
Import Text.

Lemma rstrip_cons a s :
  rstrip (String a s)
  = match rstrip s with
    | EmptyString => if is_space a then EmptyString else String a EmptyString
    | r => String a r
    end.
Proof. reflexivity. Qed.

Lemma rstrip_idem s : rstrip (rstrip s) = rstrip s.
Proof.
  induction s as [|a s IH]; [done|]. rewrite rstrip_cons.
  destruct (rstrip s) as [|b r] eqn:E.
  - destruct (is_space a) eqn:Ea; [done|]. rewrite rstrip_cons. cbn. by rewrite Ea.
  - rewrite rstrip_cons. by rewrite IH.
Qed.

(** A text that does not start with a blank keeps its first character
    under [rstrip]. *)
Lemma lstrip_rstrip_lstrip s : lstrip (rstrip (lstrip s)) = rstrip (lstrip s).
Proof.
  induction s as [|a s IH]; [done|]. cbn [lstrip].
  destruct (is_space a) eqn:Ea; [done|]. rewrite rstrip_cons.
  destruct (rstrip s); rewrite ?Ea; cbn [lstrip]; by rewrite Ea.
Qed.

Lemma strip_idem s : strip (strip s) = strip s.
Proof. unfold strip. by rewrite lstrip_rstrip_lstrip, rstrip_idem. Qed.

End TextFacts.

(** ** Frames: columns, keys and look-up views *)

Module FrameFacts.
Import Pandas ListFacts.

Lemma get_loc_Some cols c i : get_loc cols c = Some i → cols !! i = Some c.
Proof.
  unfold get_loc. intros Hf. apply fmap_Some in Hf as ([j x] & Hf & ->).
  apply list_find_Some in Hf as (Hl & -> & _). done.
Qed.

Lemma get_loc_lookup cols c i :
  NoDup cols → cols !! i = Some c → get_loc cols c = Some i.
Proof.
  intros Hnd Hl. unfold get_loc.
  assert (Hf : list_find (λ x, x = c) cols = Some (i, c)); [|by rewrite Hf].
  apply list_find_Some. split_and!; [done..|].
  intros j y Hj Hlt ->. assert (i = j) by (by eapply NoDup_lookup). lia.
Qed.

Lemma get_loc_elem cols c : c ∈ cols → is_Some (get_loc cols c).
Proof.
  intros Hin. unfold get_loc.
  destruct (list_find (λ x, x = c) cols) as [[i x]|] eqn:E; [by eexists|].
  apply list_find_None in E. by eapply Forall_forall in E.
Qed.

Lemma get_loc_None cols c : get_loc cols c = None → c ∉ cols.
Proof.
  intros Hn Hin. apply get_loc_elem in Hin as [i Hi]. congruence.
Qed.

Lemma get_loc_lt cols c i : get_loc cols c = Some i → (i < length cols)%nat.
Proof. intros Hg. apply get_loc_Some in Hg. by eapply lookup_lt_Some. Qed.

Lemma get_loc_inj cols a b i :
  get_loc cols a = Some i → get_loc cols b = Some i → a = b.
Proof. intros Ha%get_loc_Some Hb%get_loc_Some. congruence. Qed.

(** Dropping the key column moves the other columns but not their cells. *)
Lemma get_loc_delete cols a b i j :
  NoDup cols → get_loc cols a = Some i → get_loc cols b = Some j → a ≠ b →
  ∃ j', get_loc (delete i cols) b = Some j'
        ∧ ∀ r : list cell, cell_at j' (delete i r) = cell_at j r.
Proof.
  intros Hnd Ha%get_loc_Some Hb%get_loc_Some Hne.
  assert (i ≠ j) by (intros ->; congruence).
  assert (Hnd' : NoDup (delete i cols)).
  { apply (sublist_NoDup _ cols); [exact Hnd|apply sublist_delete]. }
  destruct (decide (j < i)%nat).
  - exists j. split.
    + apply get_loc_lookup; [done|]. by rewrite list_lookup_delete_lt.
    + intros r. unfold cell_at. by rewrite list_lookup_delete_lt.
  - exists (pred j). split.
    + apply get_loc_lookup; [done|].
      rewrite list_lookup_delete_ge by lia.
      replace (S (pred j)) with j by lia. done.
    + intros r. unfold cell_at. rewrite list_lookup_delete_ge by lia.
      by replace (S (pred j)) with j by lia.
Qed.

Lemma not_in_delete cols a i :
  NoDup cols → get_loc cols a = Some i → a ∉ delete i cols.
Proof.
  intros Hnd Ha%get_loc_Some Hin.
  apply list_elem_of_lookup in Hin as [j Hj].
  destruct (decide (j < i)%nat).
  - rewrite list_lookup_delete_lt in Hj by done.
    assert (i = j) by (by eapply NoDup_lookup). lia.
  - rewrite list_lookup_delete_ge in Hj by lia.
    assert (i = S j) by (by eapply NoDup_lookup). lia.
Qed.

Lemma cell_at_insert_eq i x (r : list cell) :
  (i < length r)%nat → cell_at i (<[i := x]> r) = x.
Proof. intros Hi. unfold cell_at. by rewrite list_lookup_insert_eq. Qed.

Lemma cell_at_insert_ne i j x (r : list cell) :
  i ≠ j → cell_at j (<[i := x]> r) = cell_at j r.
Proof. intros Hi. unfold cell_at. by rewrite list_lookup_insert_ne. Qed.

Lemma normalized_spec d i :
  get_loc (columns d) "ItemCode" = Some i → normalized d = Ok (norm_frame i d).
Proof.
  intros Hi. unfold normalized, getitem, setitem. rewrite Hi. simpl.
  unfold norm_frame. f_equal. f_equal.
  rewrite <- list_fmap_compose.
  apply (imap_lookup_fmap (λ v r, <[i := v]> r) NaN
           (λ r, Str (Text.strip (astype_str (cell_at i r))))).
Qed.

Lemma key_of_norm_row i (r : list cell) :
  (i < length r)%nat → cell_at i (norm_row i r) = key_of i r.
Proof. intros Hi. unfold norm_row. by rewrite cell_at_insert_eq. Qed.

Section Lookup.

Variables (d : DataFrame) (i : nat).
Hypothesis Hnd : NoDup (columns d).
Hypothesis Hlen : Forall (λ r, length r = length (columns d)) (rows d).
Hypothesis Hi : get_loc (columns d) "ItemCode" = Some i.

Lemma row_length r : r ∈ rows d → (i < length r)%nat.
Proof.
  intros Hr. eapply Forall_forall in Hlen; [|done]. rewrite Hlen.
  by eapply get_loc_lt.
Qed.

Lemma key_column : cell_at i <$> (norm_row i <$> rows d) = keys_of i (rows d).
Proof.
  rewrite <- list_fmap_compose. apply Forall_fmap_ext, Forall_forall.
  intros r Hr. simpl. by apply key_of_norm_row, row_length.
Qed.

Lemma lookup_of_spec : lookup_of (norm_frame i d) = Ok (lookup_frame i d).
Proof.
  unfold lookup_of, drop_duplicates_last, getitem. simpl. rewrite Hi. simpl.
  unfold set_index. simpl. rewrite Hi. unfold lookup_frame. f_equal. f_equal.
  - by rewrite <- select_fmap, !key_column, select_is_last.
  - rewrite key_column, <- !select_fmap. f_equal.
    rewrite <- list_fmap_compose. apply list_fmap_ext. intros k r _. simpl.
    apply delete_insert_same.
Qed.

Lemma index_labels_lookup :
  index_labels (lookup_frame i d) = remove_dups (keys_of i (rows d)).
Proof. reflexivity. Qed.

Lemma labelled_lookup :
  labelled (lookup_frame i d)
  = let kxs := (λ r, (key_of i r, delete i r)) <$> rows d in
    select (is_last kxs.*1) kxs.
Proof.
  unfold labelled. rewrite index_labels_lookup. simpl.
  rewrite <- select_is_last, <- select_zip. unfold keys_of.
  rewrite zip_fmap_both. f_equal. f_equal.
  by rewrite <- list_fmap_compose.
Qed.

Lemma last_row_Some k :
  k ∈ keys_of i (rows d) →
  ∃ r, last_row i (rows d) k = Some r ∧ key_of i r = k ∧ r ∈ rows d.
Proof.
  intros Hk. apply list_elem_of_fmap in Hk as (r0 & -> & Hr0).
  unfold last_row.
  destruct (last (filter (λ r, key_of i r = key_of i r0) (rows d))) as [r|] eqn:E.
  - exists r. split; [done|]. apply last_Some_elem_of in E.
    by apply list_elem_of_filter in E.
  - apply last_None in E.
    assert (r0 ∈ filter (λ r, key_of i r = key_of i r0) (rows d))
      by (by apply list_elem_of_filter).
    rewrite E in *. by apply elem_of_nil in H.
Qed.

Lemma loc_rows_lookup codes :
  (∀ k, k ∈ codes → k ∈ keys_of i (rows d)) →
  loc_rows (labelled (lookup_frame i d)) codes
  = Ok ((λ k, (k, delete i (default [] (last_row i (rows d) k)))) <$> codes).
Proof.
  rewrite labelled_lookup. cbv zeta.
  induction codes as [|k codes IH]; intros Hin; [done|].
  cbn [loc_rows]. rewrite filter_select_is_last, filter_fmap_key, fmap_last.
  fold (last_row i (rows d) k).
  destruct (last_row_Some k) as (r & Hr & Hk & _); [apply Hin; left|].
  rewrite Hr. cbn. rewrite IH by (intros; apply Hin; by right).
  cbn. by rewrite Hk, Hr.
Qed.

Lemma loc_col_lookup codes c j j' :
  (∀ k, k ∈ codes → k ∈ keys_of i (rows d)) →
  get_loc (delete i (columns d)) c = Some j' →
  (∀ r : list cell, cell_at j' (delete i r) = cell_at j r) →
  loc_col (lookup_frame i d) codes c
  = Ok (mkSeries (LabelIndex "ItemCode" codes) (last_cell i j (rows d) <$> codes)).
Proof.
  intros Hin Hj Hcell. unfold loc_col. cbn [columns lookup_frame].
  rewrite Hj, (loc_rows_lookup _ Hin). cbn. f_equal. f_equal.
  - f_equal. rewrite <- list_fmap_compose. by rewrite list_fmap_id.
  - rewrite <- !list_fmap_compose. apply list_fmap_ext. intros _ k _. simpl.
    rewrite Hcell. unfold last_cell. by destruct (last_row i (rows d) k).
Qed.

Lemma loc_frame_lookup codes :
  (∀ k, k ∈ codes → k ∈ keys_of i (rows d)) →
  loc_frame (lookup_frame i d) codes
  = Ok (mkDF (LabelIndex "ItemCode" codes) (delete i (columns d))
             ((λ k, delete i (default [] (last_row i (rows d) k))) <$> codes)).
Proof.
  intros Hin. unfold loc_frame. rewrite (loc_rows_lookup _ Hin). cbn.
  f_equal. f_equal.
  - f_equal. rewrite <- list_fmap_compose. by rewrite list_fmap_id.
  - by rewrite <- list_fmap_compose.
Qed.

End Lookup.

End FrameFacts.

(** ** Column positions *)

Module ColumnFacts.
Import Pandas FrameFacts.

Lemma pos_Some d x : x ∈ columns d → get_loc (columns d) x = Some (pos d x).
Proof.
  intros Hx. unfold pos. by destruct (get_loc_elem _ _ Hx) as [i ->].
Qed.

Lemma required_elems :
  "ItemCode" ∈ required_catalog_cols ∧ "PurchasePrice" ∈ required_catalog_cols
  ∧ "SalesPrice" ∈ required_catalog_cols.
Proof. unfold required_catalog_cols. set_solver. Qed.

Lemma has_required_elem d x :
  has_required d → x ∈ required_catalog_cols → x ∈ columns d.
Proof. intros Hd Hx. by eapply Forall_forall in Hd. Qed.

Lemma has_required_cols d :
  has_required d →
  "ItemCode" ∈ columns d ∧ "PurchasePrice" ∈ columns d ∧ "SalesPrice" ∈ columns d.
Proof.
  intros Hd. destruct required_elems as (HI & HP & HS).
  split_and!; by apply has_required_elem.
Qed.

Lemma pos_lookup d x : x ∈ columns d → columns d !! pos d x = Some x.
Proof. intros Hx. by apply get_loc_Some, pos_Some. Qed.

Lemma pos_inj d x y :
  x ∈ columns d → y ∈ columns d → pos d x = pos d y → x = y.
Proof.
  intros Hx%pos_lookup Hy%pos_lookup Heq. rewrite Heq in Hx. congruence.
Qed.

Lemma pos_distinct d :
  has_required d →
  pos d "ItemCode" ≠ pos d "PurchasePrice"
  ∧ pos d "ItemCode" ≠ pos d "SalesPrice"
  ∧ pos d "PurchasePrice" ≠ pos d "SalesPrice".
Proof.
  intros Hd. destruct (has_required_cols d Hd) as (HI & HP & HS).
  split_and!; intros Heq; by apply pos_inj in Heq.
Qed.

Lemma pos_lt d x r :
  wf_frame d → x ∈ columns d → r ∈ rows d → (pos d x < length r)%nat.
Proof.
  intros (_ & _ & Hlen) Hx Hr.
  eapply Forall_forall in Hlen; [|done]. rewrite Hlen.
  by eapply lookup_lt_Some, pos_lookup.
Qed.

End ColumnFacts.

(** ** What [exports] returns on well-formed frames *)

Section ExportsSpec.
Import Pandas ListFacts FrameFacts ColumnFacts.

Context {num : Type} `{EqDecision num}.
Variable to_numeric : string → option num.

Variables (m c : DataFrame).
Hypothesis Hwfc : wf_frame c.
Hypothesis Hwfm : wf_frame m.
Hypothesis Hcolc : ∀ x, x ∈ required_catalog_cols → x ∈ columns c.
Hypothesis Hcolm : ∀ x, x ∈ required_catalog_cols → x ∈ columns m.

Local Abbreviation iI := (pos c "ItemCode").
Local Abbreviation iP := (pos c "PurchasePrice").
Local Abbreviation iS := (pos c "SalesPrice").
Local Abbreviation jI := (pos m "ItemCode").
Local Abbreviation jP := (pos m "PurchasePrice").
Local Abbreviation jS := (pos m "SalesPrice").

Lemma missing_cols_nil : missing_cols c = [].
Proof.
  unfold missing_cols. apply filter_none. intros x Hx Hn. by apply Hn, Hcolc.
Qed.

Lemma both_codes_spec :
  both_codes_of (lookup_frame iI c) (lookup_frame jI m) = both_keys m c.
Proof.
  unfold both_codes_of, intersection. rewrite !index_labels_lookup.
  rewrite unique_NoDup; [|apply NoDup_remove_dups|intros ? _; apply not_elem_of_nil].
  apply list_filter_iff. intros k. apply elem_of_remove_dups.
Qed.

Lemma new_codes_spec :
  new_codes_of (lookup_frame iI c) (lookup_frame jI m) = new_keys m c.
Proof.
  unfold new_codes_of, difference. rewrite !index_labels_lookup.
  rewrite unique_NoDup; [|apply NoDup_remove_dups|intros ? _; apply not_elem_of_nil].
  apply list_filter_iff. intros k. by rewrite elem_of_remove_dups.
Qed.

Lemma both_keys_elem k : k ∈ both_keys m c ↔ k ∈ item_keys c ∧ k ∈ item_keys m.
Proof.
  unfold both_keys. rewrite list_elem_of_filter, elem_of_remove_dups. tauto.
Qed.

Lemma new_keys_elem k : k ∈ new_keys m c ↔ k ∈ item_keys m ∧ k ∉ item_keys c.
Proof.
  unfold new_keys. rewrite list_elem_of_filter, elem_of_remove_dups. tauto.
Qed.

Lemma keys_to_update_elem k :
  k ∈ keys_to_update to_numeric m c
  ↔ differs to_numeric m c k = true ∧ k ∈ item_keys c ∧ k ∈ item_keys m.
Proof. unfold keys_to_update. by rewrite list_elem_of_filter, both_keys_elem. Qed.

Lemma item_key_Str d (l : list cell) :
  (∀ k, k ∈ l → k ∈ item_keys d) → (λ x, Str (astype_str x)) <$> l = l.
Proof.
  intros Hl. rewrite <- (list_fmap_id l) at 2. apply Forall_fmap_ext, Forall_forall.
  intros k Hk. apply Hl, list_elem_of_fmap in Hk as (r & -> & _). done.
Qed.

Lemma price_loc d x :
  wf_frame d → "ItemCode" ∈ columns d → x ∈ columns d → x ≠ "ItemCode" →
  ∃ j', get_loc (delete (pos d "ItemCode") (columns d)) x = Some j'
        ∧ ∀ r : list cell,
            cell_at j' (delete (pos d "ItemCode") r) = cell_at (pos d x) r.
Proof.
  intros (_ & Hnd & _) HI Hx Hne.
  eapply get_loc_delete; eauto using pos_Some.
Qed.

Lemma loc_col_price d x codes :
  wf_frame d → "ItemCode" ∈ columns d → x ∈ columns d → x ≠ "ItemCode" →
  (∀ k, k ∈ codes → k ∈ item_keys d) →
  loc_col (lookup_frame (pos d "ItemCode") d) codes x
  = Ok (mkSeries (LabelIndex "ItemCode" codes) (key_cell d x <$> codes)).
Proof.
  intros Hwf HI Hx Hne Hin.
  destruct (price_loc d x) as (j' & Hj' & Hcell); [done..|].
  destruct Hwf as (_ & Hnd & Hlen).
  by eapply loc_col_lookup; eauto using pos_Some.
Qed.

Lemma codes_to_update_spec :
  codes_to_update_of to_numeric (lookup_frame iI c) (lookup_frame jI m)
  = Ok (keys_to_update to_numeric m c).
Proof.
  destruct required_elems as (HI & HP & HS).
  unfold codes_to_update_of. rewrite both_codes_spec.
  rewrite !loc_col_price; try done; auto;
    try (intros k Hk; apply both_keys_elem in Hk; tauto).
  cbn. f_equal. unfold to_num, ne. cbn [s_values].
  rewrite <- !list_fmap_compose, !zip_with_fmap_both.
  rewrite select_test.
  apply (item_key_Str c). intros k Hk.
  apply list_elem_of_filter in Hk as [_ Hk]. by apply both_keys_elem in Hk as [? _].
Qed.

Lemma series_at_codes name (f : cell → cell) codes k :
  k ∈ codes → series_at (mkSeries (LabelIndex name codes) (f <$> codes)) k = f k.
Proof.
  intros Hk. unfold series_at. cbn [s_index s_values labels_of].
  rewrite <- (list_fmap_id codes) at 1. rewrite zip_fmap_both.
  rewrite (filter_fmap_key id f).
  destruct (filter (λ x, id x = k) codes) as [|x l] eqn:E.
  - assert (Hf : k ∈ filter (λ x, id x = k) codes) by (by apply list_elem_of_filter).
    rewrite E in Hf. by apply elem_of_nil in Hf.
  - assert (Hx : x ∈ filter (λ x, id x = k) codes) by (rewrite E; left).
    apply list_elem_of_filter in Hx as [Hx _]. simpl in *. by subst.
Qed.

Lemma loc_setitem_spec (g : list cell → list cell) (f : cell → cell) codes x :
  x ∈ columns c →
  (∀ k, k ∈ codes → k ∈ item_keys c) →
  loc_setitem
    (mkDF (LabelIndex "ItemCode" (item_keys c)) (columns c) (g <$> rows c))
    codes x (mkSeries (LabelIndex "ItemCode" codes) (f <$> codes))
  = Ok (mkDF (LabelIndex "ItemCode" (item_keys c)) (columns c)
          ((λ r, if bool_decide (item_key c r ∈ codes)
                 then <[pos c x := f (item_key c r)]> (g r) else g r) <$> rows c)).
Proof.
  intros Hx Hin. unfold loc_setitem. cbn [index_labels index labels_of columns rows].
  rewrite filter_none by (intros k Hk Hn; by apply Hn, Hin).
  rewrite (pos_Some c x Hx). f_equal. f_equal.
  unfold item_keys. rewrite zip_with_fmap_both.
  apply list_fmap_ext. intros _ r _. simpl.
  case_bool_decide; [|done]. by rewrite series_at_codes.
Qed.

Lemma apply_updates_spec codes :
  (∀ k, k ∈ codes → k ∈ item_keys c ∧ k ∈ item_keys m) →
  apply_updates (norm_frame iI c) (lookup_frame jI m) codes
  = Ok (mkDF RangeIndex (columns c)
          ((λ r, if bool_decide (item_key c r ∈ codes)
                 then <[iS := key_cell m "SalesPrice" (item_key c r)]>
                        (<[iP := key_cell m "PurchasePrice" (item_key c r)]>
                           (norm_row iI r))
                 else norm_row iI r) <$> rows c)).
Proof.
  intros Hin. destruct required_elems as (HI & HP & HS).
  destruct Hwfc as (_ & Hndc & Hlenc).
  unfold apply_updates, set_index. cbn [columns rows norm_frame].
  rewrite (pos_Some c "ItemCode") by auto. cbn.
  rewrite (key_column c iI) by eauto using pos_Some. fold (item_keys c).
  rewrite !loc_col_price; try done; auto; try (intros k Hk; by apply Hin).
  cbn. rewrite loc_setitem_spec; auto; [|intros k Hk; by apply Hin]. cbn.
  rewrite (loc_setitem_spec _ (key_cell m "SalesPrice")); auto;
    [|intros k Hk; by apply Hin].
  cbn. unfold reset_index. f_equal. f_equal.
  apply list_fmap_ext. intros _ r _. simpl. by case_bool_decide.
Qed.

Lemma new_items_frame_spec :
  new_items_frame (lookup_frame jI m) (new_keys m c) = Ok (new_items_table m c).
Proof.
  destruct required_elems as (HI & HP & HS).
  destruct Hwfm as (_ & Hndm & Hlenm).
  unfold new_items_frame, new_items_table.
  destruct (new_keys m c) as [|k0 ks] eqn:E; [done|].
  rewrite bool_decide_eq_true_2 by (simpl; lia).
  rewrite bool_decide_eq_false_2 by done.
  rewrite <- E.
  rewrite (loc_frame_lookup m jI) by
    (eauto using pos_Some; intros k Hk; by apply new_keys_elem in Hk as [? _]).
  cbn. unfold reset_index. cbn [index columns].
  rewrite bool_decide_eq_false_2
    by (apply not_in_delete; eauto using pos_Some).
  cbn. f_equal. f_equal. unfold df_new_of. f_equal.
  unfold index_labels. cbn [index labels_of rows].
  rewrite <- (list_fmap_id (new_keys m c)) at 1.
  by rewrite zip_with_fmap_both.
Qed.

(** The outcome of [exports] on well-formed frames that have the three
    columns the program reads. *)
Lemma exports_spec :
  exports to_numeric m c
  = Ok (updated_catalog to_numeric m c, new_items_table m c,
        length (keys_to_update to_numeric m c), length (new_keys m c)).
Proof.
  destruct required_elems as (HI & HP & HS).
  pose proof Hwfc as (Hixc & Hndc & Hlenc).
  pose proof Hwfm as (Hixm & Hndm & Hlenm).
  unfold exports. rewrite missing_cols_nil.
  rewrite bool_decide_eq_false_2 by (intros Hn; by apply Hn).
  rewrite (normalized_spec c iI), (normalized_spec m jI) by eauto using pos_Some.
  rewrite !res_bind_Ok.
  rewrite (lookup_of_spec c iI), (lookup_of_spec m jI) by eauto using pos_Some.
  rewrite !res_bind_Ok.
  rewrite both_codes_spec, new_codes_spec, codes_to_update_spec.
  rewrite new_items_frame_spec.
  assert (Hnone : keys_to_update to_numeric m c = [] →
    norm_frame iI c = updated_catalog to_numeric m c).
  { intros Hnil. unfold norm_frame, updated_catalog. rewrite Hixc. f_equal.
    apply list_fmap_ext. intros _ r _. unfold updated_row. rewrite Hnil.
    rewrite bool_decide_eq_false_2 by apply not_elem_of_nil. done. }
  assert (Hre : ∀ d, columns d = columns c →
    reindex_columns d (columns c) = Ok d).
  { intros d Hd. unfold reindex_columns. by rewrite decide_True. }
  case_bool_decide as Hboth.
  - rewrite !res_bind_Ok. case_bool_decide as Hcodes.
    + rewrite apply_updates_spec
        by (intros k Hk; apply keys_to_update_elem in Hk; tauto).
      rewrite !res_bind_Ok. rewrite Hre by done. done.
    + rewrite !res_bind_Ok. rewrite Hre by done.
      rewrite !res_bind_Ok. by rewrite <- Hnone, Hcodes.
  - assert (Hnil : keys_to_update to_numeric m c = []).
    { unfold keys_to_update. destruct (both_keys m c); [done|]. simpl in Hboth. lia. }
    rewrite !res_bind_Ok. rewrite Hre by done.
    rewrite !res_bind_Ok. by rewrite <- Hnone, Hnil.
Qed.

End ExportsSpec.

(** ** [reconcile] *)

Section Reconcile.
Import Pandas ListFacts FrameFacts.

Context {num : Type} `{EqDecision num}.
Variable to_numeric : string → option num.

Lemma reconcile_exports m c : reconcile to_numeric m c = exports to_numeric m c.
Proof.
  unfold reconcile.
  set (h0 := <[2%positive := c]> ({[1%positive := m]} : Store.heap)).
  assert (Hm : h0 !! 1%positive = Some m).
  { unfold h0. rewrite lookup_insert_ne by done. apply lookup_singleton_eq. }
  assert (Hc : h0 !! 2%positive = Some c) by apply lookup_insert_eq.
  destruct (compare_and_build_exports_run to_numeric h0 _ _ m c Hm Hc)
    as (h' & _ & Hrun).
  destruct (exports to_numeric m c) as [[[[u n] uc] nc]|e].
  - destruct Hrun as (lu & ln & -> & Hu & Hn & _). by rewrite Hu, Hn.
  - by rewrite Hrun.
Qed.

(** The outcome on well-formed frames that carry the three columns. *)
Lemma reconcile_spec m c :
  wf_frame c → wf_frame m →
  (∀ x, x ∈ required_catalog_cols → x ∈ columns c) →
  (∀ x, x ∈ required_catalog_cols → x ∈ columns m) →
  reconcile to_numeric m c
  = Ok (updated_catalog to_numeric m c, new_items_table m c,
        length (keys_to_update to_numeric m c), length (new_keys m c)).
Proof. intros. rewrite reconcile_exports. by apply exports_spec. Qed.

End Reconcile.

(** ** Column order *)

Section Columns.
Import Pandas ListFacts FrameFacts ColumnFacts.

Context {num : Type} `{EqDecision num}.
Variable to_numeric : string → option num.

Lemma res_bind_inv {A B} (f : A → res B) (r : res A) b :
  r ≫= f = Ok b → ∃ a, r = Ok a ∧ f a = Ok b.
Proof. destruct r as [a|e]; [|done]. intros Hf. by exists a. Qed.

Lemma reindex_columns_columns d target u :
  reindex_columns d target = Ok u → columns u = target.
Proof.
  unfold reindex_columns. case_decide as Heq.
  - by intros [= <-].
  - case_bool_decide; [|done]. by intros [= <-].
Qed.

(** Whatever happens before it, the closing [reindex] fixes the order. *)
Lemma exports_columns m c u n uc nc :
  exports to_numeric m c = Ok (u, n, uc, nc) → columns u = columns c.
Proof.
  unfold exports. case_bool_decide; [done|]. intros Hex.
  apply res_bind_inv in Hex as (cu & _ & Hex).
  apply res_bind_inv in Hex as (ml & _ & Hex).
  apply res_bind_inv in Hex as (cl & _ & Hex).
  apply res_bind_inv in Hex as (mlk & _ & Hex).
  apply res_bind_inv in Hex as ([cu' k] & _ & Hex).
  apply res_bind_inv in Hex as (ni & _ & Hex).
  apply res_bind_inv in Hex as (u' & Hre & Hex).
  injection Hex as <- _ _ _. by eapply reindex_columns_columns.
Qed.

Lemma reconcile_Ok m c :
  wf_frame c → wf_frame m → has_required c → has_required m →
  reconcile to_numeric m c
  = Ok (updated_catalog to_numeric m c, new_items_table m c,
        length (keys_to_update to_numeric m c), length (new_keys m c)).
Proof. intros. apply reconcile_spec; eauto using has_required_elem. Qed.

End Columns.

(** C1.  For a catalog that carries the three required columns and a
    standardized table, [reconcile] returns, and the updated catalog has the
    column labels of the input catalog, in the same order.  The order is that
    of the input whenever [reconcile] returns at all, since the last step
    re-imposes the recorded order. *)
Theorem reconcile_preserves_column_order
    {num : Type} `{EqDecision num} (to_numeric : string → option num)
    (standardized catalog : DataFrame) :
  (wf_frame catalog → wf_frame standardized →
   has_required catalog → has_required standardized →
   ∃ u n uc nc, reconcile to_numeric standardized catalog = Ok (u, n, uc, nc)
                ∧ columns u = columns catalog)
  ∧ (∀ u n uc nc, reconcile to_numeric standardized catalog = Ok (u, n, uc, nc) →
                  columns u = columns catalog).
Proof.
  split.
  - intros Hc Hm Hrc Hrm. eexists _, _, _, _. split; [by apply reconcile_Ok|done].
  - intros u n uc nc Hr. rewrite reconcile_exports in Hr.
    by eapply exports_columns.
Qed.

Lemma reconcile_preserves_column_order_witness :
  ∃ u n uc nc,
    reconcile Decimal.parse Examples.standardized Examples.catalog = Ok (u, n, uc, nc)
    ∧ columns u = ["C"; "ItemCode"; "A"; "PurchasePrice"; "B"; "SalesPrice"].
Proof.
  apply (reconcile_preserves_column_order Decimal.parse
           Examples.standardized Examples.catalog);
    (eapply bool_decide_unpack; vm_compute; exact I).
Defined.

(** ** Failures *)

Module FailureFacts.
Import Pandas.

Lemma KeyError_foreign k : foreign (KeyError k).
Proof. intros miss. unfold schema_error. discriminate. Qed.

Lemma cannot_foreign s : foreign (ValueError (String "c" s)).
Proof. intros miss. unfold schema_error. by intros [= E]. Qed.

Lemma res_bind_raise {A B} (f : A → res B) (r : res A) e :
  r ≫= f = Raise e → r = Raise e ∨ ∃ a, r = Ok a ∧ f a = Raise e.
Proof.
  destruct r as [a|e']; intros Hr; [right; exists a; split; [done|exact Hr]|left].
  rewrite res_bind_Raise in Hr. by injection Hr as ->.
Qed.

Lemma getitem_raise d c e : getitem d c = Raise e → foreign e.
Proof.
  unfold getitem. destruct (get_loc _ _); [done|].
  intros [= <-]. apply KeyError_foreign.
Qed.

Lemma set_index_raise d c b e : set_index d c b = Raise e → foreign e.
Proof.
  unfold set_index. destruct (get_loc _ _); [done|].
  intros [= <-]. apply KeyError_foreign.
Qed.

Lemma reset_index_raise d b e : reset_index d b = Raise e → foreign e.
Proof.
  unfold reset_index. destruct b; [done|]. case_bool_decide; [|done].
  intros [= <-]. apply cannot_foreign.
Qed.

Lemma loc_rows_raise lr labs e : loc_rows lr labs = Raise e → foreign e.
Proof.
  induction labs as [|lab labs IH]; [done|]. cbn [loc_rows].
  destruct (filter _ lr); [intros [= <-]; apply KeyError_foreign|].
  intros [Hr|(a & _ & Hr)]%res_bind_raise; [by apply IH|done].
Qed.

Lemma loc_col_raise d labs c e : loc_col d labs c = Raise e → foreign e.
Proof.
  unfold loc_col. destruct (get_loc _ _); [|intros [= <-]; apply KeyError_foreign].
  intros [Hr|(a & _ & Hr)]%res_bind_raise; [by eapply loc_rows_raise|done].
Qed.

Lemma loc_frame_raise d labs e : loc_frame d labs = Raise e → foreign e.
Proof.
  unfold loc_frame.
  intros [Hr|(a & _ & Hr)]%res_bind_raise; [by eapply loc_rows_raise|done].
Qed.

Lemma loc_setitem_raise d labs c s e : loc_setitem d labs c s = Raise e → foreign e.
Proof.
  unfold loc_setitem. destruct (filter _ labs).
  - by destruct (get_loc _ _).
  - intros [= <-]. apply KeyError_foreign.
Qed.

Lemma reindex_columns_raise d target e :
  reindex_columns d target = Raise e → foreign e.
Proof.
  unfold reindex_columns. case_decide; [done|]. case_bool_decide; [done|].
  intros [= <-]. apply cannot_foreign.
Qed.

Lemma normalized_raise d e : normalized d = Raise e → foreign e.
Proof.
  unfold normalized.
  intros [Hr|(a & _ & Hr)]%res_bind_raise; [by eapply getitem_raise|done].
Qed.

Lemma lookup_of_raise d e : lookup_of d = Raise e → foreign e.
Proof.
  unfold lookup_of, drop_duplicates_last.
  intros [Hr|(a & _ & Hr)]%res_bind_raise; [|by eapply set_index_raise].
  apply res_bind_raise in Hr as [Hr|(a & _ & Hr)]; [by eapply getitem_raise|done].
Qed.

Lemma missing_cols_elem c x :
  x ∈ missing_cols c ↔ x ∈ required_catalog_cols ∧ x ∉ columns c.
Proof. unfold missing_cols. rewrite list_elem_of_filter. tauto. Qed.

End FailureFacts.

Create HintDb raises.

Section Failures.
Import Pandas FailureFacts.

Context {num : Type} `{EqDecision num}.
Variable to_numeric : string → option num.

Local Hint Resolve getitem_raise set_index_raise reset_index_raise loc_col_raise
  loc_frame_raise loc_setitem_raise reindex_columns_raise normalized_raise
  lookup_of_raise : raises.

Ltac raise_steps H :=
  repeat (apply res_bind_raise in H as [H|(? & _ & H)];
          [by eauto with raises|]);
  try done; eauto with raises.

Lemma codes_to_update_of_raise cl ml e :
  codes_to_update_of to_numeric cl ml = Raise e → foreign e.
Proof. unfold codes_to_update_of. intros Hr. raise_steps Hr. Qed.

Lemma apply_updates_raise cu ml codes e :
  apply_updates cu ml codes = Raise e → foreign e.
Proof. unfold apply_updates. intros Hr. raise_steps Hr. Qed.

Lemma new_items_frame_raise ml codes e :
  new_items_frame ml codes = Raise e → foreign e.
Proof.
  unfold new_items_frame. case_bool_decide; [|done]. intros Hr. raise_steps Hr.
Qed.

(** Past its guard, [exports] raises no schema error. *)
Lemma exports_raise m c e :
  exports to_numeric m c = Raise e →
  (missing_cols c ≠ [] ∧ e = schema_error (missing_cols c)) ∨ foreign e.
Proof.
  unfold exports. case_bool_decide as Hmiss.
  { intros [= <-]. by left. }
  intros Hr. right.
  apply res_bind_raise in Hr as [Hr|(cu & _ & Hr)]; [by eauto with raises|].
  apply res_bind_raise in Hr as [Hr|(ml & _ & Hr)]; [by eauto with raises|].
  apply res_bind_raise in Hr as [Hr|(cl & _ & Hr)]; [by eauto with raises|].
  apply res_bind_raise in Hr as [Hr|(mlk & _ & Hr)]; [by eauto with raises|].
  apply res_bind_raise in Hr as [Hr|([cu' k] & _ & Hr)].
  - case_bool_decide; [|done].
    apply res_bind_raise in Hr as [Hr|(codes & _ & Hr)];
      [by eapply codes_to_update_of_raise|].
    case_bool_decide; [|done].
    apply res_bind_raise in Hr as [Hr|(? & _ & Hr)]; [|done].
    by eapply apply_updates_raise.
  - apply res_bind_raise in Hr as [Hr|(ni & _ & Hr)];
      [by eapply new_items_frame_raise|].
    apply res_bind_raise in Hr as [Hr|(u & _ & Hr)]; [|done].
    by eapply reindex_columns_raise.
Qed.

End Failures.

(** C8.  [reconcile] raises the schema error exactly when the catalog lacks
    one of [ItemCode], [PurchasePrice], [SalesPrice]; the message lists the
    missing labels; on that failure the call has allocated and written
    nothing, and no table is returned. *)
Theorem reconcile_schema_error
    {num : Type} `{EqDecision num} (to_numeric : string → option num)
    (standardized catalog : DataFrame) :
  (∀ x, x ∈ missing_cols catalog
        ↔ x ∈ ["ItemCode"; "PurchasePrice"; "SalesPrice"] ∧ x ∉ columns catalog)
  ∧ (missing_cols catalog ≠ [] →
     reconcile to_numeric standardized catalog
     = Raise (schema_error (missing_cols catalog)))
  ∧ (missing_cols catalog = [] →
     ∀ missing, reconcile to_numeric standardized catalog
                ≠ Raise (schema_error missing))
  ∧ (missing_cols catalog ≠ [] →
     ∀ (h : Store.heap) df_mapped df_catalog,
       h !! df_catalog = Some catalog →
       compare_and_build_exports to_numeric df_mapped df_catalog h
       = (Raise (schema_error (missing_cols catalog)), h)).
Proof.
  split_and!.
  - intros x. apply FailureFacts.missing_cols_elem.
  - intros Hmiss. rewrite reconcile_exports. unfold exports.
    by rewrite bool_decide_eq_true_2.
  - intros Hnil missing Hr. rewrite reconcile_exports in Hr.
    apply exports_raise in Hr as [[Hmiss _]|Hf]; [done|]. by apply (Hf missing).
  - intros Hmiss h lm lc Hc. unfold compare_and_build_exports.
    rewrite (StoreFacts.bind_load _ _ _ _ Hc).
    fold (missing_cols catalog). by rewrite bool_decide_eq_true_2.
Qed.

Lemma reconcile_schema_error_witness :
  reconcile Decimal.parse Examples.standardized
    (mkDF RangeIndex ["ItemCode"; "Price"] [[Str "A1"; Str "10"]])
  = Raise (ValueError
      "Marina catalog must contain columns: ItemCode, PurchasePrice, SalesPrice. Missing: PurchasePrice, SalesPrice").
Proof.
  apply (reconcile_schema_error Decimal.parse Examples.standardized
           (mkDF RangeIndex ["ItemCode"; "Price"] [[Str "A1"; Str "10"]])).
  vm_compute. discriminate.
Defined.

(** C9.  A call never changes an object the caller holds: after it, every
    location of the initial store, the two arguments included, holds the
    frame it held before, whether the call returns or raises.  The two
    frames it returns are fresh objects, distinct from each other. *)
Theorem compare_and_build_exports_keeps_inputs
    {num : Type} `{EqDecision num} (to_numeric : string → option num)
    (h : Store.heap) (df_mapped df_catalog : Store.loc)
    (standardized catalog : DataFrame) :
  h !! df_mapped = Some standardized →
  h !! df_catalog = Some catalog →
  let r := compare_and_build_exports to_numeric df_mapped df_catalog h in
  agrees_on h r.2
  ∧ r.2 !! df_mapped = Some standardized
  ∧ r.2 !! df_catalog = Some catalog
  ∧ ∀ lu ln uc nc, r.1 = Ok (lu, ln, uc, nc) →
      h !! lu = None ∧ h !! ln = None ∧ lu ≠ ln
      ∧ is_Some (r.2 !! lu) ∧ is_Some (r.2 !! ln).
Proof.
  intros Hm Hc r.
  destruct (compare_and_build_exports_run to_numeric h _ _ _ _ Hm Hc)
    as (h' & Hag & Hrun).
  assert (Hh' : agrees_on h r.2 ∧
    ∀ lu ln uc nc, r.1 = Ok (lu, ln, uc, nc) →
      h !! lu = None ∧ h !! ln = None ∧ lu ≠ ln
      ∧ is_Some (r.2 !! lu) ∧ is_Some (r.2 !! ln)).
  { subst r. destruct (exports to_numeric standardized catalog)
      as [[[[u n] uc] nc]|e].
    - destruct Hrun as (lu & ln & -> & Hu & Hn & Hlu & Hln & Hne). simpl.
      split; [done|]. intros ???? [= <- <- <- <-]. eauto 10.
    - rewrite Hrun. simpl. split; [done|]. by intros. }
  destruct Hh' as [Hag' Hnew]. split_and!; auto.
Qed.

Lemma compare_and_build_exports_keeps_inputs_witness :
  let h : Store.heap :=
    <[2%positive := Examples.catalog]> {[1%positive := Examples.standardized]} in
  let r := compare_and_build_exports Decimal.parse 1%positive 2%positive h in
  r.2 !! 1%positive = Some Examples.standardized
  ∧ r.2 !! 2%positive = Some Examples.catalog.
Proof.
  intros h r.
  destruct (compare_and_build_exports_keeps_inputs Decimal.parse h
              1%positive 2%positive Examples.standardized Examples.catalog)
    as (_ & Hm & Hc & _); [reflexivity|reflexivity|].
  split; [exact Hm|exact Hc].
Defined.

(** ** The rows of the updated catalog *)

Section Rows.
Import Pandas ListFacts FrameFacts ColumnFacts.

Context {num : Type} `{EqDecision num}.
Variable to_numeric : string → option num.

Variables (m c : DataFrame).
Hypothesis Hwfc : wf_frame c.
Hypothesis Hrc : has_required c.

Local Abbreviation iI := (pos c "ItemCode").
Local Abbreviation iP := (pos c "PurchasePrice").
Local Abbreviation iS := (pos c "SalesPrice").

Lemma updated_row_length r :
  length (updated_row to_numeric m c r) = length r.
Proof.
  unfold updated_row. cbv zeta. case_bool_decide; by rewrite ?length_insert.
Qed.

(** Cells outside the key and the two price columns are never written. *)
Lemma updated_row_other r j :
  j ≠ iI → j ≠ iP → j ≠ iS → updated_row to_numeric m c r !! j = r !! j.
Proof.
  intros HjI HjP HjS. unfold updated_row. cbv zeta.
  case_bool_decide; by rewrite ?list_lookup_insert_ne by done.
Qed.

(** The key cell comes back in canonical form. *)
Lemma updated_row_key r :
  r ∈ rows c → updated_row to_numeric m c r !! iI = Some (item_key c r).
Proof.
  intros Hr. destruct (pos_distinct c Hrc) as (HIP & HIS & HPS).
  destruct (has_required_cols c Hrc) as (HI & HP & HS).
  unfold updated_row. cbv zeta.
  case_bool_decide; rewrite ?list_lookup_insert_ne by done;
    by rewrite list_lookup_insert_eq by (by apply pos_lt).
Qed.

Lemma updated_row_differing r :
  item_key c r ∈ keys_to_update to_numeric m c →
  updated_row to_numeric m c r
  = <[iS := key_cell m "SalesPrice" (item_key c r)]>
      (<[iP := key_cell m "PurchasePrice" (item_key c r)]>
         (<[iI := item_key c r]> r)).
Proof. intros Hk. unfold updated_row. cbv zeta. by rewrite bool_decide_eq_true_2. Qed.

Lemma updated_row_same r :
  item_key c r ∉ keys_to_update to_numeric m c →
  updated_row to_numeric m c r = <[iI := item_key c r]> r.
Proof. intros Hk. unfold updated_row. cbv zeta. by rewrite bool_decide_eq_false_2. Qed.

Lemma updated_row_prices r :
  r ∈ rows c → item_key c r ∈ keys_to_update to_numeric m c →
  updated_row to_numeric m c r !! iP
    = Some (key_cell m "PurchasePrice" (item_key c r))
  ∧ updated_row to_numeric m c r !! iS
    = Some (key_cell m "SalesPrice" (item_key c r)).
Proof.
  intros Hr Hk. destruct (pos_distinct c Hrc) as (HIP & HIS & HPS).
  destruct (has_required_cols c Hrc) as (HI & HP & HS).
  rewrite updated_row_differing by done. split.
  - rewrite list_lookup_insert_ne by done.
    by rewrite list_lookup_insert_eq by (rewrite length_insert; by apply pos_lt).
  - by rewrite list_lookup_insert_eq by (rewrite !length_insert; by apply pos_lt).
Qed.

Lemma updated_catalog_lookup i r :
  rows c !! i = Some r →
  rows (updated_catalog to_numeric m c) !! i = Some (updated_row to_numeric m c r).
Proof. intros Hi. cbn. by rewrite list_lookup_fmap, Hi. Qed.

Lemma updated_catalog_length :
  length (rows (updated_catalog to_numeric m c)) = length (rows c).
Proof. cbn. by rewrite length_fmap. Qed.

(** A row whose key the standardized table lacks keeps every cell but the
    key cell, which takes its canonical text; a key cell already canonical
    makes the row come back identical. *)
Lemma catalog_only_row r :
  item_key c r ∉ item_keys m →
  updated_row to_numeric m c r = <[iI := item_key c r]> r.
Proof.
  intros Hk. apply updated_row_same. intros Hkt.
  apply list_elem_of_filter in Hkt as [_ Hkt].
  apply list_elem_of_filter in Hkt as [Hkm _]. done.
Qed.

Lemma catalog_only_row_canonical r :
  item_key c r ∉ item_keys m → r !! iI = Some (item_key c r) →
  updated_row to_numeric m c r = r.
Proof. intros Hk Hcanon. rewrite catalog_only_row by done. by apply list_insert_id. Qed.

Lemma keys_to_update_NoDup : NoDup (keys_to_update to_numeric m c).
Proof.
  unfold keys_to_update, both_keys. do 2 apply NoDup_filter. apply NoDup_remove_dups.
Qed.

End Rows.

(** ** A second run *)

Section SecondRun.
Import Pandas ListFacts FrameFacts ColumnFacts.

Context {num : Type} `{EqDecision num}.
Variable to_numeric : string → option num.

Variables (m c : DataFrame).
Hypothesis Hwfc : wf_frame c.
Hypothesis Hwfm : wf_frame m.
Hypothesis Hrc : has_required c.
Hypothesis Hrm : has_required m.

Local Abbreviation u := (updated_catalog to_numeric m c).
Local Abbreviation upd := (updated_row to_numeric m c).
Local Abbreviation iI := (pos c "ItemCode").

Lemma wf_updated : wf_frame u.
Proof.
  pose proof Hwfc as (Hix & Hnd & Hlen). split_and!; [done..|].
  cbn. apply Forall_fmap. eapply Forall_impl; [exact Hlen|].
  intros r Hr. simpl. by rewrite updated_row_length.
Qed.

Lemma has_required_updated : has_required u.
Proof. exact Hrc. Qed.

Lemma item_key_updated r : r ∈ rows c → item_key u (upd r) = item_key c r.
Proof.
  intros Hr. unfold item_key at 1, key_of. change (pos u "ItemCode") with iI.
  unfold cell_at. rewrite (updated_row_key to_numeric m c Hwfc Hrc r Hr). simpl.
  unfold item_key, key_of. simpl. by rewrite TextFacts.strip_idem.
Qed.

Lemma item_keys_updated : item_keys u = item_keys c.
Proof.
  unfold item_keys. cbn [rows updated_catalog]. rewrite <- list_fmap_compose.
  apply Forall_fmap_ext, Forall_forall. intros r Hr. by apply item_key_updated.
Qed.

Lemma filter_fmap_on {A} (P : A → Prop) `{∀ x, Decision (P x)} (f : A → A)
    (l : list A) :
  (∀ x, x ∈ l → P (f x) ↔ P x) → filter P (f <$> l) = f <$> filter P l.
Proof.
  induction l as [|x l IH]; intros Hl; [done|]. cbn [fmap list_fmap].
  rewrite !filter_cons.
  destruct (decide (P (f x))) as [Hf|Hf], (decide (P x)) as [Hx|Hx].
  - cbn. f_equal. apply IH. intros y Hy. apply Hl. by right.
  - exfalso. apply Hx, Hl; [left|done].
  - exfalso. apply Hf, Hl; [left|done].
  - apply IH. intros y Hy. apply Hl. by right.
Qed.

Lemma last_row_updated k :
  last_row iI (rows u) k = upd <$> last_row iI (rows c) k.
Proof.
  unfold last_row. cbn [rows updated_catalog].
  rewrite filter_fmap_on, fmap_last; [done|].
  intros r Hr. fold (item_key c r). change (key_of iI (upd r)) with (item_key u (upd r)).
  by rewrite item_key_updated.
Qed.

Lemma key_cell_updated col k :
  col ∈ columns c → col ≠ "ItemCode" →
  (k ∈ keys_to_update to_numeric m c →
   ∀ r, r ∈ rows c → item_key c r = k →
        upd r !! pos c col = Some (key_cell m col k)) →
  k ∈ item_keys c →
  key_cell u col k
  = if bool_decide (k ∈ keys_to_update to_numeric m c)
    then key_cell m col k else key_cell c col k.
Proof.
  intros Hcol Hne Hprice Hk. destruct (has_required_cols c Hrc) as (HI & _ & _).
  pose proof Hwfc as (_ & Hnd & Hlen).
  unfold key_cell at 1, last_cell.
  change (pos u "ItemCode") with iI. change (pos u col) with (pos c col).
  rewrite last_row_updated.
  destruct (last_row_Some c iI k Hk) as (r & Hr & Hkr & Hin).
  rewrite Hr. cbn. case_bool_decide as Hkt.
  - unfold cell_at. by rewrite (Hprice Hkt r Hin Hkr).
  - change (key_of iI r) with (item_key c r) in Hkr.
    rewrite updated_row_same by (by rewrite Hkr).
    rewrite cell_at_insert_ne.
    + unfold key_cell, last_cell. by rewrite Hr.
    + intros Heq. apply Hne. symmetry. by eapply pos_inj.
Qed.

Lemma ne_cell_refl (x : option num) : x ≠ None → ne_cell x x = false.
Proof.
  destruct x as [v|]; [|done]. intros _. simpl. by apply bool_decide_eq_false_2; intros Hv.
Qed.

Hypothesis Hparse : ∀ k, k ∈ item_keys c → k ∈ item_keys m →
  to_num_cell to_numeric (key_cell m "PurchasePrice" k) ≠ None
  ∧ to_num_cell to_numeric (key_cell m "SalesPrice" k) ≠ None.

Lemma differs_updated k :
  k ∈ item_keys c → k ∈ item_keys m → differs to_numeric m u k = false.
Proof.
  intros Hkc Hkm. destruct (has_required_cols c Hrc) as (HI & HP & HS).
  destruct (Hparse k Hkc Hkm) as [Hpp Hsp].
  unfold differs. rewrite !key_cell_updated; try done.
  - case_bool_decide as Hkt.
    + by rewrite !ne_cell_refl.
    + destruct (differs to_numeric m c k) eqn:Hd; [|exact Hd].
      exfalso. apply Hkt. by apply keys_to_update_elem.
  - intros Hkt r Hr Hkr. subst k.
    by apply (updated_row_prices to_numeric m c Hwfc Hrc r Hr Hkt).
  - intros Hkt r Hr Hkr. subst k.
    by apply (updated_row_prices to_numeric m c Hwfc Hrc r Hr Hkt).
Qed.

Lemma both_keys_updated : both_keys m u = both_keys m c.
Proof. unfold both_keys. by rewrite item_keys_updated. Qed.

Lemma new_keys_updated : new_keys m u = new_keys m c.
Proof. unfold new_keys. by rewrite item_keys_updated. Qed.

Lemma keys_to_update_updated : keys_to_update to_numeric m u = [].
Proof.
  unfold keys_to_update. apply filter_none. intros k Hk.
  rewrite both_keys_updated in Hk. apply both_keys_elem in Hk as [Hkc Hkm].
  by rewrite differs_updated.
Qed.

Lemma new_items_table_updated : new_items_table m u = new_items_table m c.
Proof. unfold new_items_table, df_new_of. by rewrite new_keys_updated. Qed.

Lemma updated_catalog_updated : updated_catalog to_numeric m u = u.
Proof.
  transitivity (mkDF RangeIndex (columns c) (upd <$> rows c)); [|done].
  unfold updated_catalog at 1. f_equal.
  change (rows u) with (upd <$> rows c). rewrite <- list_fmap_compose.
  apply Forall_fmap_ext, Forall_forall. intros r Hr. simpl.
  unfold updated_row at 1. cbv zeta. rewrite keys_to_update_updated.
  rewrite bool_decide_eq_false_2 by apply not_elem_of_nil.
  apply list_insert_id. change (pos u "ItemCode") with iI.
  rewrite item_key_updated by done. by apply updated_row_key.
Qed.

End SecondRun.

(** C2, as stated, fails: with blank standardized prices the second run
    updates key [A1] again, and the new key [N1] is new again, because new
    items are never added to the catalog. *)
Lemma reconcile_second_run_counterexample :
  ∃ u n, reconcile Decimal.parse Examples.standardized_unpriced Examples.catalog
         = Ok (u, n, 1, 1)
         ∧ ∃ u' n', reconcile Decimal.parse Examples.standardized_unpriced u
                    = Ok (u', n', 1, 1).
Proof.
  eexists _, _. split; [vm_compute; reflexivity|].
  eexists _, _. vm_compute. reflexivity.
Qed.

(** C2, amended.  When every key present in both tables has standardized
    prices that parse to numbers, a second run on the updated catalog against
    the same standardized table updates nothing: [updatedCount = 0] and the
    catalog comes back as it went in.  The new-items table and [newCount] are
    those of the first run. *)
Theorem reconcile_second_run
    {num : Type} `{EqDecision num} (to_numeric : string → option num)
    (standardized catalog : DataFrame) :
  wf_frame catalog → wf_frame standardized →
  has_required catalog → has_required standardized →
  Forall (λ k, to_num_cell to_numeric (key_cell standardized "PurchasePrice" k) ≠ None
               ∧ to_num_cell to_numeric (key_cell standardized "SalesPrice" k) ≠ None)
         (both_keys standardized catalog) →
  ∃ u n uc nc,
    reconcile to_numeric standardized catalog = Ok (u, n, uc, nc)
    ∧ reconcile to_numeric standardized u = Ok (u, n, 0, nc).
Proof.
  intros Hwfc Hwfm Hrc Hrm Hparse.
  assert (Hp : ∀ k, k ∈ item_keys catalog → k ∈ item_keys standardized →
    to_num_cell to_numeric (key_cell standardized "PurchasePrice" k) ≠ None
    ∧ to_num_cell to_numeric (key_cell standardized "SalesPrice" k) ≠ None).
  { intros k Hkc Hkm. eapply Forall_forall in Hparse; [exact Hparse|].
    by apply both_keys_elem. }
  eexists _, _, _, _. split; [by apply reconcile_Ok|].
  rewrite reconcile_Ok;
    [|by apply wf_updated|done|by apply has_required_updated|done].
  rewrite updated_catalog_updated, keys_to_update_updated by done.
  by rewrite new_items_table_updated, new_keys_updated.
Qed.

Lemma reconcile_second_run_witness :
  ∃ u n uc nc,
    reconcile Decimal.parse Examples.standardized Examples.catalog = Ok (u, n, uc, nc)
    ∧ reconcile Decimal.parse Examples.standardized u = Ok (u, n, 0, nc).
Proof.
  apply (reconcile_second_run Decimal.parse Examples.standardized Examples.catalog);
    (eapply bool_decide_unpack; vm_compute; exact I).
Defined.

(** ** Keys, rows and the difference test *)

Section KeyFacts.
Import Pandas ListFacts FrameFacts ColumnFacts.

(** [key_cell] reads the last row that carries the key. *)
Lemma key_cell_last d col k rs r rs' :
  rows d = rs ++ r :: rs' →
  item_key d r = k →
  (∀ r', r' ∈ rs' → item_key d r' ≠ k) →
  key_cell d col k = cell_at (pos d col) r.
Proof.
  intros Hrows Hk Hlater. unfold key_cell, last_cell, last_row. rewrite Hrows.
  rewrite filter_app, filter_cons_True by done.
  rewrite (filter_none _ rs') by (intros r' Hr'; by apply Hlater).
  by rewrite last_snoc.
Qed.

Lemma to_num_cell_null {num : Type} (to_numeric : string → option num) (x : cell) :
  let s := Text.strip (Text.remove_commas (astype_str x)) in
  s = "" ∨ s = "nan" ∨ s = "None" ∨ to_numeric s = None →
  to_num_cell to_numeric x = None.
Proof.
  intros s Hs. unfold to_num_cell. fold s. case_bool_decide as Hb; [done|].
  destruct Hs as [?|[?|[?|?]]]; try done; exfalso; apply Hb; auto.
Qed.

Lemma ne_cell_null {num : Type} `{EqDecision num} (x : option num) :
  ne_cell None x = true ∧ ne_cell x None = true.
Proof. by destruct x. Qed.

End KeyFacts.

(** C10.  With several catalog rows under one key, the difference test reads
    the catalog prices of the last of them ([differs] goes through
    [key_cell], which takes the last row of the key); when the key differs,
    every row under the key receives the two standardized price cells, and
    the updated catalog has as many rows as the input. *)
Theorem reconcile_duplicate_catalog_keys
    {num : Type} `{EqDecision num} (to_numeric : string → option num)
    (standardized catalog : DataFrame) :
  wf_frame catalog → wf_frame standardized →
  has_required catalog → has_required standardized →
  ∃ u n uc nc,
    reconcile to_numeric standardized catalog = Ok (u, n, uc, nc)
    ∧ length (rows u) = length (rows catalog)
    ∧ (∀ col k rs r rs',
         rows catalog = rs ++ r :: rs' → item_key catalog r = k →
         (∀ r', r' ∈ rs' → item_key catalog r' ≠ k) →
         key_cell catalog col k = Pandas.cell_at (pos catalog col) r)
    ∧ ∀ k, k ∈ item_keys catalog → k ∈ item_keys standardized →
           differs to_numeric standardized catalog k = true →
           ∀ i r, rows catalog !! i = Some r → item_key catalog r = k →
             rows u !! i
             = Some (<[pos catalog "SalesPrice" := key_cell standardized "SalesPrice" k]>
                       (<[pos catalog "PurchasePrice"
                            := key_cell standardized "PurchasePrice" k]>
                          (<[pos catalog "ItemCode" := k]> r))).
Proof.
  intros Hwfc Hwfm Hrc Hrm. eexists _, _, _, _.
  split; [by apply reconcile_Ok|]. split; [apply updated_catalog_length|].
  split; [intros; by eapply key_cell_last|].
  intros k Hkc Hkm Hd i r Hi Hk.
  rewrite (updated_catalog_lookup _ _ _ _ _ Hi). f_equal.
  rewrite updated_row_differing; [by rewrite Hk|].
  rewrite Hk. by apply keys_to_update_elem.
Qed.

Lemma reconcile_duplicate_catalog_keys_witness :
  ∃ u n uc nc,
    reconcile Decimal.parse Examples.standardized_a1 Examples.catalog_dup
    = Ok (u, n, uc, nc)
    ∧ length (rows u) = 3
    ∧ rows u !! 0 = Some [Str "A1"; Str "10"; Str "25"; Str "first"]
    ∧ rows u !! 2 = Some [Str "A1"; Str "10"; Str "25"; Str "second"].
Proof.
  destruct (reconcile_duplicate_catalog_keys Decimal.parse
              Examples.standardized_a1 Examples.catalog_dup)
    as (u & n & uc & nc & Hr & Hlen & _ & Hrows);
    try (eapply bool_decide_unpack; vm_compute; exact I).
  exists u, n, uc, nc. split; [exact Hr|]. split; [exact Hlen|].
  assert (Hin : Str "A1" ∈ item_keys Examples.catalog_dup
                ∧ Str "A1" ∈ item_keys Examples.standardized_a1)
    by (split; eapply bool_decide_unpack; vm_compute; exact I).
  destruct Hin as [Hc Hm].
  split.
  - refine (eq_trans (Hrows (Str "A1") Hc Hm _ 0
                        [Str "A1"; Str "10"; Str "25"; Str "first"] _ _) _);
      vm_compute; reflexivity.
  - refine (eq_trans (Hrows (Str "A1") Hc Hm _ 2
                        [Str "A1 "; Str "10"; Str "20"; Str "second"] _ _) _);
      vm_compute; reflexivity.
Defined.

(** C5.  A price cell whose text, once commas and surrounding blanks are
    removed, is empty, [nan], [None] or rejected by the numeric parser
    becomes null; null differs from every number and from null.  Hence a key
    of both tables whose catalog price is null in either price column is
    counted as differing and its rows are overwritten, whether or not the
    standardized price parses. *)
Theorem reconcile_null_prices
    {num : Type} `{EqDecision num} (to_numeric : string → option num)
    (standardized catalog : DataFrame) :
  wf_frame catalog → wf_frame standardized →
  has_required catalog → has_required standardized →
  (∀ x : cell,
     let s := Text.strip (Text.remove_commas (astype_str x)) in
     s = "" ∨ s = "nan" ∨ s = "None" ∨ to_numeric s = None →
     to_num_cell to_numeric x = None)
  ∧ (∀ x : option num, ne_cell None x = true ∧ ne_cell x None = true)
  ∧ ∃ u n uc nc,
      reconcile to_numeric standardized catalog = Ok (u, n, uc, nc)
      ∧ uc = length (keys_to_update to_numeric standardized catalog)
      ∧ ∀ k, k ∈ item_keys catalog → k ∈ item_keys standardized →
             to_num_cell to_numeric (key_cell catalog "PurchasePrice" k) = None
             ∨ to_num_cell to_numeric (key_cell catalog "SalesPrice" k) = None →
             k ∈ keys_to_update to_numeric standardized catalog
             ∧ ∀ i r, rows catalog !! i = Some r → item_key catalog r = k →
                 rows u !! i
                 = Some (<[pos catalog "SalesPrice"
                             := key_cell standardized "SalesPrice" k]>
                           (<[pos catalog "PurchasePrice"
                                := key_cell standardized "PurchasePrice" k]>
                              (<[pos catalog "ItemCode" := k]> r))).
Proof.
  intros Hwfc Hwfm Hrc Hrm.
  split; [apply to_num_cell_null|]. split; [apply ne_cell_null|].
  eexists _, _, _, _. split; [by apply reconcile_Ok|]. split; [done|].
  intros k Hkc Hkm Hnull.
  assert (Hkt : k ∈ keys_to_update to_numeric standardized catalog).
  { apply keys_to_update_elem. split_and!; [|done..]. unfold differs.
    destruct Hnull as [-> | ->]; [done|]. apply orb_true_r. }
  split; [done|]. intros i r Hi Hk.
  rewrite (updated_catalog_lookup _ _ _ _ _ Hi). f_equal.
  rewrite updated_row_differing; by rewrite Hk.
Qed.

Lemma reconcile_null_prices_witness :
  ∃ u n uc nc,
    reconcile Decimal.parse Examples.standardized_unpriced Examples.catalog_unparsable
    = Ok (u, n, uc, nc)
    ∧ uc = 2
    ∧ rows u !! 0 = Some [Str "A1"; Str ""; Str ""]
    ∧ rows u !! 1 = Some [Str "N1"; Str ""; Str ""].
Proof.
  destruct (reconcile_null_prices Decimal.parse
              Examples.standardized_unpriced Examples.catalog_unparsable)
    as (_ & _ & u & n & uc & nc & Hr & Huc & Hrows);
    try (eapply bool_decide_unpack; vm_compute; exact I).
  exists u, n, uc, nc. split; [exact Hr|]. split; [exact Huc|].
  assert (Hin : ∀ k, k ∈ [Str "A1"; Str "N1"] →
                k ∈ item_keys Examples.catalog_unparsable
                ∧ k ∈ item_keys Examples.standardized_unpriced).
  { intros k Hk. repeat (apply elem_of_cons in Hk as [->|Hk]);
      [| |by apply elem_of_nil in Hk];
      split; eapply bool_decide_unpack; vm_compute; exact I. }
  split.
  - destruct (Hin (Str "A1")) as [Hc Hm]; [left|].
    destruct (Hrows (Str "A1") Hc Hm) as [_ Hrow]; [left; reflexivity|].
    refine (eq_trans (Hrow 0 [Str "A1"; Str "n/a"; Str "25"] _ _) _);
      vm_compute; reflexivity.
  - destruct (Hin (Str "N1")) as [Hc Hm]; [right; left|].
    destruct (Hrows (Str "N1") Hc Hm) as [_ Hrow]; [left; reflexivity|].
    refine (eq_trans (Hrow 1 [Str "N1"; Str ""; Str "nan"] _ _) _);
      vm_compute; reflexivity.
Defined.

(** C3.  The code departs from the claim: the call also rewrites the
    [ItemCode] cell of the row it updates.  The write-back of the normalised
    key column into the frame that is returned turns [" A1 "] into ["A1"];
    the prices come from the standardized row as text and [Notes] is kept. *)
Theorem reconcile_update_rewrites_item_code :
  Examples.catalog_padded.(rows) !! 0
  = Some [Str " A1 "; Str "10"; Str "20"; Str "keep"]
  ∧ ∃ u n, reconcile Decimal.parse Examples.standardized_a1 Examples.catalog_padded
           = Ok (u, n, 1, 0)
           ∧ rows u !! 0 = Some [Str "A1"; Str "10"; Str "25"; Str "keep"].
Proof. split; [done|]. eexists _, _. split; vm_compute; reflexivity. Qed.

(** C4.  The code departs from the claim: rows whose key the standardized
    table lacks come back with their [ItemCode] cell replaced by its
    normalised text, so padding is lost, a number becomes text and a blank
    cell becomes the text [nan]. *)
Theorem reconcile_rewrites_catalog_only_keys :
  ∃ n,
    reconcile Decimal.parse Examples.standardized_a1
      (mkDF RangeIndex ["ItemCode"; "PurchasePrice"; "SalesPrice"; "Notes"]
         [ [Str " A1 "; Str "10"; Str "20"; Str "keep"];
           [Str " X9 "; Str "1"; Str "2"; Str "only"];
           [Int 77; Str "3"; Str "4"; Str "number"];
           [NaN; Str "5"; Str "6"; Str "blank"] ])
    = Ok (mkDF RangeIndex ["ItemCode"; "PurchasePrice"; "SalesPrice"; "Notes"]
            [ [Str "A1"; Str "10"; Str "25"; Str "keep"];
              [Str "X9"; Str "1"; Str "2"; Str "only"];
              [Str "77"; Str "3"; Str "4"; Str "number"];
              [Str "nan"; Str "5"; Str "6"; Str "blank"] ],
          n, 1, 0).
Proof. eexists. vm_compute. reflexivity. Qed.

(** ** The New Items sheet *)

Module NewItemsFacts.
Import Pandas.

Lemma new_items_of_columns df_new : columns (new_items_of df_new) = NEW_ITEMS_HEADERS.
Proof. reflexivity. Qed.

Lemma new_items_of_length df_new :
  length (rows (new_items_of df_new)) = length (rows df_new).
Proof. unfold new_items_of, from_dict. cbn [rows]. by rewrite length_fmap, length_seq. Qed.

Lemma new_items_of_row df_new r :
  r ∈ rows (new_items_of df_new) →
  length r = 14
  ∧ r !! 0 = Some (Str "*")
  ∧ r !! 8 = Some (Int 1)
  ∧ r !! 11 = Some (Str "NULL")
  ∧ r !! 12 = Some (Str "NULL")
  ∧ r !! 13 = Some (Str "NULL").
Proof.
  unfold new_items_of, from_dict. cbn [rows].
  intros (k & -> & Hk)%list_elem_of_fmap. apply elem_of_seq in Hk as [_ Hk].
  cbn [fmap list_fmap length lookup list_lookup snd colspec_at].
  rewrite !lookup_replicate_2 by (unfold len in *; lia). done.
Qed.

End NewItemsFacts.

(** C6, as stated, fails: when no standardized key is new, the new-items
    value is the frame [pd.DataFrame()], which has no columns at all. *)
Lemma new_items_schema_counterexample :
  ∃ u, reconcile Decimal.parse Examples.standardized_a1 Examples.catalog
       = Ok (u, mkDF RangeIndex [] [], 1, 0)
  ∧ columns (mkDF RangeIndex [] []) ≠ NEW_ITEMS_HEADERS.
Proof. eexists. split; [vm_compute; reflexivity|done]. Qed.

(** C6, amended.  When at least one standardized key is absent from the
    catalog, the new-items table has the fourteen columns of the schema, one
    row per new key, and in every row [Id] is the text [*],
    [RecordStatusId] the number [1], and [ItemMaster_Id], [AspNetUser_Id]
    and [SupersededItemCode] the text [NULL].  When no key is new, the
    new-items table is the empty frame, without columns. *)
Theorem reconcile_new_items_schema
    {num : Type} `{EqDecision num} (to_numeric : string → option num)
    (standardized catalog : DataFrame) :
  wf_frame catalog → wf_frame standardized →
  has_required catalog → has_required standardized →
  ∃ u n uc nc,
    reconcile to_numeric standardized catalog = Ok (u, n, uc, nc)
    ∧ nc = length (new_keys standardized catalog)
    ∧ (nc = 0 → n = Pandas.empty_frame)
    ∧ (0 < nc →
       columns n = NEW_ITEMS_HEADERS
       ∧ length (rows n) = nc
       ∧ ∀ r, r ∈ rows n →
           length r = length NEW_ITEMS_HEADERS
           ∧ r !! pos n "Id" = Some (Str "*")
           ∧ r !! pos n "RecordStatusId" = Some (Int 1)
           ∧ r !! pos n "ItemMaster_Id" = Some (Str "NULL")
           ∧ r !! pos n "AspNetUser_Id" = Some (Str "NULL")
           ∧ r !! pos n "SupersededItemCode" = Some (Str "NULL")).
Proof.
  intros Hwfc Hwfm Hrc Hrm. eexists _, _, _, _.
  split; [by apply reconcile_Ok|]. split; [done|].
  unfold new_items_table. split.
  - intros Hnil. apply nil_length_inv in Hnil. by rewrite bool_decide_eq_true_2.
  - intros Hpos. rewrite bool_decide_eq_false_2
      by (intros Hnil; rewrite Hnil in Hpos; simpl in Hpos; lia).
    split; [done|]. split.
    + rewrite NewItemsFacts.new_items_of_length. cbn. by rewrite length_fmap.
    + intros r Hr. by apply NewItemsFacts.new_items_of_row in Hr.
Qed.

Lemma reconcile_new_items_schema_witness :
  ∃ u n uc nc,
    reconcile Decimal.parse Examples.standardized Examples.catalog = Ok (u, n, uc, nc)
    ∧ nc = 1
    ∧ columns n = NEW_ITEMS_HEADERS
    ∧ length (rows n) = 1.
Proof.
  destruct (reconcile_new_items_schema Decimal.parse
              Examples.standardized Examples.catalog)
    as (u & n & uc & nc & Hr & Hnc & _ & Hrows);
    try (eapply bool_decide_unpack; vm_compute; exact I).
  exists u, n, uc, nc. split; [exact Hr|]. split; [exact Hnc|].
  destruct Hrows as (Hcols & Hlen & _); [rewrite Hnc; vm_compute; lia|].
  split; [exact Hcols|]. rewrite Hlen. exact Hnc.
Defined.

(** ** [build_df_mapped] *)

Module BuildFacts.
Import Pandas ListFacts FrameFacts ColumnFacts.

Lemma seq_fmap_lookup {A B} (g : nat → B) (f : A → B) (l : list A) :
  (∀ k x, l !! k = Some x → g k = f x) → g <$> seq 0 (length l) = f <$> l.
Proof.
  intros Hgf. apply list_eq. intros k. rewrite !list_lookup_fmap.
  destruct (l !! k) as [x|] eqn:E.
  - rewrite lookup_seq_lt by (by eapply lookup_lt_Some). simpl. f_equal. by apply Hgf.
  - rewrite lookup_seq_ge; [done|]. by apply lookup_ge_None.
Qed.

Lemma from_dict_columns_std n v1 v2 v3 v4 v5 v6 v7 a b :
  from_dict_columns n
    ([ ("Supplier", v1); ("ItemCode", v2); ("Description", v3);
       ("PurchasePrice", v4); ("SalesPrice", v5); ("SV_ManufacturerId", v6);
       ("ListCategory", v7) ]
     ++ [ ("MarinaLocationId", a); ("AdditionDatetime", b) ])
    STANDARD_HEADERS
  = from_dict n
      [ ("Supplier", v1); ("ItemCode", v2); ("Description", v3);
        ("PurchasePrice", v4); ("SalesPrice", v5); ("SV_ManufacturerId", v6);
        ("ListCategory", v7); ("MarinaLocationId", a); ("AdditionDatetime", b) ].
Proof. reflexivity. Qed.

Lemma colspec_at_replicate k n x :
  (k < n)%nat → colspec_at k (ColList (replicate n x)) = x.
Proof. intros Hk. simpl. by rewrite lookup_replicate_2. Qed.

Section Source.

Variables (df_source : DataFrame) (mapping : gmap string string).
Variables (marina_location_id addition_dt : string).
Hypothesis Hmap : mapping_ok df_source mapping.

Local Abbreviation fcell :=
  (field_cell df_source mapping marina_location_id addition_dt).
Local Abbreviation srow :=
  (std_row df_source mapping marina_location_id addition_dt).

Lemma map_fields_spec fields :
  (∀ f, f ∈ fields → f ∉ ["MarinaLocationId"; "AdditionDatetime"] →
        f ∈ DROPDOWN_MAPPED_FIELDS) →
  map_fields df_source mapping fields
  = Ok ((λ f, (f, colspec_for df_source mapping f))
          <$> filter (λ f, f ∉ ["MarinaLocationId"; "AdditionDatetime"]) fields).
Proof.
  induction fields as [|f fields IH]; intros Hf; [done|].
  cbn [map_fields]. rewrite filter_cons.
  specialize (IH (λ g Hg, Hf g (list_elem_of_further _ _ _ Hg))).
  case_bool_decide as Hskip.
  - rewrite decide_False by (intros Hn; by apply Hn). exact IH.
  - rewrite decide_True by done. rewrite IH. cbn [fmap list_fmap].
    assert (Hok : f ∈ DROPDOWN_MAPPED_FIELDS) by (apply Hf; [left|done]).
    eapply Forall_forall in Hmap; [|exact Hok]. cbv zeta in Hmap.
    unfold colspec_for. cbv zeta. case_bool_decide as Hun; [done|].
    destruct Hmap as [?|[?|Hcol]]; [exfalso; apply Hun; auto..|].
    unfold getitem. rewrite (pos_Some _ _ Hcol). done.
Qed.

Lemma colspec_at_for f k r :
  f ∉ ["MarinaLocationId"; "AdditionDatetime"] →
  rows df_source !! k = Some r →
  colspec_at k (colspec_for df_source mapping f) = fcell f r.
Proof.
  intros Hf Hk. unfold colspec_for, field_cell. cbv zeta.
  rewrite (bool_decide_eq_false_2 (f = "MarinaLocationId"))
    by (intros ->; apply Hf; left).
  rewrite (bool_decide_eq_false_2 (f = "AdditionDatetime"))
    by (intros ->; apply Hf; right; left).
  case_bool_decide.
  - apply colspec_at_replicate. by eapply lookup_lt_Some.
  - simpl. by rewrite list_lookup_fmap, Hk.
Qed.

(** The frame assembled from the dictionary, before normalisation. *)
Lemma assembled_rows :
  rows (from_dict (len df_source)
          (((λ f, (f, colspec_for df_source mapping f)) <$> DROPDOWN_MAPPED_FIELDS)
           ++ [ ("MarinaLocationId",
                 ColList (replicate (len df_source) (Str marina_location_id)));
                ("AdditionDatetime",
                 ColList (replicate (len df_source) (Str addition_dt))) ]))
  = (λ r, (λ f, fcell f r) <$> STANDARD_HEADERS) <$> rows df_source.
Proof.
  unfold from_dict. cbn [rows]. apply seq_fmap_lookup. intros k r Hk.
  assert (Hlt : (k < len df_source)%nat) by (by eapply lookup_lt_Some).
  cbn [fmap list_fmap app DROPDOWN_MAPPED_FIELDS STANDARD_HEADERS snd].
  rewrite !(colspec_at_for _ k r)
    by (done || (eapply bool_decide_eq_false_1; reflexivity)).
  rewrite !colspec_at_replicate by done.
  done.
Qed.

Lemma std_headers_fields f :
  f ∈ STANDARD_HEADERS → f ∉ ["MarinaLocationId"; "AdditionDatetime"] →
  f ∈ DROPDOWN_MAPPED_FIELDS.
Proof.
  intros Hf Hn. unfold STANDARD_HEADERS, DROPDOWN_MAPPED_FIELDS in *.
  repeat (apply elem_of_cons in Hf as [->|Hf]; [by repeat constructor|]).
  apply elem_of_cons in Hf as [->|Hf]; [exfalso; apply Hn; left|].
  apply elem_of_cons in Hf as [->|Hf]; [exfalso; apply Hn; right; left|].
  by apply elem_of_nil in Hf.
Qed.

Lemma build_df_mapped_spec :
  build_df_mapped df_source mapping marina_location_id addition_dt
  = Ok (mkDF RangeIndex STANDARD_HEADERS
          (let fs := kept (srow <$> rows df_source) in
           select (is_last (std_key <$> fs)) fs)).
Proof.
  unfold build_df_mapped. cbv zeta.
  rewrite (map_fields_spec STANDARD_HEADERS std_headers_fields).
  rewrite res_bind_Ok.
  change (filter (λ f, f ∉ ["MarinaLocationId"; "AdditionDatetime"]) STANDARD_HEADERS)
    with DROPDOWN_MAPPED_FIELDS.
  cbn [fmap list_fmap DROPDOWN_MAPPED_FIELDS].
  rewrite from_dict_columns_std.
  match goal with |- context [getitem ?d "ItemCode"] => set (d0 := d) end.
  assert (Hrows0 : rows d0
    = (λ r, (λ f, fcell f r) <$> STANDARD_HEADERS) <$> rows df_source)
    by apply assembled_rows.
  assert (Hcols0 : columns d0 = STANDARD_HEADERS) by reflexivity.
  assert (Hix0 : index d0 = RangeIndex) by reflexivity.
  clearbody d0.
  assert (Hnorm : normalized d0 = Ok (norm_frame 1 d0))
    by (apply normalized_spec; by rewrite Hcols0).
  unfold normalized in Hnorm. destruct (getitem d0 "ItemCode") as [s|e]; [|done].
  rewrite res_bind_Ok in *.
  pose proof (f_equal (λ r, match r with Ok d => d | Raise _ => d0 end) Hnorm) as Hn.
  cbv beta iota in Hn. rewrite Hn. clear Hnorm Hn s.
  unfold getitem at 1. cbn [columns norm_frame]. rewrite Hcols0.
  change (get_loc STANDARD_HEADERS "ItemCode") with (Some 1).
  cbv beta iota. rewrite res_bind_Ok. cbn [s_values rows norm_frame].
  unfold drop_duplicates_last, getitem, take_rows.
  cbn [columns rows index norm_frame]. rewrite Hcols0, Hix0.
  change (get_loc STANDARD_HEADERS "ItemCode") with (Some 1).
  cbv beta iota. rewrite !res_bind_Ok. cbn [s_values]. unfold reset_index.
  cbn [columns rows].
  f_equal. f_equal. rewrite Hrows0.
  assert (Hfs : select
      ((λ c0, bool_decide (Text.strip (astype_str c0) ≠ "")) <$>
       (cell_at 1 <$>
        (norm_row 1 <$>
         ((λ r, (λ f, fcell f r) <$> STANDARD_HEADERS) <$> rows df_source))))
      (norm_row 1 <$>
       ((λ r, (λ f, fcell f r) <$> STANDARD_HEADERS) <$> rows df_source))
    = kept (srow <$> rows df_source)).
  { rewrite <- (list_fmap_compose _ (norm_row 1)).
    rewrite <- (list_fmap_compose (cell_at 1)).
    apply (select_test (λ r, bool_decide (Text.strip (astype_str (cell_at 1 r)) ≠ ""))). }
  by rewrite Hfs.
Qed.

Lemma std_key_row r :
  std_key (srow r) = Str (Text.strip (astype_str (fcell "ItemCode" r))).
Proof. reflexivity. Qed.

Lemma kept_key r :
  r ∈ srow <$> rows df_source →
  bool_decide (Text.strip (astype_str (cell_at 1 r)) ≠ "") = true ↔ std_key r ≠ Str "".
Proof.
  intros (r0 & -> & _)%list_elem_of_fmap. fold (std_key (srow r0)).
  rewrite std_key_row. cbn [astype_str]. rewrite TextFacts.strip_idem.
  rewrite bool_decide_eq_true. split; [congruence|]. intros Hn Hs. apply Hn. by rewrite Hs.
Qed.

Lemma kept_sublist rs : kept rs `sublist_of` rs.
Proof. apply sublist_filter. Qed.

Lemma kept_nonblank r :
  r ∈ kept (srow <$> rows df_source) → std_key r ≠ Str "".
Proof.
  intros [Hb Hr]%list_elem_of_filter. by apply kept_key.
Qed.

(** For a key that is not blank, the filter drops none of its rows. *)
Lemma filter_key_kept k :
  k ≠ Str "" →
  filter (λ r, std_key r = k) (kept (srow <$> rows df_source))
  = filter (λ r, std_key r = k) (srow <$> rows df_source).
Proof.
  intros Hk. unfold kept. apply filter_filter_implied.
  intros r Hr Hkr. apply kept_key; [done|]. by rewrite Hkr.
Qed.

End Source.

End BuildFacts.

(** C7, as stated, fails for the blank key: the two source rows whose
    trimmed item code is empty share that key, and none of them is
    retained. *)
Lemma build_df_mapped_blank_key_counterexample :
  let staged := std_row Examples.source Examples.mapping "7" "now"
                  <$> rows Examples.source in
  length (filter (λ r, std_key r = Str "") staged) = 2
  ∧ ∃ out, build_df_mapped Examples.source Examples.mapping "7" "now" = Ok out
           ∧ filter (λ r, std_key r = Str "") (rows out) = [].
Proof.
  split; [vm_compute; reflexivity|].
  eexists. split; vm_compute; reflexivity.
Qed.

(** C7, amended.  For a source table and a mapping whose fields are
    unmapped or name source columns, [build_df_mapped] returns the nine
    standardized columns.  Its rows are drawn, in their original relative
    order, from the standardized rows of the source; none has a blank
    [ItemCode]; and for every non-blank trimmed [ItemCode] of the source
    exactly one row is retained, the standardized row of the last source row
    under that key. *)
Theorem build_df_mapped_keeps_last
    (df_source : DataFrame) (mapping : gmap string string)
    (marina_location_id addition_dt : string) :
  wf_frame df_source → mapping_ok df_source mapping →
  let field := field_cell df_source mapping marina_location_id addition_dt in
  let staged :=
    std_row df_source mapping marina_location_id addition_dt <$> rows df_source in
  (∀ r, std_key (std_row df_source mapping marina_location_id addition_dt r)
        = Str (Text.strip (astype_str (field "ItemCode" r))))
  ∧ ∃ out,
      build_df_mapped df_source mapping marina_location_id addition_dt = Ok out
      ∧ columns out = STANDARD_HEADERS
      ∧ rows out `sublist_of` staged
      ∧ (∀ r, r ∈ rows out → std_key r ≠ Str "")
      ∧ ∀ k, k ≠ Str "" → k ∈ std_key <$> staged →
          ∃ r, last (filter (λ r, std_key r = k) staged) = Some r
               ∧ filter (λ r, std_key r = k) (rows out) = [r].
Proof.
  intros _ Hmap field staged. split; [by intros r|].
  eexists. split; [by apply BuildFacts.build_df_mapped_spec|].
  cbn [columns rows]. split; [done|]. split_and!.
  - etrans; [apply ListFacts.select_sublist|]. apply sublist_filter.
  - intros r Hr. eapply (BuildFacts.kept_nonblank df_source mapping).
    eapply elem_of_sublist; [exact Hr|apply ListFacts.select_sublist].
  - intros k Hk Hin.
    rewrite ListFacts.filter_keep_last, BuildFacts.filter_key_kept by done.
    fold staged.
    destruct (last (filter (λ r, std_key r = k) staged)) as [r|] eqn:E.
    + by exists r.
    + apply last_None in E. apply list_elem_of_fmap in Hin as (r & -> & Hr).
      assert (Hf : r ∈ filter (λ r0, std_key r0 = std_key r) staged)
        by (by apply list_elem_of_filter).
      rewrite E in Hf. by apply elem_of_nil in Hf.
Qed.

Lemma build_df_mapped_keeps_last_witness :
  ∃ out,
    build_df_mapped Examples.source Examples.mapping "7" "now" = Ok out
    ∧ filter (λ r, std_key r = Str "A") (rows out)
      = [ [Str ""; Str "A"; Str "second"; Str "4"; Str ""; Str ""; Str "";
           Str "7"; Str "now"] ].
Proof.
  destruct (build_df_mapped_keeps_last Examples.source Examples.mapping "7" "now")
    as (_ & out & Hout & _ & _ & _ & Hlast);
    try (eapply bool_decide_unpack; vm_compute; exact I).
  exists out. split; [exact Hout|].
  destruct (Hlast (Str "A")) as (r & Hr & Hf);
    [discriminate|eapply bool_decide_unpack; vm_compute; exact I|].
  rewrite Hf. f_equal.
  assert (Hsome : Some r = Some [Str ""; Str "A"; Str "second"; Str "4"; Str "";
                                 Str ""; Str ""; Str "7"; Str "now"])
    by (rewrite <- Hr; vm_compute; reflexivity).
  by injection Hsome.
Defined.

(** * Further properties *)

(** ** [is_excel] and [read_uploaded_file] *)

Module FileFacts.
Import FileName.

Lemma endswith_spec s suffix :
  endswith s suffix = true ↔ ∃ stem, s = stem +:+ suffix.
Proof.
  induction s as [|a s IH].
  - cbn [endswith]. rewrite orb_false_r. rewrite String.eqb_eq. split.
    + intros <-. by exists "".
    + intros [stem Hs]. destruct stem; [done|discriminate].
  - cbn [endswith]. rewrite orb_true_iff, String.eqb_eq, IH. split.
    + intros [<-|[stem ->]]; [by exists ""|by exists (String a stem)].
    + intros [[|b stem] Hs]; [left; exact Hs|right].
      injection Hs as -> ->. by exists stem.
Qed.

Lemma lower_char_idem a : lower_char (lower_char a) = lower_char a.
Proof.
  unfold lower_char. destruct ((65 <=? N_of_ascii a) && (N_of_ascii a <=? 90))%N eqn:E.
  - apply andb_true_iff in E as [E1%N.leb_le E2%N.leb_le].
    pose proof (N_ascii_embedding (N_of_ascii a + 32)) as Hemb.
    rewrite Hemb by lia.
    assert (((65 <=? N_of_ascii a + 32) && (N_of_ascii a + 32 <=? 90))%N = false) as ->; [|done].
    apply andb_false_iff. right. apply N.leb_gt. lia.
  - by rewrite E.
Qed.

Lemma lower_idem s : lower (lower s) = lower s.
Proof. induction s as [|a s IH]; [done|]. cbn. by rewrite lower_char_idem, IH. Qed.

Lemma lower_app s t : lower (s +:+ t) = lower s +:+ lower t.
Proof. induction s as [|a s IH]; [done|]. simpl. by rewrite IH. Qed.

End FileFacts.

(** X1.  [is_excel] accepts exactly the names whose lower-cased text ends
    in [.xlsx], [.xlsm] or [.xls]; a missing name is not an Excel name; and
    the answer does not depend on the letter case of the name. *)
Theorem is_excel_spec (name : string) :
  (is_excel (Some name) = true
   ↔ ∃ stem, FileName.lower name = stem +:+ ".xlsx"
             ∨ FileName.lower name = stem +:+ ".xlsm"
             ∨ FileName.lower name = stem +:+ ".xls")
  ∧ is_excel None = false
  ∧ is_excel (Some (FileName.lower name)) = is_excel (Some name)
  ∧ ∀ ext, FileName.lower ext ∈ [".xlsx"; ".xlsm"; ".xls"] →
           is_excel (Some (name +:+ ext)) = true.
Proof.
  split_and!.
  - unfold is_excel. cbn [from_option id].
    rewrite !orb_true_iff, !FileFacts.endswith_spec. split.
    + intros [[[stem H]|[stem H]]|[stem H]]; exists stem; auto.
    + intros [stem [H|[H|H]]]; [left; left|left; right|right]; by exists stem.
  - reflexivity.
  - unfold is_excel. cbn [from_option id]. by rewrite FileFacts.lower_idem.
  - intros ext Hext. unfold is_excel. cbn [from_option id].
    rewrite FileFacts.lower_app, !orb_true_iff, !FileFacts.endswith_spec.
    repeat (apply elem_of_cons in Hext as [->|Hext]);
      [left; left|left; right|right|by apply elem_of_nil in Hext];
      by exists (FileName.lower name).
Qed.

Lemma is_excel_spec_witness : is_excel (Some "Catalog 2024.XLSX") = true.
Proof.
  apply (is_excel_spec "Catalog 2024"). simpl. left.
Defined.

(** X2.  [read_uploaded_file] refuses a missing upload; otherwise it hands
    the bytes to the Excel reader exactly when the name is an Excel name and
    to the CSV reader in every other case, passes on the exception of the
    reader, and returns the reader's frame with its rows as they are and
    every header trimmed, so that no label of the result starts or ends with
    a blank. *)
Theorem read_uploaded_file_trims_headers
    (read_excel read_csv : string → res DataFrame) (f : UploadedFile) :
  read_uploaded_file read_excel read_csv None = Raise (ValueError "No file provided.")
  ∧ let reader := if is_excel (Some (upload_name f)) then read_excel else read_csv in
    (∀ e, reader (upload_bytes f) = Raise e →
          read_uploaded_file read_excel read_csv (Some f) = Raise e)
    ∧ (∀ df, reader (upload_bytes f) = Ok df →
         ∃ out, read_uploaded_file read_excel read_csv (Some f) = Ok out
                ∧ index out = index df
                ∧ rows out = rows df
                ∧ columns out = Text.strip <$> columns df
                ∧ Forall (λ c, Text.strip c = c) (columns out)).
Proof.
  split; [done|]. cbv zeta. unfold read_uploaded_file. split.
  - intros e He.
    destruct (is_excel (Some (upload_name f))); by rewrite He.
  - intros df Hdf. eexists. split.
    + destruct (is_excel (Some (upload_name f))); by rewrite Hdf.
    + cbn [index columns rows]. split_and!; [done..|].
      apply Forall_fmap, Forall_forall. intros c _. simpl.
      apply TextFacts.strip_idem.
Qed.

Lemma read_uploaded_file_trims_headers_witness :
  ∃ out,
    read_uploaded_file
      (λ _, Raise (ValueError "not a workbook"))
      (λ _, Ok (mkDF RangeIndex [" ItemCode "; "PurchasePrice "]
                  [[Str "A1"; Str "10"]]))
      (Some (mkUpload "catalog.csv" "")) = Ok out
    ∧ columns out = ["ItemCode"; "PurchasePrice"].
Proof.
  destruct (read_uploaded_file_trims_headers
              (λ _, Raise (ValueError "not a workbook"))
              (λ _, Ok (mkDF RangeIndex [" ItemCode "; "PurchasePrice "]
                          [[Str "A1"; Str "10"]]))
              (mkUpload "catalog.csv" "")) as (_ & _ & Hok).
  destruct (Hok (mkDF RangeIndex [" ItemCode "; "PurchasePrice "]
                   [[Str "A1"; Str "10"]]))
    as (out & Hout & _ & _ & Hcols & _); [reflexivity|].
  exists out. split; [exact Hout|]. rewrite Hcols. reflexivity.
Defined.

(** ** Further properties of [normalize_itemcode] and [build_df_mapped] *)

(** X3.  [normalize_itemcode] yields text cells only and is idempotent:
    codes already normalised are left as they are. *)
Theorem normalize_itemcode_idempotent (s : Series) :
  normalize_itemcode (normalize_itemcode s) = normalize_itemcode s
  ∧ Forall (λ x, ∃ t, x = Str t ∧ Text.strip t = t) (s_values (normalize_itemcode s))
  ∧ length (s_values (normalize_itemcode s)) = length (s_values s).
Proof.
  unfold normalize_itemcode, Pandas.smap. cbn [s_index s_values]. split_and!.
  - f_equal. rewrite <- list_fmap_compose. apply list_fmap_ext. intros _ x _.
    simpl. by rewrite TextFacts.strip_idem.
  - apply Forall_fmap, Forall_forall. intros x _. simpl. eexists. split; [done|].
    apply TextFacts.strip_idem.
  - by rewrite length_fmap.
Qed.

Section BuildMore.
Import Pandas ListFacts FrameFacts ColumnFacts BuildFacts.

Variables (df_source : DataFrame) (mapping : gmap string string).
Variables (marina_location_id addition_dt : string).

Local Abbreviation fcell :=
  (field_cell df_source mapping marina_location_id addition_dt).
Local Abbreviation srow :=
  (std_row df_source mapping marina_location_id addition_dt).
Local Abbreviation out_rows :=
  (let fs := kept (srow <$> rows df_source) in select (is_last (std_key <$> fs)) fs).

Lemma out_rows_keys_NoDup : NoDup (std_key <$> out_rows).
Proof.
  cbv zeta. rewrite <- select_fmap, select_is_last. apply NoDup_remove_dups.
Qed.

Lemma out_rows_staged r : r ∈ out_rows → ∃ r0, r0 ∈ rows df_source ∧ r = srow r0.
Proof.
  intros Hr. cbv zeta in Hr.
  eapply elem_of_sublist in Hr; [|apply select_sublist].
  apply list_elem_of_filter in Hr as [_ Hr].
  apply list_elem_of_fmap in Hr as (r0 & -> & Hr0). eauto.
Qed.

Lemma srow_cells r0 :
  srow r0
  = [ fcell "Supplier" r0;
      Str (Text.strip (astype_str (fcell "ItemCode" r0)));
      fcell "Description" r0; fcell "PurchasePrice" r0; fcell "SalesPrice" r0;
      fcell "SV_ManufacturerId" r0; fcell "ListCategory" r0;
      Str marina_location_id; Str addition_dt ].
Proof. reflexivity. Qed.

Lemma not_dropdown_marina : "MarinaLocationId" ∉ DROPDOWN_MAPPED_FIELDS.
Proof. eapply bool_decide_eq_false_1. reflexivity. Qed.

Lemma not_dropdown_addition : "AdditionDatetime" ∉ DROPDOWN_MAPPED_FIELDS.
Proof. eapply bool_decide_eq_false_1. reflexivity. Qed.

(** A field that is mapped yields the source cell as it is; an unmapped
    one yields the empty text. *)
Lemma field_cell_mapped f c r0 :
  f ∈ DROPDOWN_MAPPED_FIELDS → mapping !! f = Some c →
  c ≠ "" → c ≠ "(not mapped)" →
  fcell f r0 = cell_at (pos df_source c) r0.
Proof.
  intros Hf Hc Hne1 Hne2. unfold field_cell. rewrite Hc. cbn [from_option id].
  rewrite (bool_decide_eq_false_2 (f = "MarinaLocationId"))
    by (intros ->; by apply not_dropdown_marina in Hf).
  rewrite (bool_decide_eq_false_2 (f = "AdditionDatetime"))
    by (intros ->; by apply not_dropdown_addition in Hf).
  rewrite bool_decide_eq_false_2; [done|]. intros [?|?]; done.
Qed.

Lemma field_cell_unmapped f r0 :
  f ∈ DROPDOWN_MAPPED_FIELDS →
  (let src_col := default "(not mapped)" (mapping !! f) in
   src_col = "" ∨ src_col = "(not mapped)") →
  fcell f r0 = Str "".
Proof.
  intros Hf Hun. unfold field_cell.
  rewrite (bool_decide_eq_false_2 (f = "MarinaLocationId"))
    by (intros ->; by apply not_dropdown_marina in Hf).
  rewrite (bool_decide_eq_false_2 (f = "AdditionDatetime"))
    by (intros ->; by apply not_dropdown_addition in Hf).
  by rewrite bool_decide_eq_true_2.
Qed.

(** The loop stops at the first field that names a column the source lacks. *)
Lemma map_fields_raise fields :
  Exists (λ f, (f ∉ ["MarinaLocationId"; "AdditionDatetime"])
               ∧ ¬ (let src_col := default "(not mapped)" (mapping !! f) in
                    src_col = "" ∨ src_col = "(not mapped)"
                    ∨ src_col ∈ columns df_source)) fields →
  ∃ f, f ∈ fields
       ∧ (f ∉ ["MarinaLocationId"; "AdditionDatetime"])
       ∧ (let src_col := default "(not mapped)" (mapping !! f) in
          (src_col ≠ "") ∧ (src_col ≠ "(not mapped)")
          ∧ (src_col ∉ columns df_source)
          ∧ map_fields df_source mapping fields = Raise (KeyError src_col)).
Proof.
  induction fields as [|f fields IH]; intros Hex; [by apply Exists_nil in Hex|].
  cbn [map_fields]. case_bool_decide as Hskip.
  - apply Exists_cons in Hex as [[Hn _]|Hex]; [done|].
    destruct (IH Hex) as (g & Hg & Hgs & Hr). exists g. split; [by right|done].
  - cbv zeta. case_bool_decide as Hun.
    + apply Exists_cons in Hex as [[_ Hbad]|Hex].
      { exfalso. apply Hbad. cbv zeta. tauto. }
      destruct (IH Hex) as (g & Hg & Hgs & Hn1 & Hn2 & Hcol & Hr). exists g.
      split; [by right|]. split; [done|]. cbv zeta. split_and!; [done..|].
      by rewrite res_bind_Ok, Hr.
    + destruct (decide (default "(not mapped)" (mapping !! f) ∈ columns df_source))
        as [Hin|Hnin].
      * apply Exists_cons in Hex as [[_ Hbad]|Hex].
        { exfalso. apply Hbad. cbv zeta. tauto. }
        destruct (IH Hex) as (g & Hg & Hgs & Hn1 & Hn2 & Hcol & Hr). exists g.
        split; [by right|]. split; [done|]. cbv zeta. split_and!; [done..|].
        unfold getitem. rewrite (pos_Some _ _ Hin). cbn. by rewrite Hr.
      * exists f. split; [left|]. split; [done|]. cbv zeta.
        split_and!; [intros Hs; apply Hun; by left
                    |intros Hs; apply Hun; by right|done|].
        unfold getitem.
        destruct (get_loc (columns df_source) _) as [i|] eqn:E; [|done].
        apply get_loc_Some in E. exfalso. apply Hnin.
        by eapply list_elem_of_lookup_2.
Qed.

End BuildMore.

(** X4.  The table [build_df_mapped] returns is well formed with the nine
    standard columns, so it carries the three columns the reconciler reads;
    its [ItemCode] cells are pairwise distinct; and it has no more rows than
    the source. *)
Theorem build_df_mapped_invariants
    (df_source : DataFrame) (mapping : gmap string string)
    (marina_location_id addition_dt : string) :
  wf_frame df_source → mapping_ok df_source mapping →
  ∃ out,
    build_df_mapped df_source mapping marina_location_id addition_dt = Ok out
    ∧ wf_frame out
    ∧ columns out = STANDARD_HEADERS
    ∧ has_required out
    ∧ NoDup (std_key <$> rows out)
    ∧ (length (rows out) ≤ length (rows df_source))%nat.
Proof.
  intros _ Hmap. eexists. split; [by apply BuildFacts.build_df_mapped_spec|].
  cbn [columns rows index]. split_and!.
  - split_and!; [done|by apply (bool_decide_unpack _)|].
    cbn [columns rows]. apply Forall_forall. intros r Hr.
    apply out_rows_staged in Hr as (r0 & _ & ->). reflexivity.
  - done.
  - by apply (bool_decide_unpack _).
  - apply out_rows_keys_NoDup.
  - etrans; [apply ListFacts.select_length|].
    etrans; [apply length_filter|]. by rewrite length_fmap.
Qed.

Lemma build_df_mapped_invariants_witness :
  ∃ out,
    build_df_mapped Examples.source Examples.mapping "7" "now" = Ok out
    ∧ NoDup (std_key <$> rows out)
    ∧ (length (rows out) ≤ 5)%nat.
Proof.
  destruct (build_df_mapped_invariants Examples.source Examples.mapping "7" "now")
    as (out & Hout & _ & _ & _ & Hnd & Hlen);
    try (eapply bool_decide_unpack; vm_compute; exact I).
  exists out. split; [exact Hout|]. split; [exact Hnd|exact Hlen].
Defined.

(** X5.  When a field of the mapping names a column the source does not
    have, [build_df_mapped] raises the [KeyError] of such a column and
    returns no table. *)
Theorem build_df_mapped_missing_column
    (df_source : DataFrame) (mapping : gmap string string)
    (marina_location_id addition_dt : string) :
  ¬ mapping_ok df_source mapping →
  ∃ field, field ∈ DROPDOWN_MAPPED_FIELDS
    ∧ let src_col := default "(not mapped)" (mapping !! field) in
      (src_col ≠ "") ∧ (src_col ≠ "(not mapped)")
      ∧ (src_col ∉ columns df_source)
      ∧ build_df_mapped df_source mapping marina_location_id addition_dt
        = Raise (KeyError src_col).
Proof.
  intros Hbad. unfold mapping_ok in Hbad. cbv zeta in Hbad.
  apply not_Forall_Exists in Hbad; [|apply _].
  destruct (map_fields_raise df_source mapping STANDARD_HEADERS)
    as (f & Hf & Hskip & Hn1 & Hn2 & Hcol & Hr).
  { apply Exists_exists in Hbad as (f & Hf & Hbad). apply Exists_exists.
    exists f. split_and!.
    - revert Hf. unfold DROPDOWN_MAPPED_FIELDS, STANDARD_HEADERS.
      rewrite !elem_of_cons. tauto.
    - intros Hs. repeat (apply elem_of_cons in Hs as [->|Hs]);
        [by apply not_dropdown_marina in Hf
        |by apply not_dropdown_addition in Hf|by apply elem_of_nil in Hs].
    - exact Hbad. }
  exists f. split; [by apply BuildFacts.std_headers_fields|].
  cbv zeta. split_and!; [done..|].
  unfold build_df_mapped. cbv zeta. by rewrite Hr.
Qed.

Lemma build_df_mapped_missing_column_witness :
  ∃ c, build_df_mapped Examples.source {[ "ItemCode" := "sku" ]} "7" "now"
       = Raise (KeyError c)
       ∧ (c ∉ columns Examples.source).
Proof.
  destruct (build_df_mapped_missing_column Examples.source
              {[ "ItemCode" := "sku" ]} "7" "now")
    as (f & _ & _ & _ & Hcol & Hr).
  { eapply bool_decide_eq_false_1. vm_compute. reflexivity. }
  eexists. split; [exact Hr|exact Hcol].
Defined.

(** With its key field unmapped every staged row has a blank key, and the
    filter on blank keys keeps none. *)
Lemma unmapped_item_code_kept
    (df_source : DataFrame) (mapping : gmap string string)
    (marina_location_id addition_dt : string) :
  (let src_col := default "(not mapped)" (mapping !! "ItemCode") in
   src_col = "" ∨ src_col = "(not mapped)") →
  kept (std_row df_source mapping marina_location_id addition_dt
          <$> rows df_source) = [].
Proof.
  intros Hun. apply ListFacts.filter_none. intros r Hr Hb.
  pose proof (proj1 (BuildFacts.kept_key _ _ _ _ _ Hr) Hb) as Hk.
  apply list_elem_of_fmap in Hr as (r0 & -> & _). apply Hk.
  rewrite BuildFacts.std_key_row.
  rewrite field_cell_unmapped; [done| |done].
  unfold DROPDOWN_MAPPED_FIELDS. rewrite !elem_of_cons. tauto.
Qed.

(** X6.  With [ItemCode] left unmapped, [build_df_mapped] itself does not
    fail: every key is blank, so it returns the nine columns and no row. *)
Theorem build_df_mapped_unmapped_item_code
    (df_source : DataFrame) (mapping : gmap string string)
    (marina_location_id addition_dt : string) :
  wf_frame df_source → mapping_ok df_source mapping →
  (let src_col := default "(not mapped)" (mapping !! "ItemCode") in
   src_col = "" ∨ src_col = "(not mapped)") →
  build_df_mapped df_source mapping marina_location_id addition_dt
  = Ok (mkDF RangeIndex STANDARD_HEADERS []).
Proof.
  intros _ Hmap Hun.
  rewrite BuildFacts.build_df_mapped_spec by done.
  cbv zeta. rewrite unmapped_item_code_kept by done.
  reflexivity.
Qed.

Lemma build_df_mapped_unmapped_item_code_witness :
  build_df_mapped Examples.source {[ "Description" := "desc" ]} "7" "now"
  = Ok (mkDF RangeIndex STANDARD_HEADERS []).
Proof.
  apply build_df_mapped_unmapped_item_code;
    [eapply bool_decide_unpack; vm_compute; exact I
    |eapply bool_decide_unpack; vm_compute; exact I
    |right; reflexivity].
Defined.

(** X7.  Every row [build_df_mapped] returns is built from one source row:
    a mapped field holds that row's source cell as it is, an unmapped field
    the empty text, [ItemCode] the trimmed text of its source cell, and the
    last two fields the location and the timestamp passed in. *)
Theorem build_df_mapped_rows_verbatim
    (df_source : DataFrame) (mapping : gmap string string)
    (marina_location_id addition_dt : string) :
  wf_frame df_source → mapping_ok df_source mapping →
  ∃ out,
    build_df_mapped df_source mapping marina_location_id addition_dt = Ok out
    ∧ ∀ r, r ∈ rows out →
        ∃ r0, r0 ∈ rows df_source
          ∧ (let cell_of f :=
               match mapping !! f with
               | Some c => if bool_decide (c = "" ∨ c = "(not mapped)") then Str ""
                           else Pandas.cell_at (pos df_source c) r0
               | None => Str ""
               end in
             r = [ cell_of "Supplier";
                   Str (Text.strip (astype_str (cell_of "ItemCode")));
                   cell_of "Description"; cell_of "PurchasePrice";
                   cell_of "SalesPrice"; cell_of "SV_ManufacturerId";
                   cell_of "ListCategory";
                   Str marina_location_id; Str addition_dt ]).
Proof.
  intros _ Hmap. eexists. split; [by apply BuildFacts.build_df_mapped_spec|].
  cbn [rows]. intros r Hr. apply out_rows_staged in Hr as (r0 & Hr0 & ->).
  exists r0. split; [done|]. cbv zeta. rewrite srow_cells.
  assert (Hcell : ∀ f, f ∈ DROPDOWN_MAPPED_FIELDS →
    field_cell df_source mapping marina_location_id addition_dt f r0
    = match mapping !! f with
      | Some c => if bool_decide (c = "" ∨ c = "(not mapped)") then Str ""
                  else Pandas.cell_at (pos df_source c) r0
      | None => Str ""
      end).
  { intros f Hf. destruct (mapping !! f) as [c|] eqn:E.
    - case_bool_decide as Hun.
      + apply field_cell_unmapped; [done|]. by rewrite E.
      + apply field_cell_mapped; [done..| |]; intros ->; apply Hun; auto.
    - apply field_cell_unmapped; [done|]. rewrite E. by right. }
  rewrite !Hcell by (unfold DROPDOWN_MAPPED_FIELDS; rewrite !elem_of_cons; tauto).
  done.
Qed.

Lemma build_df_mapped_rows_verbatim_witness :
  ∃ out,
    build_df_mapped Examples.source Examples.mapping "7" "now" = Ok out
    ∧ ∀ r, r ∈ rows out → r !! 7 = Some (Str "7") ∧ r !! 8 = Some (Str "now").
Proof.
  destruct (build_df_mapped_rows_verbatim Examples.source Examples.mapping "7" "now")
    as (out & Hout & Hrows);
    try (eapply bool_decide_unpack; vm_compute; exact I).
  exists out. split; [exact Hout|]. intros r Hr.
  destruct (Hrows r Hr) as (r0 & _ & ->). split; reflexivity.
Defined.

(** ** The two counts *)

Module CountFacts.

Lemma remove_dups_length (ks : list cell) :
  (length (remove_dups ks) ≤ length ks)%nat.
Proof. rewrite <- ListFacts.select_is_last. apply ListFacts.select_length. Qed.

(** The keys of both tables, counted from the catalog or from the
    standardized table. *)
Lemma both_keys_perm m c :
  both_keys m c ≡ₚ filter (λ k, k ∈ item_keys c) (remove_dups (item_keys m)).
Proof.
  apply NoDup_Permutation.
  - apply NoDup_filter, NoDup_remove_dups.
  - apply NoDup_filter, NoDup_remove_dups.
  - intros k. rewrite both_keys_elem, list_elem_of_filter, elem_of_remove_dups.
    tauto.
Qed.

Lemma keys_partition m c :
  length (both_keys m c) + length (new_keys m c)
  = length (remove_dups (item_keys m)).
Proof.
  rewrite (Permutation_length (both_keys_perm m c)), <- length_app.
  apply Permutation_length. unfold new_keys. apply filter_app_complement.
Qed.

End CountFacts.

(** X8.  The two counts [reconcile] returns are bounded by the tables: the
    updated keys are among the keys of both tables, every distinct
    standardized key is either a key of both tables or a new key, so the two
    counts together never exceed the number of standardized rows, and the
    updated count never exceeds the number of catalog rows. *)
Theorem reconcile_counts_bounded
    {num : Type} `{EqDecision num} (to_numeric : string → option num)
    (standardized catalog : DataFrame) :
  wf_frame catalog → wf_frame standardized →
  has_required catalog → has_required standardized →
  ∃ u n uc nc,
    reconcile to_numeric standardized catalog = Ok (u, n, uc, nc)
    ∧ (uc ≤ length (both_keys standardized catalog))%nat
    ∧ length (both_keys standardized catalog) + nc
      = length (remove_dups (item_keys standardized))
    ∧ (uc + nc ≤ length (rows standardized))%nat
    ∧ (uc ≤ length (rows catalog))%nat.
Proof.
  intros Hwfc Hwfm Hrc Hrm. eexists _, _, _, _.
  split; [by apply reconcile_Ok|].
  pose proof (CountFacts.keys_partition standardized catalog) as Hpart.
  pose proof (CountFacts.remove_dups_length (item_keys standardized)) as Hm.
  pose proof (CountFacts.remove_dups_length (item_keys catalog)) as Hc.
  assert (Hu : (length (keys_to_update to_numeric standardized catalog)
                ≤ length (both_keys standardized catalog))%nat)
    by apply length_filter.
  assert (Hb : (length (both_keys standardized catalog)
                ≤ length (remove_dups (item_keys catalog)))%nat)
    by apply length_filter.
  unfold item_keys in Hm, Hc. rewrite length_fmap in Hm, Hc.
  unfold item_keys in Hpart, Hb.
  split_and!; [done|done|lia|lia].
Qed.

Lemma reconcile_counts_bounded_witness :
  ∃ u n uc nc,
    reconcile Decimal.parse Examples.standardized Examples.catalog = Ok (u, n, uc, nc)
    ∧ (uc + nc ≤ 3)%nat ∧ (uc ≤ 3)%nat.
Proof.
  destruct (reconcile_counts_bounded Decimal.parse
              Examples.standardized Examples.catalog)
    as (u & n & uc & nc & Hr & _ & _ & Hsum & Huc);
    try (eapply bool_decide_unpack; vm_compute; exact I).
  exists u, n, uc, nc. split; [exact Hr|]. split; [exact Hsum|exact Huc].
Defined.

(** X9.  [reconcile] writes to no catalog column other than [ItemCode],
    [PurchasePrice] and [SalesPrice]: row by row, the updated catalog has
    the input row's length and the input row's cell under every other
    column. *)
Theorem reconcile_other_columns_untouched
    {num : Type} `{EqDecision num} (to_numeric : string → option num)
    (standardized catalog : DataFrame) :
  wf_frame catalog → wf_frame standardized →
  has_required catalog → has_required standardized →
  ∃ u n uc nc,
    reconcile to_numeric standardized catalog = Ok (u, n, uc, nc)
    ∧ ∀ i r, rows catalog !! i = Some r →
        ∃ r', rows u !! i = Some r'
              ∧ length r' = length r
              ∧ ∀ col, col ∈ columns catalog → col ∉ required_catalog_cols →
                  pos u col = pos catalog col
                  ∧ r' !! pos catalog col = r !! pos catalog col.
Proof.
  intros Hwfc Hwfm Hrc Hrm. eexists _, _, _, _.
  split; [by apply reconcile_Ok|]. intros i r Hi. eexists.
  split; [by apply updated_catalog_lookup|].
  split; [apply updated_row_length|]. intros col Hcol Hnot.
  split; [done|].
  destruct (ColumnFacts.has_required_cols _ Hrc) as (Hic & Hpp & Hsp).
  apply updated_row_other; intros Heq;
    apply ColumnFacts.pos_inj in Heq; try done;
    apply Hnot; rewrite Heq; unfold required_catalog_cols;
    rewrite !elem_of_cons; tauto.
Qed.

Lemma reconcile_other_columns_untouched_witness :
  ∃ u n uc nc,
    reconcile Decimal.parse Examples.standardized Examples.catalog = Ok (u, n, uc, nc)
    ∧ ∃ r', rows u !! 0 = Some r' ∧ r' !! 4 = Some (Str "b1").
Proof.
  destruct (reconcile_other_columns_untouched Decimal.parse
              Examples.standardized Examples.catalog)
    as (u & n & uc & nc & Hr & Hrows);
    try (eapply bool_decide_unpack; vm_compute; exact I).
  exists u, n, uc, nc. split; [exact Hr|].
  destruct (Hrows 0 [Str "c1"; Str "A1"; Str "a1"; Str "10"; Str "b1"; Str "20"])
    as (r' & Hr' & _ & Hcells); [reflexivity|].
  exists r'. split; [exact Hr'|].
  destruct (Hcells "B") as [_ Hcell];
    [eapply bool_decide_unpack; vm_compute; exact I
    |eapply bool_decide_unpack; vm_compute; exact I|].
  exact Hcell.
Defined.

(** X10.  No update without a difference: a catalog key whose two prices
    parse, in the catalog and in the standardized table, to the same
    numbers is not updated, whatever the texts look like; its rows come
    back with their price cells as they were, only the key in canonical
    form.  When this holds for every key of both tables the updated count
    is zero. *)
Theorem reconcile_equal_prices_untouched
    {num : Type} `{EqDecision num} (to_numeric : string → option num)
    (standardized catalog : DataFrame) :
  wf_frame catalog → wf_frame standardized →
  has_required catalog → has_required standardized →
  let same_in col k :=
    ∃ x, to_num_cell to_numeric (key_cell catalog col k) = Some x
         ∧ to_num_cell to_numeric (key_cell standardized col k) = Some x in
  let same k := same_in "PurchasePrice" k ∧ same_in "SalesPrice" k in
  ∃ u n uc nc,
    reconcile to_numeric standardized catalog = Ok (u, n, uc, nc)
    ∧ (∀ k, same k →
         (k ∉ keys_to_update to_numeric standardized catalog)
         ∧ ∀ i r, rows catalog !! i = Some r → item_key catalog r = k →
             rows u !! i = Some (<[pos catalog "ItemCode" := k]> r))
    ∧ ((∀ k, k ∈ both_keys standardized catalog → same k) → uc = 0).
Proof.
  intros Hwfc Hwfm Hrc Hrm same_in same. eexists _, _, _, _.
  split; [by apply reconcile_Ok|].
  assert (Hsame : ∀ k, same k →
            k ∉ keys_to_update to_numeric standardized catalog).
  { intros k [(x & Hx1 & Hx2) (y & Hy1 & Hy2)] Hin.
    apply keys_to_update_elem in Hin as (Hd & _).
    unfold differs in Hd. rewrite Hx1, Hx2, Hy1, Hy2 in Hd.
    rewrite !ne_cell_refl in Hd by done. done. }
  split.
  - intros k Hk. split; [by apply Hsame|]. intros i r Hi Hkey.
    rewrite (updated_catalog_lookup _ _ _ _ _ Hi). f_equal.
    rewrite updated_row_same; rewrite Hkey; [done|by apply Hsame].
  - intros Hall. apply length_zero_iff_nil, ListFacts.filter_none.
    intros k Hk Hd.
    apply (Hsame k (Hall k Hk)). apply list_elem_of_filter. by split.
Qed.

Lemma reconcile_equal_prices_untouched_witness :
  ∃ u n uc nc,
    reconcile Decimal.parse Examples.standardized Examples.catalog = Ok (u, n, uc, nc)
    ∧ rows u !! 1
      = Some [Str "c2"; Str "A2"; Str "a2"; Str "1,234.50"; Str "b2"; Str "7"].
Proof.
  destruct (reconcile_equal_prices_untouched Decimal.parse
              Examples.standardized Examples.catalog)
    as (u & n & uc & nc & Hr & Hrows & _);
    try (eapply bool_decide_unpack; vm_compute; exact I).
  exists u, n, uc, nc. split; [exact Hr|].
  destruct (Hrows (Str "A2")) as [_ Hrow].
  { split.
    - exists (12345%Z, 1). split; vm_compute; reflexivity.
    - exists (7%Z, 0). split; vm_compute; reflexivity. }
  refine (eq_trans (Hrow 1 [Str "c2"; Str "A2"; Str "a2"; Str "1,234.50";
                            Str "b2"; Str "7"] _ _) _);
    vm_compute; reflexivity.
Defined.

(** ** Price texts *)

Module PriceFacts.

Lemma remove_commas_app a b :
  Text.remove_commas (a +:+ b) = Text.remove_commas a +:+ Text.remove_commas b.
Proof.
  induction a as [|ch a IH]; [done|]. simpl.
  destruct (Ascii.eqb ch ","); [done|]. simpl. by rewrite IH.
Qed.

Lemma space_not_comma ch : Text.is_space ch = true → Ascii.eqb ch "," = false.
Proof.
  intros Hsp. destruct (Ascii.eqb_spec ch ",") as [->|]; [|done].
  vm_compute in Hsp. discriminate.
Qed.

Lemma rstrip_snoc ch s :
  Text.is_space ch = true → Text.rstrip (s +:+ String ch "") = Text.rstrip s.
Proof.
  intros Hsp. induction s as [|a s IH]; simpl; [by rewrite Hsp|by rewrite IH].
Qed.

Lemma strip_cons ch s :
  Text.is_space ch = true → Text.strip (String ch s) = Text.strip s.
Proof. intros Hsp. unfold Text.strip. simpl. by rewrite Hsp. Qed.

Lemma strip_snoc ch s :
  Text.is_space ch = true → Text.strip (s +:+ String ch "") = Text.strip s.
Proof.
  intros Hsp. unfold Text.strip. induction s as [|a s IH]; simpl.
  - by rewrite Hsp.
  - destruct (Text.is_space a); [done|].
    apply (rstrip_snoc ch (String a s) Hsp).
Qed.

End PriceFacts.

(** X11.  [to_num] reads a price text without its commas and its surrounding
    whitespace: a comma anywhere in the text, a whitespace character in
    front of it or one behind it does not change the number, or the null,
    the cell converts to. *)
Theorem to_num_ignores_commas_and_padding
    {num : Type} (to_numeric : string → option num) :
  (∀ a b, to_num_cell to_numeric (Str (a +:+ "," +:+ b))
          = to_num_cell to_numeric (Str (a +:+ b)))
  ∧ (∀ ch s, Text.is_space ch = true →
       to_num_cell to_numeric (Str (String ch s)) = to_num_cell to_numeric (Str s)
       ∧ to_num_cell to_numeric (Str (s +:+ String ch ""))
         = to_num_cell to_numeric (Str s)).
Proof.
  split.
  - intros a b. unfold to_num_cell. cbn [astype_str].
    by rewrite !PriceFacts.remove_commas_app.
  - intros ch s Hsp. unfold to_num_cell. cbn [astype_str]. split.
    + cbn [Text.remove_commas].
      rewrite (PriceFacts.space_not_comma ch Hsp).
      by rewrite (PriceFacts.strip_cons ch _ Hsp).
    + rewrite PriceFacts.remove_commas_app. cbn [Text.remove_commas].
      rewrite (PriceFacts.space_not_comma ch Hsp).
      by rewrite (PriceFacts.strip_snoc ch _ Hsp).
Qed.

Lemma to_num_ignores_commas_and_padding_witness :
  to_num_cell Decimal.parse (Str " 1,234.50")
  = to_num_cell Decimal.parse (Str "1,234.50").
Proof.
  apply (to_num_ignores_commas_and_padding Decimal.parse). reflexivity.
Defined.

(** ** Empty tables *)

Module EmptyFacts.

Lemma filter_all {A} (P : A → Prop) `{∀ x, Decision (P x)} (l : list A) :
  (∀ x, x ∈ l → P x) → filter P l = l.
Proof.
  induction l as [|x l IH]; intros Hall; [done|].
  rewrite filter_cons_True by (apply Hall; left).
  rewrite IH; [done|]. intros y Hy. apply Hall. by right.
Qed.

End EmptyFacts.

(** X12.  With a standardized table that has no rows nothing is updated and
    nothing is new: [reconcile] returns the catalog with its keys in
    canonical form, the empty frame and two zero counts. *)
Theorem reconcile_empty_standardized
    {num : Type} `{EqDecision num} (to_numeric : string → option num)
    (standardized catalog : DataFrame) :
  wf_frame catalog → wf_frame standardized →
  has_required catalog → has_required standardized →
  rows standardized = [] →
  reconcile to_numeric standardized catalog
  = Ok (mkDF RangeIndex (columns catalog)
          (norm_row (pos catalog "ItemCode") <$> rows catalog),
        Pandas.empty_frame, 0, 0).
Proof.
  intros Hwfc Hwfm Hrc Hrm Hrows. rewrite reconcile_Ok by done.
  assert (Hkeys : item_keys standardized = [])
    by (unfold item_keys; by rewrite Hrows).
  assert (Hnew : new_keys standardized catalog = [])
    by (unfold new_keys; by rewrite Hkeys).
  assert (Hupd : keys_to_update to_numeric standardized catalog = []).
  { apply ListFacts.filter_none. intros k Hk _.
    apply both_keys_elem in Hk as [_ Hk]. rewrite Hkeys in Hk.
    by apply elem_of_nil in Hk. }
  unfold new_items_table. rewrite Hupd, Hnew. cbn [length].
  rewrite bool_decide_eq_true_2 by done.
  do 4 f_equal. unfold updated_catalog. f_equal.
  apply list_fmap_ext. intros _ r _.
  rewrite updated_row_same; [done|]. rewrite Hupd. apply not_elem_of_nil.
Qed.

Lemma reconcile_empty_standardized_witness :
  reconcile Decimal.parse (mkDF RangeIndex STANDARD_HEADERS []) Examples.catalog_padded
  = Ok (mkDF RangeIndex ["ItemCode"; "PurchasePrice"; "SalesPrice"; "Notes"]
          [ [Str "A1"; Str "10"; Str "20"; Str "keep"];
            [Str "X9"; Str "1"; Str "2"; Str "only"];
            [Str "77"; Str "3"; Str "4"; Str "number"];
            [Str "nan"; Str "5"; Str "6"; Str "blank"] ],
        Pandas.empty_frame, 0, 0).
Proof.
  refine (eq_trans (reconcile_empty_standardized Decimal.parse
                      (mkDF RangeIndex STANDARD_HEADERS []) Examples.catalog_padded
                      _ _ _ _ _) _);
    try (eapply bool_decide_unpack; vm_compute; exact I);
    vm_compute; reflexivity.
Defined.

(** X13.  With a catalog that has no rows nothing is updated and every
    distinct standardized key is new: the new count is the number of
    distinct canonical keys of the standardized table, and the new-items
    table has that many rows. *)
Theorem reconcile_empty_catalog
    {num : Type} `{EqDecision num} (to_numeric : string → option num)
    (standardized catalog : DataFrame) :
  wf_frame catalog → wf_frame standardized →
  has_required catalog → has_required standardized →
  rows catalog = [] →
  ∃ n,
    reconcile to_numeric standardized catalog
    = Ok (mkDF RangeIndex (columns catalog) [], n, 0,
          length (remove_dups (item_keys standardized)))
    ∧ length (rows n) = length (remove_dups (item_keys standardized)).
Proof.
  intros Hwfc Hwfm Hrc Hrm Hrows. rewrite reconcile_Ok by done.
  assert (Hkeys : item_keys catalog = [])
    by (unfold item_keys; by rewrite Hrows).
  assert (Hnew : new_keys standardized catalog
                 = remove_dups (item_keys standardized)).
  { unfold new_keys. apply EmptyFacts.filter_all. intros k _.
    rewrite Hkeys. apply not_elem_of_nil. }
  assert (Hupd : keys_to_update to_numeric standardized catalog = []).
  { apply ListFacts.filter_none. intros k Hk _.
    apply both_keys_elem in Hk as [Hk _]. rewrite Hkeys in Hk.
    by apply elem_of_nil in Hk. }
  eexists. split.
  - rewrite Hupd, Hnew. unfold updated_catalog. by rewrite Hrows.
  - unfold new_items_table. rewrite Hnew. case_bool_decide as Hnil.
    + by rewrite Hnil.
    + rewrite NewItemsFacts.new_items_of_length. unfold df_new_of.
      cbn [rows]. by rewrite length_fmap, Hnew.
Qed.

Lemma reconcile_empty_catalog_witness :
  ∃ n,
    reconcile Decimal.parse Examples.standardized
      (mkDF RangeIndex ["ItemCode"; "PurchasePrice"; "SalesPrice"] [])
    = Ok (mkDF RangeIndex ["ItemCode"; "PurchasePrice"; "SalesPrice"] [], n, 0, 3)
    ∧ length (rows n) = 3.
Proof.
  destruct (reconcile_empty_catalog Decimal.parse Examples.standardized
              (mkDF RangeIndex ["ItemCode"; "PurchasePrice"; "SalesPrice"] []))
    as (n & Hr & Hlen);
    try (eapply bool_decide_unpack; vm_compute; exact I).
  exists n. split; [exact Hr|exact Hlen].
Defined.

(** X14.  A standardized table without an [ItemCode] column makes
    [reconcile] fail with the [KeyError] of that label, which is not the
    schema error raised for the catalog. *)
Theorem reconcile_standardized_without_item_code
    {num : Type} `{EqDecision num} (to_numeric : string → option num)
    (standardized catalog : DataFrame) :
  has_required catalog →
  "ItemCode" ∉ columns standardized →
  reconcile to_numeric standardized catalog = Raise (KeyError "ItemCode")
  ∧ foreign (KeyError "ItemCode").
Proof.
  intros Hrc Hno. split; [|by intros missing].
  rewrite reconcile_exports. unfold exports.
  rewrite missing_cols_nil
    by (intros x Hx; by apply ColumnFacts.has_required_elem).
  rewrite bool_decide_eq_false_2 by (intros Hn; by apply Hn).
  destruct (ColumnFacts.has_required_cols _ Hrc) as (Hic & _ & _).
  rewrite (FrameFacts.normalized_spec catalog (pos catalog "ItemCode"))
    by (by apply ColumnFacts.pos_Some).
  rewrite res_bind_Ok. unfold normalized at 1. unfold Pandas.getitem.
  destruct (Pandas.get_loc (columns standardized) "ItemCode") as [i|] eqn:E; [|done].
  apply FrameFacts.get_loc_Some in E. exfalso. apply Hno.
  by eapply list_elem_of_lookup_2.
Qed.

Lemma reconcile_standardized_without_item_code_witness :
  reconcile Decimal.parse (mkDF RangeIndex ["PurchasePrice"; "SalesPrice"] [])
    Examples.catalog
  = Raise (KeyError "ItemCode").
Proof.
  apply (reconcile_standardized_without_item_code Decimal.parse
           (mkDF RangeIndex ["PurchasePrice"; "SalesPrice"] []) Examples.catalog);
    [eapply bool_decide_unpack; vm_compute; exact I
    |eapply bool_decide_eq_false_1; vm_compute; reflexivity].
Defined.

(** ** The rows of the New Items sheet *)

Module NewRowFacts.
Import Pandas ListFacts FrameFacts ColumnFacts.

Lemma get_loc_absent cols c : c ∉ cols → get_loc cols c = None.
Proof.
  intros Hc. destruct (get_loc cols c) as [i|] eqn:E; [|done].
  apply get_loc_Some in E. exfalso. apply Hc. by eapply list_elem_of_lookup_2.
Qed.

Lemma get_loc_head c cols : get_loc (c :: cols) c = Some 0.
Proof. unfold get_loc. cbn. by rewrite decide_True. Qed.

Lemma get_loc_tail x c cols : x ≠ c → get_loc (x :: cols) c = S <$> get_loc cols c.
Proof.
  intros Hne. unfold get_loc. cbn. rewrite decide_False by done.
  by destruct (list_find (λ y, y = c) cols) as [[i y]|].
Qed.

Lemma delete_absent (cols : list string) i c : c ∉ cols → c ∉ delete i cols.
Proof.
  intros Hc Hin. apply Hc. eapply elem_of_sublist; [exact Hin|].
  apply sublist_delete.
Qed.

(** The frame of the new keys is built whenever the standardized table has
    its key column. *)
Lemma new_items_frame_keyed m c :
  wf_frame m → "ItemCode" ∈ columns m →
  new_items_frame (lookup_frame (pos m "ItemCode") m) (new_keys m c)
  = Ok (new_items_table m c).
Proof.
  intros (_ & Hndm & Hlenm) HI.
  unfold new_items_frame, new_items_table.
  destruct (new_keys m c) as [|k0 ks] eqn:E; [done|].
  rewrite bool_decide_eq_true_2 by (simpl; lia).
  rewrite bool_decide_eq_false_2 by done.
  rewrite <- E.
  rewrite (loc_frame_lookup m (pos m "ItemCode"))
    by (intros k Hk; by apply new_keys_elem in Hk as [? _]).
  cbn. unfold reset_index. cbn [index columns].
  rewrite bool_decide_eq_false_2
    by (apply not_in_delete; eauto using pos_Some).
  cbn. f_equal. f_equal. unfold df_new_of. f_equal.
  unfold index_labels. cbn [index labels_of rows].
  rewrite <- (list_fmap_id (new_keys m c)) at 1.
  by rewrite zip_with_fmap_both.
Qed.

Section Row.

Variables (m c : DataFrame).
Hypothesis Hwf : wf_frame m.
Hypothesis HI : "ItemCode" ∈ columns m.
Variables (i : nat) (k : cell).
Hypothesis Hk : new_keys m c !! i = Some k.

Local Abbreviation r := (default [] (last_row (pos m "ItemCode") (rows m) k)).

Lemma df_new_row :
  rows (df_new_of m c) !! i = Some (k :: delete (pos m "ItemCode") r).
Proof. unfold df_new_of. cbn [rows]. by rewrite list_lookup_fmap, Hk. Qed.

Lemma get_key : colspec_at i (get (df_new_of m c) "ItemCode" (Str "")) = k.
Proof.
  unfold get, getitem. cbn [columns df_new_of]. rewrite get_loc_head.
  cbn [colspec_at s_values]. by rewrite list_lookup_fmap, df_new_row.
Qed.

Lemma get_field f :
  f ≠ "ItemCode" →
  colspec_at i (get (df_new_of m c) f (Str ""))
  = if bool_decide (f ∈ columns m) then cell_at (pos m f) r else Str "".
Proof.
  intros Hne. unfold get, getitem. cbn [columns df_new_of].
  rewrite get_loc_tail by done. case_bool_decide as Hf.
  - destruct (price_loc m f) as (j' & Hj' & Hcell); [done..|].
    rewrite Hj'. cbn [fmap option_fmap option_map colspec_at s_values].
    rewrite list_lookup_fmap, df_new_row. cbn. apply Hcell.
  - rewrite get_loc_absent by (by apply delete_absent). done.
Qed.

End Row.

Lemma new_items_of_rows m c :
  wf_frame m → "ItemCode" ∈ columns m →
  new_items_of (df_new_of m c)
  = mkDF RangeIndex NEW_ITEMS_HEADERS (new_item_row m <$> new_keys m c).
Proof.
  intros Hwf HI. unfold new_items_of, from_dict. f_equal.
  assert (Hlen : len (df_new_of m c) = length (new_keys m c))
    by (unfold len, df_new_of; cbn [rows]; by rewrite length_fmap).
  rewrite Hlen. apply BuildFacts.seq_fmap_lookup. intros i k Hk.
  assert (Hi : (i < length (new_keys m c))%nat) by (by eapply lookup_lt_Some).
  cbn [fmap list_fmap snd].
  rewrite !BuildFacts.colspec_at_replicate by done.
  rewrite (get_key m c i k Hk).
  rewrite !(get_field m c Hwf HI i k Hk) by done.
  reflexivity.
Qed.

Lemma new_items_table_rows m c :
  wf_frame m → "ItemCode" ∈ columns m →
  new_items_table m c
  = if bool_decide (new_keys m c = []) then empty_frame
    else mkDF RangeIndex NEW_ITEMS_HEADERS (new_item_row m <$> new_keys m c).
Proof.
  intros Hwf HI. unfold new_items_table. case_bool_decide; [done|].
  by apply new_items_of_rows.
Qed.

End NewRowFacts.

(** X15.  What the New Items sheet holds: one row per new key, in the order
    of [new_keys]; the row carries the key in canonical form and, under
    every other standard field the standardized table has, the cell of the
    last standardized row with that key, as it is (prices are not
    parsed). *)
Theorem reconcile_new_item_rows
    {num : Type} `{EqDecision num} (to_numeric : string → option num)
    (standardized catalog : DataFrame) :
  wf_frame catalog → wf_frame standardized →
  has_required catalog → has_required standardized →
  ∃ u n uc nc,
    reconcile to_numeric standardized catalog = Ok (u, n, uc, nc)
    ∧ (new_keys standardized catalog ≠ [] →
       n = mkDF RangeIndex NEW_ITEMS_HEADERS
             (new_item_row standardized <$> new_keys standardized catalog))
    ∧ (∀ k, k ∈ new_keys standardized catalog →
         ∃ r, last (filter (λ r, item_key standardized r = k) (rows standardized))
              = Some r
              ∧ r ∈ rows standardized
              ∧ new_item_row standardized k !! 2 = Some k
              ∧ ∀ j f, NEW_ITEMS_HEADERS !! j = Some f →
                  f ∈ STANDARD_HEADERS → f ≠ "ItemCode" →
                  f ∈ columns standardized →
                  new_item_row standardized k !! j
                  = Some (Pandas.cell_at (pos standardized f) r)).
Proof.
  intros Hwfc Hwfm Hrc Hrm. eexists _, _, _, _.
  split; [by apply reconcile_Ok|].
  destruct (ColumnFacts.has_required_cols _ Hrm) as (HI & _ & _).
  split.
  - intros Hne. rewrite NewRowFacts.new_items_table_rows by done.
    by rewrite bool_decide_eq_false_2.
  - intros k Hk. apply new_keys_elem in Hk as [Hk _].
    destruct (FrameFacts.last_row_Some standardized (pos standardized "ItemCode") k Hk)
      as (r & Hr & _ & Hin).
    exists r. split; [exact Hr|]. split; [done|]. split; [done|].
    intros j f Hj Hstd Hne Hf. unfold new_item_row. rewrite Hr.
    cbn [default from_option id].
    do 14 (destruct j as [|j];
           [injection Hj as <-;
            first [ done
                  | exfalso; by apply Hne
                  | by rewrite (bool_decide_eq_true_2 _ Hf)
                  | exfalso; revert Hstd; eapply bool_decide_eq_false_1;
                    reflexivity ] |]).
    done.
Qed.

Lemma reconcile_new_item_rows_witness :
  ∃ u n uc nc,
    reconcile Decimal.parse Examples.standardized Examples.catalog = Ok (u, n, uc, nc)
    ∧ rows n
      = [ [Str "*"; Str "s"; Str "N1"; Str "d3"; Str "5"; Str "6"; Str ""; Str "";
           Int 1; Str "7"; Str "t"; Str "NULL"; Str "NULL"; Str "NULL"] ].
Proof.
  destruct (reconcile_new_item_rows Decimal.parse
              Examples.standardized Examples.catalog)
    as (u & n & uc & nc & Hr & Hn & _);
    try (eapply bool_decide_unpack; vm_compute; exact I).
  exists u, n, uc, nc. split; [exact Hr|].
  rewrite Hn; [vm_compute; reflexivity|].
  eapply bool_decide_unpack; vm_compute; exact I.
Defined.

(** ** A standardized table without its price columns *)

Section Partial.
Import Pandas ListFacts FrameFacts ColumnFacts.

Context {num : Type} `{EqDecision num}.
Variable to_numeric : string → option num.

Variables (m c : DataFrame).
Hypothesis Hwfc : wf_frame c.
Hypothesis Hwfm : wf_frame m.
Hypothesis Hrc : has_required c.
Hypothesis HI : "ItemCode" ∈ columns m.

(** The steps before the price comparison need the key column only. *)
Lemma exports_keyed :
  exports to_numeric m c
  = '(cu', updated_count) ←
      (if bool_decide (0 < length (both_keys m c)) then
         codes ← codes_to_update_of to_numeric
                   (lookup_frame (pos c "ItemCode") c)
                   (lookup_frame (pos m "ItemCode") m);
         if bool_decide (codes ≠ []) then
           d ← apply_updates (norm_frame (pos c "ItemCode") c)
                 (lookup_frame (pos m "ItemCode") m) codes;
           Ok (d, length codes)
         else Ok (norm_frame (pos c "ItemCode") c, 0)
       else Ok (norm_frame (pos c "ItemCode") c, 0));
    u ← reindex_columns cu' (columns c);
    Ok (u, new_items_table m c, updated_count, length (new_keys m c)).
Proof.
  destruct (has_required_cols _ Hrc) as (HIc & _ & _).
  pose proof Hwfc as (_ & _ & Hlenc). pose proof Hwfm as (_ & _ & Hlenm).
  unfold exports.
  rewrite missing_cols_nil by (intros x Hx; by apply has_required_elem).
  rewrite bool_decide_eq_false_2 by (intros Hn; by apply Hn).
  rewrite (normalized_spec c (pos c "ItemCode")),
          (normalized_spec m (pos m "ItemCode")) by eauto using pos_Some.
  rewrite !res_bind_Ok.
  rewrite (lookup_of_spec c (pos c "ItemCode")),
          (lookup_of_spec m (pos m "ItemCode")) by eauto using pos_Some.
  rewrite !res_bind_Ok.
  rewrite both_codes_spec, new_codes_spec.
  rewrite NewRowFacts.new_items_frame_keyed by done.
  destruct (if bool_decide (0 < length (both_keys m c)) then _ else _)
    as [[cu' n']|e]; [|done].
  by rewrite !res_bind_Ok.
Qed.

Lemma exports_no_shared_key :
  both_keys m c = [] →
  exports to_numeric m c
  = Ok (mkDF RangeIndex (columns c) (norm_row (pos c "ItemCode") <$> rows c),
        new_items_table m c, 0, length (new_keys m c)).
Proof.
  intros Hnil. rewrite exports_keyed, Hnil. cbn [length].
  rewrite bool_decide_eq_false_2 by lia. rewrite res_bind_Ok.
  unfold reindex_columns. cbn [columns norm_frame].
  rewrite decide_True by done. rewrite res_bind_Ok.
  destruct Hwfc as (Hix & _ & _). unfold norm_frame. by rewrite Hix.
Qed.

Lemma exports_missing_price :
  both_keys m c ≠ [] → ¬ has_required m →
  exports to_numeric m c
  = Raise (KeyError (if bool_decide ("PurchasePrice" ∈ columns m)
                     then "SalesPrice" else "PurchasePrice")).
Proof.
  intros Hne Hnot. destruct (has_required_cols _ Hrc) as (HIc & HPc & HSc).
  rewrite exports_keyed.
  rewrite bool_decide_eq_true_2
    by (destruct (both_keys m c); [done|simpl; lia]).
  unfold codes_to_update_of. rewrite both_codes_spec.
  rewrite (loc_col_price c "PurchasePrice"), (loc_col_price c "SalesPrice");
    try done; try (intros k Hk; by apply both_keys_elem in Hk as [? _]).
  rewrite !res_bind_Ok.
  assert (Hraise : ∀ x, x ∉ columns m →
            loc_col (lookup_frame (pos m "ItemCode") m) (both_keys m c) x
            = Raise (KeyError x)).
  { intros x Hx. unfold loc_col. cbn [columns lookup_frame].
    by rewrite NewRowFacts.get_loc_absent by (by apply NewRowFacts.delete_absent). }
  case_bool_decide as HP.
  - rewrite (loc_col_price m "PurchasePrice");
      try done; try (intros k Hk; by apply both_keys_elem in Hk as [_ ?]).
    rewrite res_bind_Ok. rewrite (Hraise "SalesPrice"); [done|].
    intros HS. apply Hnot. unfold has_required, required_catalog_cols.
    by repeat constructor.
  - by rewrite (Hraise "PurchasePrice").
Qed.

End Partial.

(** X16.  [reconcile] checks the schema of the catalog only.  A standardized
    table that has its [ItemCode] column but not both price columns fails
    with the [KeyError] of the first price column it lacks as soon as it
    shares a key with the catalog; when it shares none, the call succeeds,
    nothing is updated, and every standardized key is reported as new, with
    the absent fields left empty in the New Items sheet. *)
Theorem reconcile_standardized_without_prices
    {num : Type} `{EqDecision num} (to_numeric : string → option num)
    (standardized catalog : DataFrame) :
  wf_frame catalog → wf_frame standardized →
  has_required catalog → "ItemCode" ∈ columns standardized →
  (both_keys standardized catalog = [] →
   reconcile to_numeric standardized catalog
   = Ok (mkDF RangeIndex (columns catalog)
           (norm_row (pos catalog "ItemCode") <$> rows catalog),
         (if bool_decide (new_keys standardized catalog = []) then Pandas.empty_frame
          else mkDF RangeIndex NEW_ITEMS_HEADERS
                 (new_item_row standardized <$> new_keys standardized catalog)),
         0, length (new_keys standardized catalog)))
  ∧ (both_keys standardized catalog ≠ [] → ¬ has_required standardized →
     reconcile to_numeric standardized catalog
     = Raise (KeyError (if bool_decide ("PurchasePrice" ∈ columns standardized)
                        then "SalesPrice" else "PurchasePrice"))).
Proof.
  intros Hwfc Hwfm Hrc HI. rewrite reconcile_exports. split.
  - intros Hnil. rewrite exports_no_shared_key by done.
    by rewrite NewRowFacts.new_items_table_rows.
  - intros Hne Hnot. by apply exports_missing_price.
Qed.

Lemma reconcile_standardized_without_prices_witness :
  reconcile Decimal.parse
    (mkDF RangeIndex ["ItemCode"; "Description"] [ [Str " N1 "; Str "new part"] ])
    Examples.catalog_dup
  = Ok (mkDF RangeIndex ["ItemCode"; "PurchasePrice"; "SalesPrice"; "Notes"]
          [ [Str "A1"; Str "10"; Str "25"; Str "first"];
            [Str "B2"; Str "1"; Str "2"; Str "other"];
            [Str "A1"; Str "10"; Str "20"; Str "second"] ],
        mkDF RangeIndex NEW_ITEMS_HEADERS
          [ [Str "*"; Str ""; Str "N1"; Str "new part"; Str ""; Str ""; Str "";
             Str ""; Int 1; Str ""; Str ""; Str "NULL"; Str "NULL"; Str "NULL"] ],
        0, 1)
  ∧ reconcile Decimal.parse
      (mkDF RangeIndex ["ItemCode"; "PurchasePrice"] [ [Str "A1"; Str "11"] ])
      Examples.catalog_dup
    = Raise (KeyError "SalesPrice").
Proof.
  split.
  - refine (eq_trans
              (proj1 (reconcile_standardized_without_prices Decimal.parse
                        (mkDF RangeIndex ["ItemCode"; "Description"]
                           [ [Str " N1 "; Str "new part"] ])
                        Examples.catalog_dup _ _ _ _) _) _);
      try (eapply bool_decide_unpack; vm_compute; exact I);
      vm_compute; reflexivity.
  - refine (eq_trans
              (proj2 (reconcile_standardized_without_prices Decimal.parse
                        (mkDF RangeIndex ["ItemCode"; "PurchasePrice"]
                           [ [Str "A1"; Str "11"] ])
                        Examples.catalog_dup _ _ _ _) _ _) _);
      try (eapply bool_decide_unpack; vm_compute; exact I);
      try (eapply bool_decide_eq_false_1; vm_compute; reflexivity);
      vm_compute; reflexivity.
Defined.

(** ** From the source extract to the exports *)

Module DistinctFacts.

Lemma remove_dups_NoDup (l : list cell) : NoDup l → remove_dups l = l.
Proof.
  induction 1 as [|x l Hx Hnd IH]; [done|]. cbn.
  destruct (decide_rel elem_of x l); [done|]. by rewrite IH.
Qed.

Lemma filter_fmap_comp {A B} (P : B → Prop) `{∀ x, Decision (P x)}
    (f : A → B) (l : list A) :
  filter P (f <$> l) = f <$> filter (λ x, P (f x)) l.
Proof.
  induction l as [|x l IH]; [done|]. rewrite fmap_cons, !filter_cons.
  destruct (decide (P (f x))); [rewrite fmap_cons|]; by rewrite IH.
Qed.

Section Distinct.

Context {num : Type} `{EqDecision num}.
Variable to_numeric : string → option num.

Variables (m c : DataFrame).
Hypothesis Hnd : NoDup (item_keys m).

(** With distinct keys every row is the row consulted for its key. *)
Lemma key_cell_own col r :
  r ∈ rows m → key_cell m col (item_key m r) = Pandas.cell_at (pos m col) r.
Proof.
  intros Hr. apply list_elem_of_split in Hr as (rs & rs' & Hrows).
  apply (key_cell_last m col _ rs r rs' Hrows); [done|].
  intros r' Hr' Heq. unfold item_keys in Hnd. rewrite Hrows in Hnd.
  rewrite fmap_app, fmap_cons in Hnd.
  apply NoDup_app in Hnd as (_ & _ & Hnd'). apply NoDup_cons in Hnd' as [Hnot _].
  apply Hnot. rewrite <- Heq. by apply list_elem_of_fmap_2.
Qed.

Lemma new_keys_rows :
  new_keys m c
  = item_key m <$> filter (λ r, item_key m r ∉ item_keys c) (rows m).
Proof.
  unfold new_keys. rewrite remove_dups_NoDup by done.
  change (item_keys m) with (item_key m <$> rows m).
  by rewrite filter_fmap_comp.
Qed.

Lemma keys_to_update_rows :
  length (keys_to_update to_numeric m c)
  = length (filter (λ r, item_key m r ∈ item_keys c
                         ∧ differs to_numeric m c (item_key m r) = true)
              (rows m)).
Proof.
  unfold keys_to_update.
  rewrite (Permutation_length
             (filter_Permutation _ _ _ (CountFacts.both_keys_perm m c))).
  rewrite remove_dups_NoDup by done. rewrite list_filter_filter.
  change (item_keys m) with (item_key m <$> rows m).
  rewrite filter_fmap_comp, length_fmap.
  f_equal. apply list_filter_iff. intros r. tauto.
Qed.

End Distinct.

End DistinctFacts.

Section Pipeline.
Import Pandas ListFacts FrameFacts ColumnFacts BuildFacts.

Variables (df_source : DataFrame) (mapping : gmap string string).
Variables (marina_location_id addition_dt : string).

Local Abbreviation staged :=
  (kept (std_row df_source mapping marina_location_id addition_dt
           <$> rows df_source)).
Local Abbreviation out :=
  (mkDF RangeIndex STANDARD_HEADERS (select (is_last (std_key <$> staged)) staged)).

Lemma out_wf : wf_frame out.
Proof.
  split_and!; [done|by apply (bool_decide_unpack _)|].
  cbn [columns rows]. apply Forall_forall. intros r Hr.
  apply out_rows_staged in Hr as (r0 & _ & ->). reflexivity.
Qed.

Lemma out_has_required : has_required out.
Proof. by apply (bool_decide_unpack _). Qed.

Lemma out_item_key r : r ∈ rows out → item_key out r = std_key r.
Proof.
  intros Hr. cbn [rows] in Hr. apply out_rows_staged in Hr as (r0 & _ & ->).
  change (item_key out) with (key_of 1). unfold key_of.
  fold (std_key (std_row df_source mapping marina_location_id addition_dt r0)).
  rewrite std_key_row. cbn [astype_str]. by rewrite TextFacts.strip_idem.
Qed.

Lemma out_item_keys : item_keys out = std_key <$> rows out.
Proof.
  unfold item_keys. apply list_fmap_ext. intros i r Hi.
  apply out_item_key. by eapply list_elem_of_lookup_2.
Qed.

Lemma out_keys_NoDup : NoDup (item_keys out).
Proof. rewrite out_item_keys. apply out_rows_keys_NoDup. Qed.

End Pipeline.

(** X17.  The two steps compose: the table [build_df_mapped] returns is
    accepted by [reconcile] for every catalog that has the three required
    columns.  Its keys are already canonical and distinct, so each of its
    rows is the row consulted for its key, the new count is the number of
    its rows whose key the catalog lacks, and the updated count the number
    of its rows whose key the catalog has with differing prices. *)
Theorem build_then_reconcile
    {num : Type} `{EqDecision num} (to_numeric : string → option num)
    (df_source : DataFrame) (mapping : gmap string string)
    (marina_location_id addition_dt : string) (catalog : DataFrame) :
  wf_frame df_source → mapping_ok df_source mapping →
  wf_frame catalog → has_required catalog →
  ∃ out u n uc nc,
    build_df_mapped df_source mapping marina_location_id addition_dt = Ok out
    ∧ reconcile to_numeric out catalog = Ok (u, n, uc, nc)
    ∧ (∀ r, r ∈ rows out → item_key out r = std_key r)
    ∧ (∀ r col, r ∈ rows out →
         key_cell out col (std_key r) = Pandas.cell_at (pos out col) r)
    ∧ nc = length (filter (λ r, item_key out r ∉ item_keys catalog) (rows out))
    ∧ uc = length (filter (λ r, item_key out r ∈ item_keys catalog
                                ∧ differs to_numeric out catalog (item_key out r)
                                  = true)
                     (rows out)).
Proof.
  intros _ Hmap Hwfc Hrc. eexists _, _, _, _, _.
  split; [by apply BuildFacts.build_df_mapped_spec|]. cbv zeta.
  split; [apply reconcile_Ok; auto using out_wf, out_has_required|].
  pose proof (out_keys_NoDup df_source mapping marina_location_id addition_dt)
    as Hnd.
  split_and!.
  - apply out_item_key.
  - intros r col Hr. rewrite <- (out_item_key _ _ _ _ r Hr).
    by apply DistinctFacts.key_cell_own.
  - by rewrite DistinctFacts.new_keys_rows, length_fmap.
  - by apply DistinctFacts.keys_to_update_rows.
Qed.

Lemma build_then_reconcile_witness :
  ∃ out u n uc nc,
    build_df_mapped Examples.source Examples.mapping "7" "now" = Ok out
    ∧ reconcile Decimal.parse out Examples.catalog_dup = Ok (u, n, uc, nc)
    ∧ (∀ r, r ∈ rows out → item_key out r = std_key r).
Proof.
  destruct (build_then_reconcile Decimal.parse Examples.source Examples.mapping
              "7" "now" Examples.catalog_dup)
    as (out & u & n & uc & nc & Hout & Hr & Hkey & _);
    try (eapply bool_decide_unpack; vm_compute; exact I).
  exists out, u, n, uc, nc. split; [exact Hout|]. split; [exact Hr|exact Hkey].
Defined.

(** ** Mapping a standardized table onto itself *)

Module RemapFacts.
Import Pandas ListFacts FrameFacts ColumnFacts BuildFacts.

Lemma select_is_last_NoDup {A} (key : A → cell) (l : list A) :
  NoDup (key <$> l) → select (is_last (key <$> l)) l = l.
Proof.
  induction l as [|x l IH]; [done|]. rewrite fmap_cons. intros Hnd.
  apply NoDup_cons in Hnd as [Hx Hnd]. cbn [is_last select].
  rewrite bool_decide_eq_true_2 by done. by rewrite IH.
Qed.

Lemma identity_mapping_ok ix rs :
  mapping_ok (mkDF ix STANDARD_HEADERS rs) identity_mapping.
Proof. by apply (bool_decide_unpack _). Qed.

Section Remap.

Variables (df_source : DataFrame) (mapping : gmap string string).
Variables (marina_location_id addition_dt : string).
Variables (location' datetime' : string).

Local Abbreviation staged :=
  (kept (std_row df_source mapping marina_location_id addition_dt
           <$> rows df_source)).
Local Abbreviation out :=
  (mkDF RangeIndex STANDARD_HEADERS (select (is_last (std_key <$> staged)) staged)).
Local Abbreviation again :=
  (std_row out identity_mapping location' datetime').

Lemma again_field f i r :
  STANDARD_HEADERS !! i = Some f → f ∈ DROPDOWN_MAPPED_FIELDS →
  field_cell out identity_mapping location' datetime' f r = cell_at i r.
Proof.
  intros Hi Hf.
  assert (Hid : identity_mapping !! f = Some f).
  { revert Hf. unfold DROPDOWN_MAPPED_FIELDS. rewrite !elem_of_cons.
    intros Hf. repeat (destruct Hf as [->|Hf]; [reflexivity|]).
    by apply elem_of_nil in Hf. }
  assert (Hne : f ≠ "" ∧ f ≠ "(not mapped)").
  { revert Hf. unfold DROPDOWN_MAPPED_FIELDS. rewrite !elem_of_cons.
    intros Hf. repeat (destruct Hf as [->|Hf]; [done|]).
    by apply elem_of_nil in Hf. }
  destruct Hne as [Hne1 Hne2].
  rewrite (field_cell_mapped out identity_mapping location' datetime' f f r)
    by done.
  unfold pos. cbn [columns].
  rewrite (get_loc_lookup STANDARD_HEADERS f i); [done| |done].
  by apply (bool_decide_unpack _).
Qed.

(** Mapped onto itself, a row of the standardized table keeps its seven
    mapped cells and takes the location and the timestamp of the call. *)
Lemma again_row r :
  r ∈ rows out → again r = take 7 r ++ [Str location'; Str datetime'].
Proof.
  intros Hr. cbn [rows] in Hr. apply out_rows_staged in Hr as (r0 & _ & ->).
  rewrite (srow_cells out).
  rewrite (again_field "Supplier" 0), (again_field "ItemCode" 1),
    (again_field "Description" 2), (again_field "PurchasePrice" 3),
    (again_field "SalesPrice" 4), (again_field "SV_ManufacturerId" 5),
    (again_field "ListCategory" 6)
    by (first [ reflexivity | by apply (bool_decide_unpack _) ]).
  rewrite (srow_cells df_source). unfold cell_at.
  cbn -[Text.strip field_cell]. by rewrite TextFacts.strip_idem.
Qed.

Lemma again_key r : r ∈ rows out → std_key (again r) = std_key r.
Proof.
  intros Hr. rewrite again_row by done.
  cbn [rows] in Hr. apply out_rows_staged in Hr as (r0 & _ & ->).
  by rewrite (srow_cells df_source).
Qed.

Lemma again_keys : std_key <$> (again <$> rows out) = std_key <$> rows out.
Proof.
  rewrite <- list_fmap_compose. apply list_fmap_ext. intros i r Hi.
  apply again_key. by eapply list_elem_of_lookup_2.
Qed.

Lemma again_kept : kept (again <$> rows out) = again <$> rows out.
Proof.
  apply EmptyFacts.filter_all. intros r Hr.
  apply (kept_key out identity_mapping location' datetime' r Hr).
  apply list_elem_of_fmap in Hr as (r1 & -> & Hr1).
  rewrite again_key by done. cbn [rows] in Hr1.
  eapply (kept_nonblank df_source mapping marina_location_id addition_dt).
  eapply elem_of_sublist; [exact Hr1|apply select_sublist].
Qed.

Lemma build_again :
  build_df_mapped out identity_mapping location' datetime'
  = Ok (mkDF RangeIndex STANDARD_HEADERS
          ((λ r, take 7 r ++ [Str location'; Str datetime']) <$> rows out)).
Proof.
  rewrite build_df_mapped_spec by apply identity_mapping_ok.
  cbv zeta. rewrite again_kept.
  rewrite select_is_last_NoDup
    by (rewrite again_keys; apply out_rows_keys_NoDup).
  do 2 f_equal. apply list_fmap_ext. intros i r Hi.
  apply again_row. by eapply list_elem_of_lookup_2.
Qed.

Lemma out_row_tail r :
  r ∈ rows out →
  take 7 r ++ [Str marina_location_id; Str addition_dt] = r.
Proof.
  intros Hr. cbn [rows] in Hr. apply out_rows_staged in Hr as (r0 & _ & ->).
  by rewrite (srow_cells df_source).
Qed.

End Remap.

End RemapFacts.

(** X18.  The mapping step is idempotent: fed its own output with every
    field mapped to the column of the same name, [build_df_mapped] drops
    and merges no row and changes no mapped cell; only the location and the
    timestamp are those of the new call, so that with the same two values
    the output is reproduced exactly. *)
Theorem build_df_mapped_idempotent
    (df_source : DataFrame) (mapping : gmap string string)
    (marina_location_id addition_dt location' datetime' : string) :
  wf_frame df_source → mapping_ok df_source mapping →
  ∃ out,
    build_df_mapped df_source mapping marina_location_id addition_dt = Ok out
    ∧ build_df_mapped out identity_mapping location' datetime'
      = Ok (mkDF RangeIndex STANDARD_HEADERS
              ((λ r, take 7 r ++ [Str location'; Str datetime']) <$> rows out))
    ∧ build_df_mapped out identity_mapping marina_location_id addition_dt
      = Ok out.
Proof.
  intros _ Hmap. eexists.
  split; [by apply BuildFacts.build_df_mapped_spec|]. cbv zeta.
  split; [apply RemapFacts.build_again|].
  rewrite RemapFacts.build_again. do 2 f_equal.
  rewrite <- (list_fmap_id (Pandas.select _ _)) at 2.
  apply list_fmap_ext. intros i r Hi.
  eapply RemapFacts.out_row_tail. by eapply list_elem_of_lookup_2.
Qed.

Lemma build_df_mapped_idempotent_witness :
  ∃ out,
    build_df_mapped Examples.source Examples.mapping "7" "now" = Ok out
    ∧ build_df_mapped out identity_mapping "7" "now" = Ok out.
Proof.
  destruct (build_df_mapped_idempotent Examples.source Examples.mapping
              "7" "now" "8" "later")
    as (out & Hout & _ & Hsame);
    try (eapply bool_decide_unpack; vm_compute; exact I).
  exists out. split; [exact Hout|exact Hsame].
Defined.

(** ** The mapping form *)

Module FormFacts.
Import Pandas FrameFacts.

Section Form.

Variable selectbox : string → list string → nat → string.
Hypothesis selectbox_option :
  ∀ label options i, (i < length options)%nat → selectbox label options i ∈ options.

Variable source_cols : list string.
Hypothesis Hnot : "(not mapped)" ∈ source_cols.

Lemma list_index_elem x :
  x ∈ source_cols →
  ∃ i, list_index source_cols x = Ok i ∧ (i < length source_cols)%nat.
Proof.
  intros Hx. unfold list_index.
  destruct (get_loc_elem _ _ Hx) as [i Hi]. rewrite Hi.
  exists i. split; [done|]. apply get_loc_Some in Hi. by eapply lookup_lt_Some.
Qed.

Lemma mapping_form_spec fields mapping :
  ∃ mapping',
    mapping_form selectbox source_cols fields mapping = Ok mapping'
    ∧ (∀ f, f ∈ fields → ∃ c, mapping' !! f = Some c ∧ c ∈ source_cols)
    ∧ (∀ f, f ∉ fields → mapping' !! f = mapping !! f).
Proof.
  revert mapping. induction fields as [|field rest IH]; intros mapping.
  { exists mapping. split; [done|]. split; [|done].
    intros f Hf. by apply elem_of_nil in Hf. }
  cbn [mapping_form]. cbv zeta.
  set (dflt := default "(not mapped)" (mapping !! field)).
  assert (Hstep : ∃ d mp,
            (if bool_decide (dflt ∉ source_cols)
             then ("(not mapped)", <[field := "(not mapped)"]> mapping)
             else (dflt, mapping)) = (d, mp)
            ∧ d ∈ source_cols
            ∧ ∀ f, f ≠ field → mp !! f = mapping !! f).
  { case_bool_decide as Hd.
    - eexists _, _. split; [done|]. split; [done|].
      intros f Hf. by rewrite lookup_insert_ne.
    - eexists _, _. split; [done|]. split; [|done].
      by destruct (decide (dflt ∈ source_cols)). }
  destruct Hstep as (d & mp & -> & Hd & Hmp).
  destruct (list_index_elem d Hd) as (i & -> & Hi). rewrite res_bind_Ok.
  destruct (IH (<[field := selectbox field source_cols i]> mp))
    as (mapping' & -> & Hin & Hout).
  exists mapping'. split; [done|]. split.
  - intros f Hf. destruct (decide (f ∈ rest)) as [Hr|Hr]; [by apply Hin|].
    apply elem_of_cons in Hf as [->|Hf]; [|done].
    rewrite Hout by done. rewrite lookup_insert_eq.
    eexists. split; [done|]. by apply selectbox_option.
  - intros f Hf. apply not_elem_of_cons in Hf as [Hne Hf].
    rewrite Hout by done. rewrite lookup_insert_ne by done. by apply Hmp.
Qed.

End Form.

End FormFacts.

(** X19.  The mapping form never fails and never leaves a stale choice
    behind: provided a select box returns one of its options, the look-up
    of the default among the options always succeeds, and afterwards every
    mappable field is bound to [(not mapped)] or to a column of the source,
    so that the mapping meets what [build_df_mapped] needs; entries under
    other names are kept. *)
Theorem mapping_dropdowns_ok
    (selectbox : string → list string → nat → string)
    (df_source : DataFrame) (mapping : gmap string string) :
  (∀ label options i, (i < length options)%nat →
     selectbox label options i ∈ options) →
  ∃ mapping',
    mapping_dropdowns selectbox df_source mapping = Ok mapping'
    ∧ (∀ f, f ∈ DROPDOWN_MAPPED_FIELDS →
         ∃ c, mapping' !! f = Some c
              ∧ (c = "(not mapped)" ∨ c ∈ columns df_source))
    ∧ (∀ f, f ∉ DROPDOWN_MAPPED_FIELDS → mapping' !! f = mapping !! f)
    ∧ mapping_ok df_source mapping'.
Proof.
  intros Hsel. unfold mapping_dropdowns. cbv zeta.
  destruct (FormFacts.mapping_form_spec selectbox Hsel
              ("(not mapped)" :: columns df_source) ltac:(left)
              DROPDOWN_MAPPED_FIELDS mapping)
    as (mapping' & Hform & Hin & Hout).
  exists mapping'. split; [done|].
  assert (Hfields : ∀ f, f ∈ DROPDOWN_MAPPED_FIELDS →
            ∃ c, mapping' !! f = Some c
                 ∧ (c = "(not mapped)" ∨ c ∈ columns df_source)).
  { intros f Hf. destruct (Hin f Hf) as (c & Hc & Hcol).
    exists c. split; [done|]. by apply elem_of_cons in Hcol. }
  split; [done|]. split; [done|].
  apply Forall_forall. intros f Hf. cbv zeta.
  destruct (Hfields f Hf) as (c & -> & Hc). cbn [from_option id]. tauto.
Qed.

Lemma mapping_dropdowns_ok_witness :
  ∃ mapping',
    mapping_dropdowns (λ _ options i, default "" (options !! i))
      Examples.source {[ "ItemCode" := "code"; "Supplier" := "gone" ]}
    = Ok mapping'
    ∧ mapping_ok Examples.source mapping'.
Proof.
  destruct (mapping_dropdowns_ok (λ _ options i, default "" (options !! i))
              Examples.source {[ "ItemCode" := "code"; "Supplier" := "gone" ]})
    as (mapping' & Hform & _ & _ & Hok).
  { intros _ options i Hi. destruct (lookup_lt_is_Some_2 options i Hi) as [x Hx].
    rewrite Hx. by eapply list_elem_of_lookup_2. }
  exists mapping'. split; [exact Hform|exact Hok].
Defined.

(** X20.  Pressing "Create Mapped Fields" after the form has run cannot end
    in a failure: it is refused exactly when [ItemCode] is bound to
    [(not mapped)], and otherwise stores the table [build_df_mapped]
    returns.  A source column whose name is empty passes the check but
    counts as unmapped, so choosing it for [ItemCode] stores a table
    without rows. *)
Theorem create_mapped_fields_never_fails
    (selectbox : string → list string → nat → string) (now_stamp : string)
    (df_source : DataFrame) (mapping : gmap string string)
    (marina_location_id addition_dt : option string) :
  (∀ label options i, (i < length options)%nat →
     selectbox label options i ∈ options) →
  wf_frame df_source →
  ∃ mapping' c,
    mapping_dropdowns selectbox df_source mapping = Ok mapping'
    ∧ mapping' !! "ItemCode" = Some c
    ∧ let result :=
        create_mapped_fields now_stamp df_source mapping'
          marina_location_id addition_dt in
      (c = "(not mapped)" → result = Blocked)
      ∧ (c ≠ "(not mapped)" →
         ∃ df_mapped, result = Created df_mapped
                      ∧ columns df_mapped = STANDARD_HEADERS)
      ∧ (c = "" → result = Created (mkDF RangeIndex STANDARD_HEADERS [])).
Proof.
  intros Hsel Hwf. unfold mapping_dropdowns. cbv zeta.
  destruct (FormFacts.mapping_form_spec selectbox Hsel
              ("(not mapped)" :: columns df_source) ltac:(left)
              DROPDOWN_MAPPED_FIELDS mapping)
    as (mapping' & Hform & Hin & _).
  assert (Hok : mapping_ok df_source mapping').
  { apply Forall_forall. intros f Hf. cbv zeta.
    destruct (Hin f Hf) as (c & -> & Hc). cbn [from_option id].
    apply elem_of_cons in Hc. tauto. }
  destruct (Hin "ItemCode") as (c & Hc & _).
  { unfold DROPDOWN_MAPPED_FIELDS. rewrite !elem_of_cons. tauto. }
  exists mapping', c. split; [done|]. split; [done|]. cbv zeta.
  unfold create_mapped_fields. rewrite Hc. cbn [from_option id].
  split_and!.
  - intros ->. by rewrite bool_decide_eq_true_2.
  - intros Hne. rewrite bool_decide_eq_false_2 by done.
    rewrite BuildFacts.build_df_mapped_spec by done. by eexists.
  - intros ->. rewrite bool_decide_eq_false_2 by done.
    rewrite BuildFacts.build_df_mapped_spec by done.
    cbv zeta. rewrite unmapped_item_code_kept; [done|].
    cbv zeta. rewrite Hc. by left.
Qed.

Lemma create_mapped_fields_never_fails_witness :
  ∃ mapping' c,
    mapping_dropdowns (λ _ options i, default "" (options !! i))
      Examples.source Examples.mapping = Ok mapping'
    ∧ mapping' !! "ItemCode" = Some c.
Proof.
  destruct (create_mapped_fields_never_fails
              (λ _ options i, default "" (options !! i)) "2024-01-01 00:00:00"
              Examples.source Examples.mapping (Some " 7 ") None)
    as (mapping' & c & Hform & Hc & _).
  { intros _ options i Hi. destruct (lookup_lt_is_Some_2 options i Hi) as [x Hx].
    rewrite Hx. by eapply list_elem_of_lookup_2. }
  { eapply bool_decide_unpack; vm_compute; exact I. }
  exists mapping', c. split; [exact Hform|exact Hc].
Defined.
